(** * python-igraph: the [Graph] class's file-format dispatch, compressed
    GraphML wrappers and the SVG / Cairo renderers ([package/__init__.py]).

    The Python methods are embedded as Rocq functions over an explicit
    world (files on disk plus a log of the file operations performed), with
    Python exceptions as values of a result type. *)

From Stdlib Require Import ZArith QArith List String Ascii Bool Lia.
From stdpp Require Import gmap strings pretty.
From Stdlib Require Import Lqa.

Local Open Scope string_scope.
Local Open Scope list_scope.

(** ** Python values, exceptions and results *)

(** The values that attribute lists and drawing parameters hold. *)
Inductive pyval :=
| PNone
| PInt (z : Z)
| PStr (s : string).

Inductive exn :=
| ValueError (msg : string)
| IOError (msg : string)
| OSError (msg : string)
| KeyError (key : string)
| IndexError
| AttributeError (name : string)
| ZeroDivisionError
| TypeError
| OtherError (msg : string).

Inductive result (A : Type) :=
| Ok (a : A)
| Raise (e : exn).
Arguments Ok {A} a.
Arguments Raise {A} e.

Definition is_raise {A} (r : result A) : bool :=
  match r with Ok _ => false | Raise _ => true end.

(** ** Strings as Python 2 [str] *)

Module PyStr.

Definition newline : ascii := ascii_of_nat 10.

(** The characters [str.split()] and [str.strip()] treat as white space:
    space, and the controls 9 to 13. *)
Definition is_space (c : ascii) : bool :=
  let n := nat_of_ascii c in
  Nat.eqb n 32 || (Nat.leb 9 n && Nat.leb n 13).

(** [c.lower()] on one character. *)
Definition lower_char (c : ascii) : ascii :=
  let n := nat_of_ascii c in
  if Nat.leb 65 n && Nat.leb n 90 then ascii_of_nat (n + 32) else c.

Fixpoint lower (s : string) : string :=
  match s with
  | EmptyString => EmptyString
  | String c s' => String (lower_char c) (lower s')
  end.

Fixpoint lstrip (s : string) : string :=
  match s with
  | EmptyString => EmptyString
  | String c s' => if is_space c then lstrip s' else s
  end.

Fixpoint rstrip (s : string) : string :=
  match s with
  | EmptyString => EmptyString
  | String c s' =>
      match rstrip s' with
      | EmptyString => if is_space c then EmptyString else String c EmptyString
      | r => String c r
      end
  end.

Definition strip (s : string) : string := lstrip (rstrip s).

(** [s.split()]: the maximal runs of non-space characters, in order.
    [cur] is the run being read, reversed. *)
Fixpoint split_from (cur : list ascii) (s : string) : list string :=
  match s with
  | EmptyString =>
      match cur with
      | [] => []
      | _ => [string_of_list_ascii (rev cur)]
      end
  | String c s' =>
      if is_space c then
        match cur with
        | [] => split_from [] s'
        | _ => string_of_list_ascii (rev cur) :: split_from [] s'
        end
      else split_from (c :: cur) s'
  end.

Definition split (s : string) : list string := split_from [] s.

(** [c in s] for a one-character [c]. *)
Fixpoint contains_char (c : ascii) (s : string) : bool :=
  match s with
  | EmptyString => false
  | String d s' => Ascii.eqb c d || contains_char c s'
  end.

(** [s.split(c)]: the pieces between occurrences of the separator [c]
    (never an empty list). *)
Fixpoint split_on (c : ascii) (s : string) : list string :=
  match s with
  | EmptyString => [EmptyString]
  | String d s' =>
      if Ascii.eqb c d then EmptyString :: split_on c s'
      else match split_on c s' with
           | [] => [String d EmptyString]
           | p :: ps => String d p :: ps
           end
  end.

(** [s[1:]] *)
Definition tail (s : string) : string :=
  match s with
  | EmptyString => EmptyString
  | String _ s' => s'
  end.

(** [s.rfind(c)], with [None] for Python's -1. *)
Fixpoint rfind (c : ascii) (s : string) : option nat :=
  match s with
  | EmptyString => None
  | String d s' =>
      match rfind c s' with
      | Some i => Some (S i)
      | None => if Ascii.eqb c d then Some 0%nat else None
      end
  end.

(** [s[:i]] and [s[i:]] *)
Fixpoint take (i : nat) (s : string) : string :=
  match i, s with
  | S i', String c s' => String c (take i' s')
  | _, _ => EmptyString
  end.

Fixpoint drop (i : nat) (s : string) : string :=
  match i, s with
  | S i', String _ s' => drop i' s'
  | _, _ => s
  end.

(** [f.readline()] on the unread rest of a file: the text up to and
    including the first newline, and what is left. At the end of the
    file the line is the empty string. *)
Fixpoint readline (rest : string) : string * string :=
  match rest with
  | EmptyString => (EmptyString, EmptyString)
  | String c s' =>
      if Ascii.eqb c newline then (String c EmptyString, s')
      else let '(l, r) := readline s' in (String c l, r)
  end.

End PyStr.

(** [os.path.splitext] of the standard library ([posixpath]): the
    extension starts at the last dot of the last path component, and a
    component made of leading dots only has no extension. *)
Module PosixPath.

Definition dot : ascii := ".".
Definition sep : ascii := "/".

(** is there a character other than a dot in [s[from:upto]]? *)
Definition has_non_dot (from upto : nat) (s : string) : bool :=
  existsb (fun c => negb (Ascii.eqb c dot))
          (list_ascii_of_string (PyStr.take (upto - from) (PyStr.drop from s))).

Definition splitext (p : string) : string * string :=
  match PyStr.rfind dot p with
  | None => (p, EmptyString)
  | Some dotIndex =>
      let filenameIndex :=
        match PyStr.rfind sep p with
        | None => 0%nat
        | Some sepIndex => S sepIndex
        end in
      if Nat.leb filenameIndex dotIndex && has_non_dot filenameIndex dotIndex p
      then (PyStr.take dotIndex p, PyStr.drop dotIndex p)
      else (p, EmptyString)
  end.

End PosixPath.

(** ** The world: files, and the log of file operations *)

(** One [print >>f] of [write_svg], by source line. Numbers printed with
    a float format are kept as rationals, values printed with [%s] as
    their [str]. *)
Inductive svg_line :=
| XmlDecl | Doctype1 | Doctype2                      (* 664-666 *)
| SvgOpen (width height : Z)                         (* 668 *)
| CreatedBy | Blank                                  (* 669, 670, 684, 709, 733 *)
| DefsOpen | SymbolOpen | TrianglePath | SymbolClose (* 671-674 *)
| StyleOpen | CdataOpen | CssCircle | CssRect        (* 675-678 *)
| CssText (font_size : string)                       (* 679 *)
| CssEdgeLine | CdataClose | StyleClose | DefsClose  (* 680-683 *)
| RootGroupOpen (tx ty : Q)                          (* 685 *)
| EdgesOpen | EdgesComment                           (* 686, 687 *)
| ArrowGroupOpen (tx ty : Q) (fill stroke : string)  (* 701 *)
| ArrowLine (x1 y1 : Q)                              (* 702: to 0,0 *)
| ArrowUse (rotate : Q)                              (* 703 *)
| ArrowGroupClose                                    (* 704 *)
| EdgeLine (x1 y1 x2 y2 : Q) (stroke : string)       (* 706 *)
| GroupClose                                         (* 708, 731 *)
| VerticesOpen | VerticesComment                     (* 711, 712 *)
| VertexGroupOpen (tx ty : Q)                        (* 714 *)
| HalfDisc (sweep : bool) (r : string) (fill : string) (* 721, 722 *)
| CircleOutline (r : string)                         (* 723 *)
| Circle (r : string) (fill : string)                (* 725 *)
| Rect (x y w h : string) (fill : string)            (* 727 *)
| VertexText (label : string)                        (* 728 *)
| VertexGroupClose                                   (* 729 *)
| RootGroupClose | SvgClose.                         (* 732, 734 *)

(** The calls made on the Cairo context. *)
Inductive cairo_cmd :=
| SetLineWidth (w : Q)
| SetSourceRgb (rgb : Q * Q * Q)
| Arc (xc yc radius angle1 angle2 : Q)
| MoveTo (p : Q * Q)
| LineTo (p : Q * Q)
| Stroke
| Fill
| FillPreserve
| SelectFontFace (family : string)
| SetFontSize (size : Z)
| ShowText (text : pyval).

(** What a method does to the world outside the graph. *)
Inductive event :=
| EvOpen (path mode : string)
| EvPrint (path : string) (l : svg_line)
| EvWrite (path : string) (text : string)
| EvCairo (context : string) (c : cairo_cmd)
| EvClose (path : string)
| EvMkstemp (path : string)
| EvUnlink (path : string).

Record world := World {
  files : gmap string string;   (* path -> text *)
  log : list event              (* oldest first *)
}.

Definition emit (e : event) (w : world) : world :=
  World (files w) (log w ++ [e]).

(** ** A state and exception monad for the methods *)

Definition M (A : Type) : Type := world -> world * result A.

Definition ret {A} (a : A) : M A := fun w => (w, Ok a).

Definition raise {A} (e : exn) : M A := fun w => (w, Raise e).

Definition bind {A B} (m : M A) (k : A -> M B) : M B :=
  fun w =>
    match m w with
    | (w', Ok a) => k a w'
    | (w', Raise e) => (w', Raise e)
    end.

Notation "x <- c ;; k" := (bind c (fun x => k))
  (at level 89, c at next level, right associativity).
Notation "c ;;; k" := (bind c (fun _ => k))
  (at level 89, right associativity).

Definition lift_result {A} (r : result A) : M A := fun w => (w, r).

Definition tell (e : event) : M unit := fun w => (emit e w, Ok tt).

(** [for x in xs: body x] *)
Fixpoint for_each {A} (xs : list A) (body : A -> M unit) : M unit :=
  match xs with
  | [] => ret tt
  | x :: xs' => body x ;;; for_each xs' body
  end.

(** [open(p, "r")]: the text of the file, or [IOError] when there is
    none. *)
Definition open_read (p : string) : M string :=
  fun w =>
    match files w !! p with
    | Some text => (emit (EvOpen p "r") w, Ok text)
    | None => (w, Raise (IOError "No such file or directory"))
    end.

(** [open(p, "w")] creates or truncates the file. *)
Definition open_write (p : string) : M unit :=
  fun w => (World (<[p := ""]> (files w)) (log w ++ [EvOpen p "w"]), Ok tt).

(** [open(p, mode)] with another mode for writing ([wb], [wt]) or for
    reading ([rb]). *)
Definition open_for_writing (p mode : string) : M unit :=
  fun w => (World (<[p := ""]> (files w)) (log w ++ [EvOpen p mode]), Ok tt).

Definition open_for_reading (p mode : string) : M string :=
  fun w =>
    match files w !! p with
    | Some text => (emit (EvOpen p mode) w, Ok text)
    | None => (w, Raise (IOError "No such file or directory"))
    end.

(** [os.unlink(p)] *)
Definition unlink (p : string) : M unit :=
  fun w =>
    match files w !! p with
    | Some _ => (World (delete p (files w)) (log w ++ [EvUnlink p]), Ok tt)
    | None => (w, Raise (OSError "No such file or directory"))
    end.

(** ** The graph, as the methods below see it *)

Record Graph := {
  vcount : nat;
  get_edgelist : list (nat * nat);
  is_directed : bool;
  vertex_attributes : gmap string (list pyval);
  edge_attributes : gmap string (list pyval)
}.

Definition ecount (g : Graph) : nat := List.length (get_edgelist g).

(** [seq.get_attribute_values(name)] raises [KeyError] for a name that is
    not an attribute. *)
Definition get_attribute_values (attrs : gmap string (list pyval))
    (name : string) : result (list pyval) :=
  match attrs !! name with
  | Some vs => Ok vs
  | None => Raise (KeyError name)
  end.

(** ** Format identification: [Graph._identify_format] *)

(** The argument is a file name or a file object, whose [name] attribute
    may be missing. *)
Inductive fileref :=
| Path (p : string)
| FileObj (name : option string).

Definition static_extensions : list string :=
  [".graphml"; ".graphmlz"; ".lgl"; ".ncol"; ".pajek";
   ".gml"; ".dimacs"; ".edgelist"; ".edges"; ".edge"; ".net";
   ".pickle"].

(** [f.readline()] as the tests of the source see it: the [line is None]
    tests read an option, and [readline] never gives [None]. *)
Definition readline (f : string) : option string * string :=
  let '(line, rest) := PyStr.readline f in (Some line, rest).

Definition parts_of (line : string) : list string :=
  PyStr.split (PyStr.strip line).

(** Lines 772-793, on the text of the opened file. [None] is Python's
    [None]. *)
Definition sniff (f : string) : option string :=
  let '(line, f) := readline f in
  match line with
  | None => Some "edges"
  | Some line =>
      let parts := parts_of line in
      if Nat.eqb (List.length parts) 2 then
        let '(line, f) := readline f in
        match line with
        | None => Some "edges"
        | Some line =>
            let parts := parts_of line in
            if Nat.eqb (List.length parts) 2 then
              let '(line, f) := readline f in
              match line with
              | None => None
              | Some line =>
                  let parts := parts_of line in
                  if Nat.eqb (List.length parts) 0 then None
                  else Some "edges"
              end
            else None
        end
      else Some "adjacency"
  end.

Definition _identify_format (filename : fileref) : M (option string) :=
  match (match filename with Path p => Some p | FileObj name => name end) with
  | None => ret None
  | Some filename =>
      let '(root, ext) := PosixPath.splitext filename in
      let ext := PyStr.lower ext in
      if existsb (String.eqb ext) static_extensions then
        ret (Some (PyStr.tail ext))
      else if String.eqb ext ".txt" || String.eqb ext ".dat" then
        f <- open_read filename ;;
        ret (sniff f)
      else ret None
  end.

(** A line of text with its newline, and the extension of a path as
    [_identify_format] compares it. *)
Definition line_of (body : string) : string := body +:+ String PyStr.newline "".

Definition extension (p : string) : string :=
  PyStr.lower (snd (PosixPath.splitext p)).

(** ** The unified reader and writer: [Graph.Read], [Graph.write] *)

Definition _format_mapping : gmap string (option string * option string) :=
  list_to_map
    [("ncol",      (Some "Read_Ncol", Some "write_ncol"));
     ("lgl",       (Some "Read_Lgl", Some "write_lgl"));
     ("graphmlz",  (Some "Read_GraphMLz", Some "write_graphmlz"));
     ("graphml",   (Some "Read_GraphML", Some "write_graphml"));
     ("gml",       (Some "Read_GML", Some "write_gml"));
     ("net",       (Some "Read_Pajek", None));
     ("pajek",     (Some "Read_Pajek", None));
     ("dimacs",    (Some "Read_DIMACS", Some "write_dimacs"));
     ("adjacency", (Some "Read_Adjacency", Some "write_adjacency"));
     ("adj",       (Some "Read_Adjacency", Some "write_adjacency"));
     ("edgelist",  (Some "Read_Edgelist", Some "write_edgelist"));
     ("edge",      (Some "Read_Edgelist", Some "write_edgelist"));
     ("edges",     (Some "Read_Edgelist", Some "write_edgelist"));
     ("pickle",    (Some "Read_Pickle", Some "write_pickle"));
     ("svg",       (None, Some "write_svg"))].

(** [str(format)] *)
Definition str_format (format : option string) : string :=
  match format with
  | None => "None"
  | Some s => s
  end.

(** [_format_mapping[format]], with [None] for the [KeyError]. *)
Definition mapping_entry (format : option string)
    : option (option string * option string) :=
  match format with
  | None => None
  | Some k => _format_mapping !! k
  end.

Section Dispatch.

(** The extra positional and keyword arguments, handed on as they are. *)
Variable Args : Type.

(** [getattr(klass, reader)(f, *args, **kwds)] and
    [getattr(self, writer)(f, *args, **kwds)]: the codecs. *)
Variable invoke_reader : string -> fileref -> Args -> M Graph.
Variable invoke_writer : string -> Graph -> fileref -> Args -> M unit.

Definition Read (f : fileref) (format : option string) (args : Args)
    : M Graph :=
  format <- match format with
            | None => _identify_format f
            | Some _ => ret format
            end ;;
  match mapping_entry format with
  | None => raise (IOError ("unknown file format: " +:+ str_format format))
  | Some (reader, _) =>
      match reader with
      | None =>
          raise (IOError ("no reader method for file format: "
                          +:+ str_format format))
      | Some reader => invoke_reader reader f args
      end
  end.

Definition write (self : Graph) (f : fileref) (format : option string)
    (args : Args) : M unit :=
  format <- match format with
            | None => _identify_format f
            | Some _ => ret format
            end ;;
  match mapping_entry format with
  | None => raise (IOError ("unknown file format: " +:+ str_format format))
  | Some (_, writer) =>
      match writer with
      | None =>
          raise (IOError ("no writer method for file format: "
                          +:+ str_format format))
      | Some writer => invoke_writer writer self f args
      end
  end.

End Dispatch.

(** ** Gzipped GraphML: [write_graphmlz], [Read_GraphMLz] *)

(** The lines a text file object yields when iterated: each with its
    newline, the last one maybe without. [cur] is the line being read,
    reversed. *)
Fixpoint lines_from (cur : list ascii) (s : string) : list string :=
  match s with
  | EmptyString =>
      match cur with
      | [] => []
      | _ => [string_of_list_ascii (rev cur)]
      end
  | String c s' =>
      if Ascii.eqb c PyStr.newline
      then string_of_list_ascii (rev (c :: cur)) :: lines_from [] s'
      else lines_from (c :: cur) s'
  end.

Definition file_lines (text : string) : list string := lines_from [] text.

(** [outf.write(line)] on a file opened by name: the text grows; a name
    unlinked in between does not come back. *)
Definition file_write (p : string) (line : string) : M unit :=
  fun w =>
    (World (alter (fun text => text +:+ line) p (files w))
           (log w ++ [EvWrite p line]), Ok tt).

Definition file_close (p : string) : M unit := tell (EvClose p).

Section Compressed.

(** [tempfile.mkstemp]: the name the system picks in this world, or its
    failure. *)
Variable mkstemp_name : world -> result string.

(** The GraphML codec of the core, and the [gzip] module. *)
Variable write_graphml : Graph -> string -> M unit.
Variable Read_GraphML : string -> M Graph.
Variable gzip_open_write : string -> Z -> M unit.  (* GzipFile(f, "wb", level) *)
Variable gzip_write : string -> string -> M unit.  (* outf.write(line) *)
Variable gzip_close : string -> M unit.
(** [gzip.GzipFile(f, "rb")]: what iterating over the stream will give,
    line after line, up to the end or to a first failure. *)
Variable gzip_open_read : string -> M (list (result string)).

(** [mkstemp(text=True)] followed by [os.close(tmpfileno)]: the file
    exists, empty, under the name picked. *)
Definition mkstemp : M string :=
  fun w =>
    match mkstemp_name w with
    | Ok name =>
        (World (<[name := ""]> (files w)) (log w ++ [EvMkstemp name]), Ok name)
    | Raise e => (w, Raise e)
    end.

(** The [try] block of [write_graphmlz], with the value [tmpfilename]
    has when the block is left. *)
Definition write_graphmlz_try (self : Graph) (f : string)
    (compresslevel : Z) : world -> world * (option string * result unit) :=
  fun w =>
    match mkstemp w with
    | (w1, Raise e) => (w1, (None, Raise e))
    | (w1, Ok tmpfilename) =>
        let '(w2, r) :=
          (write_graphml self tmpfilename ;;;
           gzip_open_write f compresslevel ;;;
           inf <- open_read tmpfilename ;;
           for_each (file_lines inf) (fun line => gzip_write f line) ;;;
           file_close tmpfilename ;;;
           gzip_close f) w1 in
        (w2, (Some tmpfilename, r))
    end.

(** [finally: if tmpfilename is not None: os.unlink(tmpfilename)] *)
Definition unlink_tmp (tmpfilename : option string) : M unit :=
  match tmpfilename with
  | Some name => unlink name
  | None => ret tt
  end.

Definition write_graphmlz (self : Graph) (f : string) (compresslevel : Z)
    : M unit :=
  fun w =>
    let '(w1, (tmpfilename, r)) := write_graphmlz_try self f compresslevel w in
    match unlink_tmp tmpfilename w1 with
    | (w2, Ok _) => (w2, r)
    | (w2, Raise e) => (w2, Raise e)
    end.

Definition Read_GraphMLz_try (f : string)
    : world -> world * (option string * result Graph) :=
  fun w =>
    match mkstemp w with
    | (w1, Raise e) => (w1, (None, Raise e))
    | (w1, Ok tmpfilename) =>
        let '(w2, r) :=
          (inf <- gzip_open_read f ;;
           open_for_writing tmpfilename "wt" ;;;
           for_each inf (fun item => bind (lift_result item)
                                          (file_write tmpfilename)) ;;;
           gzip_close f ;;;
           file_close tmpfilename ;;;
           Read_GraphML tmpfilename) w1 in
        (w2, (Some tmpfilename, r))
    end.

Definition Read_GraphMLz (f : string) : M Graph :=
  fun w =>
    let '(w1, (tmpfilename, r)) := Read_GraphMLz_try f w in
    match unlink_tmp tmpfilename w1 with
    | (w2, Ok _) => (w2, r)
    | (w2, Raise e) => (w2, Raise e)
    end.

End Compressed.

(** A step of the environment never removes a file. *)
Definition keeps_files {A} (m : M A) : Prop :=
  forall (w : world) (p : string),
    is_Some (files w !! p) -> is_Some (files (m w).1 !! p).

(** ** Numbers of the renderers

    Every float is a rational, and the embedding computes with
    rationals: comparisons and tests for zero are those of the floats, and
    the rounding of the other operations is left out. Division raises as
    Python's does. The coordinates given to [write_svg] may also be
    [int]s, which line 657 divides with a floor; they are told apart from
    the floats where the layout is normalised. *)

Definition Qltb (a b : Q) : bool := negb (Qle_bool b a).

(** [a / b] *)
Definition pydiv (a b : Q) : result Q :=
  if Qeq_bool b 0 then Raise ZeroDivisionError else Ok (a / b)%Q.

(** The functions of the [math] module the renderers call. *)
Record MathLib := {
  atan2 : Q -> Q -> Q;
  cos : Q -> Q;
  sin : Q -> Q;
  pi : Q
}.

(** [str(v)] *)
Definition py_str (v : pyval) : string :=
  match v with
  | PNone => "None"
  | PInt z => pretty z
  | PStr s => s
  end.

(** [l[i]] for a non-negative [i], on a value that is a list or [None]. *)
Definition subscript {A} (l : option (list A)) (i : nat) : result A :=
  match l with
  | None => Raise TypeError
  | Some l =>
      match l !! i with
      | Some v => Ok v
      | None => Raise IndexError
      end
  end.

(** [for i, x in enumerate(xs): body i x], counting from [i]. *)
Fixpoint for_enumerate {A} (i : nat) (xs : list A) (body : nat -> A -> M unit)
    : M unit :=
  match xs with
  | [] => ret tt
  | x :: xs' => body i x ;;; for_enumerate (S i) xs' body
  end.

(** ** The SVG writer: [Graph.write_svg] *)

(** A drawing parameter: [None], the name of an attribute, or a list. *)
Inductive attr_arg :=
| ArgNone
| ArgName (name : string)
| ArgList (l : list pyval).

(** A coordinate of a layout is an [int] or a [float]: line 657 divides
    an [int] by the difference of two of them, and in Python 2 the quotient
    of two [int]s is an [int], the floor of the exact one. *)
Inductive pynum :=
| NInt (z : Z)
| NFloat (x : Q).

Definition num_value (n : pynum) : Q :=
  match n with
  | NInt z => inject_Z z
  | NFloat x => x
  end.

(** [a - b]: an [int] for two [int]s, a [float] otherwise. *)
Definition num_sub (a b : pynum) : pynum :=
  match a, b with
  | NInt x, NInt y => NInt (x - y)
  | _, _ => NFloat (num_value a - num_value b)
  end.

(** [a / b] for an [int] [a]: the floor of the quotient when [b] is an
    [int], the quotient when [b] is a [float]. *)
Definition int_div (a : Z) (b : pynum) : result pynum :=
  match b with
  | NInt z =>
      if (z =? 0)%Z then Raise ZeroDivisionError else Ok (NInt (a / z))
  | NFloat x =>
      if Qeq_bool x 0 then Raise ZeroDivisionError
      else Ok (NFloat (inject_Z a / x))
  end.

(** The layout is the name of an algorithm, or the coordinates, in a
    list of pairs or in a [Layout] object: rows of [float]s, or rows of
    numbers of either kind. *)
Inductive layout_arg :=
| LayoutName (name : string)
| LayoutRows (rows : list (Q * Q))
| LayoutNumbers (rows : list (pynum * pynum)).

Definition floats (rows : list (Q * Q)) : list (pynum * pynum) :=
  map (fun row => (NFloat (fst row), NFloat (snd row))) rows.

Definition num_values (rows : list (pynum * pynum)) : list (Q * Q) :=
  map (fun row => (num_value (fst row), num_value (snd row))) rows.

Inductive font_arg :=
| FontNumber (n : Z)
| FontStr (s : string).

(** Lines 593-599 *)
Definition effective_size (width height : option Z) : Z * Z :=
  match width, height with
  | None, None => (400, 400)%Z
  | None, Some h => (h, h)
  | Some w, None => (w, w)
  | Some w, Some h => (w, h)
  end.

(** Lines 608-614. *)
Definition resolve_labels (self : Graph) (labels : attr_arg)
    : option (list pyval) :=
  match labels with
  | ArgName name =>
      match get_attribute_values (vertex_attributes self) name with
      | Ok vs => Some vs
      | Raise _ => Some (map (fun x => PInt (Z.of_nat x + 1)) (seq 0 (vcount self)))
      end
  | ArgNone => Some (repeat (PStr "") (vcount self))
  | ArgList l => Some l
  end.

(** Lines 616-632: a name is looked up, with a constant list when it is
    no attribute; anything else stays as given. *)
Definition resolve_attr (attrs : gmap string (list pyval)) (count : nat)
    (default : pyval) (arg : attr_arg) : option (list pyval) :=
  match arg with
  | ArgName name =>
      match get_attribute_values attrs name with
      | Ok vs => Some vs
      | Raise _ => Some (repeat default count)
      end
  | ArgNone => None
  | ArgList l => Some l
  end.

(** Lines 634-638 *)
Definition resolve_font_size (font_size : font_arg) : result string :=
  match font_size with
  | FontNumber n => Ok (pretty n +:+ "px")
  | FontStr s =>
      if PyStr.contains_char ";" s
      then Raise (ValueError "font size can't contain a semicolon")
      else Ok s
  end.

(** Line 641: [while len(labels)<vc: labels.append(len(labels)+1)].
    Every turn makes the list longer by one, so [vc] turns are enough. *)
Fixpoint pad_labels_loop (fuel vc : nat) (labels : list pyval) : list pyval :=
  match fuel with
  | O => labels
  | S fuel' =>
      if Nat.ltb (List.length labels) vc
      then pad_labels_loop fuel' vc
             (labels ++ [PInt (Z.of_nat (List.length labels) + 1)])
      else labels
  end.

Definition pad_labels (vc : nat) (labels : list pyval) : list pyval :=
  pad_labels_loop vc vc labels.

(** Line 642: [while len(colors)<vc: colors.append("red")] *)
Fixpoint pad_colors_loop (fuel vc : nat) (colors : list pyval) : list pyval :=
  match fuel with
  | O => colors
  | S fuel' =>
      if Nat.ltb (List.length colors) vc
      then pad_colors_loop fuel' vc (colors ++ [PStr "red"])
      else colors
  end.

Definition pad_colors (vc : nat) (colors : list pyval) : list pyval :=
  pad_colors_loop vc vc colors.

(** The four lists as line 643 leaves them. [len(None)] is a
    [TypeError]; [labels] is never [None] here. *)
Record svg_params := {
  sp_labels : list pyval;
  sp_colors : list pyval;
  sp_shapes : option (list pyval);
  sp_edge_colors : option (list pyval)
}.

Definition resolve_params (self : Graph)
    (labels colors shapes edge_colors : attr_arg) : result svg_params :=
  let labels := resolve_labels self labels in
  let colors := resolve_attr (vertex_attributes self) (vcount self) (PStr "red") colors in
  let shapes := resolve_attr (vertex_attributes self) (vcount self) (PInt 1) shapes in
  let edge_colors := resolve_attr (edge_attributes self) (ecount self) (PStr "black") edge_colors in
  let vc := vcount self in
  match labels, colors with
  | Some labels, Some colors =>
      Ok {| sp_labels := pad_labels vc labels;
            sp_colors := pad_colors vc colors;
            sp_shapes := shapes;
            sp_edge_colors := edge_colors |}
  | _, _ => Raise TypeError
  end.

(** The largest and the smallest coordinate per dimension of rows of
    [float]s, found as lines 646-653 find them. *)
Definition widen (acc : (Q * Q) * (Q * Q)) (row : Q * Q) : (Q * Q) * (Q * Q) :=
  let '((max0, max1), (min0, min1)) := acc in
  let max0 := if Qltb max0 (fst row) then fst row else max0 in
  let min0 := if Qltb (fst row) min0 then fst row else min0 in
  let max1 := if Qltb max1 (snd row) then snd row else max1 in
  let min1 := if Qltb (snd row) min1 then snd row else min1 in
  ((max0, max1), (min0, min1)).

Definition extent (row0 : Q * Q) (rest : list (Q * Q)) : (Q * Q) * (Q * Q) :=
  fold_left widen rest (row0, row0).

(** Lines 646-653: the largest and the smallest coordinate per
    dimension; numbers of both kinds are compared by their values. *)
Definition widen_numbers (acc : (pynum * pynum) * (pynum * pynum))
    (row : pynum * pynum) : (pynum * pynum) * (pynum * pynum) :=
  let '((max0, max1), (min0, min1)) := acc in
  let max0 := if Qltb (num_value max0) (num_value (fst row))
              then fst row else max0 in
  let min0 := if Qltb (num_value (fst row)) (num_value min0)
              then fst row else min0 in
  let max1 := if Qltb (num_value max1) (num_value (snd row))
              then snd row else max1 in
  let min1 := if Qltb (num_value (snd row)) (num_value min1)
              then snd row else min1 in
  ((max0, max1), (min0, min1)).

Definition extent_numbers (row0 : pynum * pynum) (rest : list (pynum * pynum))
    : (pynum * pynum) * (pynum * pynum) :=
  fold_left widen_numbers rest (row0, row0).

(** Lines 646-660: the layout centred and scaled into the drawing
    area. [sizes] are [int]s; [halfsizes] are [float]s, being divided by
    [2.0]; a ratio is an [int] when the largest and the smallest coordinate
    are [int]s, and the points that come out are [float]s. *)
Definition normalize (layout : list (pynum * pynum))
    (width height vertex_size : Z) : result (list (Q * Q)) :=
  match layout with
  | [] => Raise IndexError
  | row0 :: rest =>
      let '(maxs, mins) := extent_numbers row0 rest in
      let sizes := ((width - 2 * vertex_size)%Z,
                    (height - 2 * vertex_size)%Z) in
      let halfsizes :=
        (((num_value (fst maxs) + num_value (fst mins)) / 2)%Q,
         ((num_value (snd maxs) + num_value (snd mins)) / 2)%Q) in
      match int_div (fst sizes) (num_sub (fst maxs) (fst mins)) with
      | Raise e => Raise e
      | Ok ratio0 =>
          match int_div (snd sizes) (num_sub (snd maxs) (snd mins)) with
          | Raise e => Raise e
          | Ok ratio1 =>
              Ok (map (fun row =>
                         (((num_value (fst row) - fst halfsizes)
                           * num_value ratio0)%Q,
                          ((num_value (snd row) - snd halfsizes)
                           * num_value ratio1)%Q))
                      layout)
          end
      end
  end.

Section WriteSvg.

Variable math : MathLib.

(** [getattr(Graph, "layout_"+layout)(self, *args)]: the layout
    algorithms of the core. *)
Variable call_layout : string -> Graph -> M (list (Q * Q)).

Definition print (fname : string) (l : svg_line) : M unit :=
  tell (EvPrint fname l).

(** Lines 664-687 *)
Definition svg_header (fname : string) (width height : Z)
    (font_size : string) : M unit :=
  for_each
    [XmlDecl; Doctype1; Doctype2; SvgOpen width height; CreatedBy; Blank;
     DefsOpen; SymbolOpen; TrianglePath; SymbolClose; StyleOpen; CdataOpen;
     CssCircle; CssRect; CssText font_size; CssEdgeLine; CdataClose;
     StyleClose; DefsClose; Blank;
     RootGroupOpen (inject_Z width / 2) (inject_Z height / 2);
     EdgesOpen; EdgesComment]
    (print fname).

(** Lines 691-706: one turn of the loop over the edges. *)
Definition svg_edge (fname : string) (layout : list (Q * Q))
    (directed : bool) (vertex_size : Z) (edge_colors : option (list pyval))
    (eidx : nat) (vidxs : nat * nat) : M unit :=
  p1 <- lift_result (subscript (Some layout) (fst vidxs)) ;;
  p2 <- lift_result (subscript (Some layout) (snd vidxs)) ;;
  let '(x1, y1) := p1 in
  let '(x2, y2) := p2 in
  let angle := atan2 math (y2 - y1) (x2 - x1) in
  let x2 := (x2 - inject_Z vertex_size * cos math angle)%Q in
  let y2 := (y2 - inject_Z vertex_size * sin math angle)%Q in
  if directed then
    c <- lift_result (subscript edge_colors eidx) ;;
    print fname (ArrowGroupOpen x2 y2 (py_str c) (py_str c)) ;;;
    print fname (ArrowLine (x1 - x2) (y1 - y2)) ;;;
    print fname (ArrowUse (180 + angle * 180 / pi math)) ;;;
    print fname ArrowGroupClose
  else
    c <- lift_result (subscript edge_colors eidx) ;;
    print fname (EdgeLine x1 y1 x2 y2 (py_str c)).

(** Lines 714-729: one turn of the loop over the vertices. *)
Definition svg_vertex (fname : string) (layout : list (Q * Q))
    (vertex_size : Z) (params : svg_params) (vidx : nat) : M unit :=
  p <- lift_result (subscript (Some layout) vidx) ;;
  print fname (VertexGroupOpen (fst p) (snd p)) ;;;
  shape <- lift_result (subscript (sp_shapes params) vidx) ;;
  (match shape with
   | PInt 1 =>
       color <- lift_result (subscript (Some (sp_colors params)) vidx) ;;
       let c := py_str color in
       if PyStr.contains_char " " c then
         let c := PyStr.split_on " " c in
         let vs := pretty vertex_size in
         c0 <- lift_result (subscript (Some c) 0) ;;
         print fname (HalfDisc false vs c0) ;;;
         c1 <- lift_result (subscript (Some c) 1) ;;
         print fname (HalfDisc true vs c1) ;;;
         print fname (CircleOutline vs)
       else
         print fname (Circle (pretty vertex_size) (py_str color))
   | PInt 2 =>
       color <- lift_result (subscript (Some (sp_colors params)) vidx) ;;
       print fname (Rect (pretty vertex_size) (pretty vertex_size)
                         (pretty (2 * vertex_size)%Z)
                         (pretty (2 * vertex_size)%Z)
                         (py_str color))
   | _ => ret tt
   end) ;;;
  label <- lift_result (subscript (Some (sp_labels params)) vidx) ;;
  print fname (VertexText (py_str label)) ;;;
  print fname VertexGroupClose.

(** Lines 662-736: what is written once the layout is normalised. *)
Definition svg_body (self : Graph) (fname : string) (layout : list (Q * Q))
    (width height vertex_size : Z) (font_size : string) (params : svg_params)
    : M unit :=
  let directed := is_directed self in
  svg_header fname width height font_size ;;;
  for_enumerate 0 (get_edgelist self)
    (svg_edge fname layout directed vertex_size (sp_edge_colors params)) ;;;
  print fname GroupClose ;;;
  print fname Blank ;;;
  print fname VerticesOpen ;;;
  print fname VerticesComment ;;;
  for_each (seq 0 (vcount self))
    (svg_vertex fname layout vertex_size params) ;;;
  print fname GroupClose ;;;
  print fname RootGroupClose ;;;
  print fname Blank ;;;
  print fname SvgClose ;;;
  file_close fname.

(** Lines 603-605: an algorithm given by name is run. *)
Definition given_layout (self : Graph) (layout : layout_arg)
    : M (list (pynum * pynum)) :=
  match layout with
  | LayoutName name =>
      rows <- call_layout name self ;;
      ret (floats rows)
  | LayoutRows rows => ret (floats rows)
  | LayoutNumbers rows => ret rows
  end.

Definition write_svg (self : Graph) (fname : string) (layout : layout_arg)
    (width height : option Z) (labels colors shapes : attr_arg)
    (vertex_size : Z) (edge_colors : attr_arg) (font_size : font_arg)
    : M unit :=
  let '(width, height) := effective_size width height in
  if (width <=? 0)%Z || (height <=? 0)%Z then
    raise (ValueError "width and height must be positive")
  else
    layout <- given_layout self layout ;;
    font_size <- lift_result (resolve_font_size font_size) ;;
    params <- lift_result
                (resolve_params self labels colors shapes edge_colors) ;;
    open_write fname ;;;
    layout <- lift_result (normalize layout width height vertex_size) ;;
    svg_body self fname layout width height vertex_size font_size params.

End WriteSvg.

(** ** The Cairo plotter: [Graph.__plot__] *)

(** The keyword arguments [__plot__] reads itself, and the ones it hands
    to [collect_attributes]. A margin is a number or a list of numbers;
    the list is not empty, as line 1027 never ends on an empty one. *)
Inductive margin_arg :=
| MarginNumber (x : Q)
| MarginList (x : Q) (xs : list Q).

Record plot_kwds := {
  kw_margin : option margin_arg;
  kw_layout : option layout_arg;       (* a [Layout] object, or a name *)
  kw_vertex_label : option attr_arg;   (* [Some ArgNone]: given as [None] *)
  kw_drawing : gmap string attr_arg
}.

(** Modelled from the spec: [Layout.scale] and [Layout.translate] of the
    layout module, which apply uniformly to every point. *)
Definition Layout_scale (rx ry : Q) (layout : list (Q * Q)) : list (Q * Q) :=
  map (fun p => ((fst p * rx)%Q, (snd p * ry)%Q)) layout.

Definition Layout_translate (dx dy : Q) (layout : list (Q * Q)) : list (Q * Q) :=
  map (fun p => ((fst p + dx)%Q, (snd p + dy)%Q)) layout.

(** Modelled from the spec: [Layout.bounding_box] of the layout module,
    the axis-aligned bounding box as (left, top, right, bottom); the box
    of no point at all is taken at the origin. *)
Definition Layout_bounding_box (layout : list (Q * Q)) : Q * Q * Q * Q :=
  match layout with
  | [] => (0, 0, 0, 0)%Q
  | row0 :: rest =>
      let '(maxs, mins) := extent row0 rest in
      (fst mins, snd mins, fst maxs, snd maxs)
  end.

(** Line 1027: [while len(margin)<4: margin.extend(margin)]; two turns
    are enough for a list that is not empty. *)
Fixpoint extend_margin (fuel : nat) (margin : list Q) : list Q :=
  match fuel with
  | O => margin
  | S fuel' =>
      if Nat.ltb (List.length margin) 4
      then extend_margin fuel' (margin ++ margin)
      else margin
  end.

(** Lines 1022-1028 *)
Definition plot_margin (kwds : plot_kwds) : list Q :=
  let margin :=
    match kw_margin kwds with
    | None => [0; 0; 0; 0]%Q
    | Some (MarginNumber x) => [x]
    | Some (MarginList x xs) => x :: xs
    end in
  firstn 4 (extend_margin 2 margin).

(** [max(xs)] *)
Definition py_max (xs : list Q) : result Q :=
  match xs with
  | [] => Raise (ValueError "max() arg is an empty sequence")
  | x :: xs' => Ok (fold_left (fun m y => if Qltb m y then y else m) xs' x)
  end.

Section Plot.

Variable math : MathLib.

(** [drawing.collect_attributes], by the type of what it collects. *)
Variable collect_colors :
  nat -> string -> string -> plot_kwds -> gmap string (list pyval)
  -> string -> result (list (Q * Q * Q)).
Variable collect_floats :
  nat -> string -> string -> plot_kwds -> gmap string (list pyval)
  -> Q -> result (list Q).
Variable collect_values :
  nat -> string -> string -> plot_kwds -> gmap string (list pyval)
  -> pyval -> result (list pyval).

(** [Graph.layout], which runs a layout algorithm of the core. *)
Variable graph_layout : Graph -> option string -> M (list (Q * Q)).

Variable bounding_box : list (Q * Q) -> Q * Q * Q * Q.

(** [context.text_extents(text)[:4]] *)
Variable text_extents : pyval -> result (Q * Q * Q * Q).

(** The Cairo context drawn on, by the name it has in the log. *)
Variable context : string.

Definition cairo (c : cairo_cmd) : M unit := tell (EvCairo context c).

(** Lines 1037-1045: the scale factors, and the layout scaled and
    moved. *)
Definition plot_normalize (layout : list (Q * Q)) (bbox_width bbox_height : Q)
    (max_vertex_size : Q) (margin : list Q) : result (list (Q * Q)) :=
  let '(sl, st, sr, sb) := bounding_box layout in
  let sw := (sr - sl)%Q in
  let sh := (sb - st)%Q in
  let sw := if Qeq_bool sw 0 then 1%Q else sw in
  let sh := if Qeq_bool sh 0 then 1%Q else sh in
  match subscript (Some margin) 0, subscript (Some margin) 1,
        subscript (Some margin) 2, subscript (Some margin) 3 with
  | Ok m0, Ok m1, Ok m2, Ok m3 =>
      match pydiv (bbox_width - max_vertex_size - m1 - m3) sw with
      | Raise e => Raise e
      | Ok rx =>
          match pydiv (bbox_height - max_vertex_size - m0 - m2) sh with
          | Raise e => Raise e
          | Ok ry =>
              Ok (Layout_translate
                    (- sl * rx + max_vertex_size / 2 + m1)
                    (- st * ry + max_vertex_size / 2 + m0)
                    (Layout_scale rx ry layout))
          end
      end
  | _, _, _, _ => Raise IndexError
  end.

(** Lines 1054-1081: one turn of the loop over the edges. *)
Definition plot_edge (layout : list (Q * Q)) (directed : bool)
    (vertex_sizes : list Q) (edge_colors : list (Q * Q * Q))
    (edge_widths : list Q) (idx : nat) (e : nat * nat) : M unit :=
  c <- lift_result (subscript (Some edge_colors) idx) ;;
  cairo (SetSourceRgb c) ;;;
  w <- lift_result (subscript (Some edge_widths) idx) ;;
  cairo (SetLineWidth w) ;;;
  let '(src, tgt) := e in
  (if Nat.eqb src tgt then
     size <- lift_result (subscript (Some vertex_sizes) src) ;;
     let r := (size * 2)%Q in
     p <- lift_result (subscript (Some layout) src) ;;
     let cx := (fst p + cos math (pi math / 4) * r / 2)%Q in
     let cy := (snd p - sin math (pi math / 4) * r / 2)%Q in
     cairo (Arc cx cy (r / 2) 0 (pi math * 2))
   else
     p <- lift_result (subscript (Some layout) src) ;;
     cairo (MoveTo p) ;;;
     q <- lift_result (subscript (Some layout) tgt) ;;
     cairo (LineTo q)) ;;;
  cairo Stroke ;;;
  if directed && negb (Nat.eqb src tgt) then
    t <- lift_result (subscript (Some layout) tgt) ;;
    s <- lift_result (subscript (Some layout) src) ;;
    let angle := atan2 math (snd t - snd s) (fst t - fst s) in
    let a1 := ((fst t - 15 * cos math (angle - pi math / 10))%Q,
               (snd t - 15 * sin math (angle - pi math / 10))%Q) in
    let a2 := ((fst t - 15 * cos math (angle + pi math / 10))%Q,
               (snd t - 15 * sin math (angle + pi math / 10))%Q) in
    cairo (MoveTo t) ;;;
    cairo (LineTo a1) ;;;
    cairo (LineTo a2) ;;;
    cairo (LineTo t) ;;;
    cairo Fill
  else ret tt.

(** Lines 1085-1090 *)
Definition plot_vertex (layout : list (Q * Q)) (vertex_sizes : list Q)
    (vertex_colors : list (Q * Q * Q)) (idx : nat) : M unit :=
  p <- lift_result (subscript (Some layout) idx) ;;
  size <- lift_result (subscript (Some vertex_sizes) idx) ;;
  cairo (Arc (fst p) (snd p) (size / 2) 0 (2 * pi math)) ;;;
  c <- lift_result (subscript (Some vertex_colors) idx) ;;
  cairo (SetSourceRgb c) ;;;
  cairo FillPreserve ;;;
  cairo (SetSourceRgb (0, 0, 0)%Q) ;;;
  cairo Stroke.

(** Lines 1094-1099 *)
Definition plot_vertex_labels (self : Graph) (kwds : plot_kwds)
    : result (list pyval) :=
  match kw_vertex_label kwds, vertex_attributes self !! "label" with
  | None, None => Ok (map (fun i => PStr (pretty i)) (seq 0 (vcount self)))
  | Some ArgNone, _ => Ok (repeat (PStr "") (vcount self))
  | _, _ =>
      collect_values (vcount self) "vertex_label" "label" kwds
                     (vertex_attributes self) PNone
  end.

(** Lines 1105-1113 *)
Definition plot_label (layout : list (Q * Q)) (vertex_sizes : list Q)
    (vertex_labels : list pyval) (vertex_dists vertex_degrees : list Q)
    (idx : nat) : M unit :=
  label <- lift_result (subscript (Some vertex_labels) idx) ;;
  ext <- lift_result (text_extents label) ;;
  let '(xb, yb, w, h) := ext in
  p <- lift_result (subscript (Some layout) idx) ;;
  degree <- lift_result (subscript (Some vertex_degrees) idx) ;;
  dist <- lift_result (subscript (Some vertex_dists) idx) ;;
  size <- lift_result (subscript (Some vertex_sizes) idx) ;;
  let cx := (fst p + cos math degree * dist * size)%Q in
  let cy := (snd p + sin math degree * dist * size)%Q in
  let cx := (cx - (w / 2 + xb))%Q in
  let cy := (cy - (h / 2 + yb))%Q in
  cairo (MoveTo (cx, cy)) ;;;
  label <- lift_result (subscript (Some vertex_labels) idx) ;;
  cairo (ShowText label).

(** Lines 1034-1036: a [Layout] object is taken as it is, and
    [__plot__] computes with the values of its coordinates, as floats;
    a name, and no keyword, go to [self.layout]. *)
Definition plot_layout (self : Graph) (kwds : plot_kwds) : M (list (Q * Q)) :=
  match kw_layout kwds with
  | Some (LayoutRows rows) => ret rows
  | Some (LayoutNumbers rows) => ret (num_values rows)
  | Some (LayoutName name) => graph_layout self (Some name)
  | None => graph_layout self None
  end.

Definition __plot__ (self : Graph) (bbox_width bbox_height : Q)
    (kwds : plot_kwds) : M unit :=
  let directed := is_directed self in
  let margin := plot_margin kwds in
  vertex_colors <- lift_result
    (collect_colors (vcount self) "vertex_color" "color" kwds
                    (vertex_attributes self) "red") ;;
  vertex_sizes <- lift_result
    (collect_floats (vcount self) "vertex_size" "size" kwds
                    (vertex_attributes self) 10) ;;
  max_vertex_size <- lift_result (py_max vertex_sizes) ;;
  layout <- plot_layout self kwds ;;
  layout <- lift_result
    (plot_normalize layout bbox_width bbox_height max_vertex_size margin) ;;
  cairo (SetLineWidth 1) ;;;
  edge_colors <- lift_result
    (collect_colors (ecount self) "edge_color" "color" kwds
                    (edge_attributes self) "black") ;;
  edge_widths <- lift_result
    (collect_floats (ecount self) "edge_width" "width" kwds
                    (edge_attributes self) 1) ;;
  for_enumerate 0 (get_edgelist self)
    (plot_edge layout directed vertex_sizes edge_colors edge_widths) ;;;
  cairo (SetLineWidth 1) ;;;
  for_each (seq 0 (vcount self))
    (plot_vertex layout vertex_sizes vertex_colors) ;;;
  vertex_labels <- lift_result (plot_vertex_labels self kwds) ;;
  vertex_dists <- lift_result
    (collect_floats (vcount self) "vertex_dist" "dist" kwds
                    (vertex_attributes self) 1) ;;
  vertex_degrees <- lift_result
    (collect_floats (vcount self) "vertex_degree" "degree" kwds
                    (vertex_attributes self) (- pi math / 4)) ;;
  cairo (SelectFontFace "sans-serif") ;;;
  cairo (SetFontSize 14) ;;;
  for_each (seq 0 (vcount self))
    (plot_label layout vertex_sizes vertex_labels vertex_dists vertex_degrees).

End Plot.

(** ** What the renderers write, as lists *)

(** The world after some more events. *)
Definition emits (es : list event) (w : world) : world :=
  World (files w) (log w ++ es).

(** The direction of an edge from [p1] to [p2], and [p2] moved back by
    the vertex size along it, as lines 696-698 compute them. *)
Definition direction (math : MathLib) (p1 p2 : Q * Q) : Q :=
  atan2 math (snd p2 - snd p1) (fst p2 - fst p1).

Definition shortened (math : MathLib) (vertex_size : Z) (p1 p2 : Q * Q) : Q * Q :=
  ((fst p2 - inject_Z vertex_size * cos math (direction math p1 p2))%Q,
   (snd p2 - inject_Z vertex_size * sin math (direction math p1 p2))%Q).

(** The two rear corners of the arrowhead of [__plot__], lines
    1073-1076. *)
Definition arrow_corner1 (math : MathLib) (p1 p2 : Q * Q) : Q * Q :=
  ((fst p2 - 15 * cos math (direction math p1 p2 - pi math / 10))%Q,
   (snd p2 - 15 * sin math (direction math p1 p2 - pi math / 10))%Q).

Definition arrow_corner2 (math : MathLib) (p1 p2 : Q * Q) : Q * Q :=
  ((fst p2 - 15 * cos math (direction math p1 p2 + pi math / 10))%Q,
   (snd p2 - 15 * sin math (direction math p1 p2 + pi math / 10))%Q).

(** The lines of the header, lines 664-687. *)
Definition svg_header_lines (width height : Z) (font_size : string)
    : list svg_line :=
  [XmlDecl; Doctype1; Doctype2; SvgOpen width height; CreatedBy; Blank;
   DefsOpen; SymbolOpen; TrianglePath; SymbolClose; StyleOpen; CdataOpen;
   CssCircle; CssRect; CssText font_size; CssEdgeLine; CdataClose;
   StyleClose; DefsClose; Blank;
   RootGroupOpen (inject_Z width / 2) (inject_Z height / 2);
   EdgesOpen; EdgesComment].

(** The lines of one edge. *)
Definition svg_edge_lines (math : MathLib) (layout : list (Q * Q))
    (directed : bool) (vertex_size : Z) (edge_colors : list pyval)
    (eidx : nat) (vidxs : nat * nat) : list svg_line :=
  let p1 := nth (fst vidxs) layout (0, 0)%Q in
  let p2 := nth (snd vidxs) layout (0, 0)%Q in
  let c := py_str (nth eidx edge_colors PNone) in
  let s := shortened math vertex_size p1 p2 in
  if directed then
    [ArrowGroupOpen (fst s) (snd s) c c;
     ArrowLine (fst p1 - fst s) (snd p1 - snd s);
     ArrowUse (180 + direction math p1 p2 * 180 / pi math);
     ArrowGroupClose]
  else [EdgeLine (fst p1) (snd p1) (fst s) (snd s) c].

(** The lines of the shape of one vertex: a circle, a circle of two
    halves, a square, or nothing. *)
Definition svg_shape_lines (vertex_size : Z) (shape color : pyval)
    : list svg_line :=
  match shape with
  | PInt 1 =>
      if PyStr.contains_char " " (py_str color) then
        [HalfDisc false (pretty vertex_size)
                  (nth 0 (PyStr.split_on " " (py_str color)) "");
         HalfDisc true (pretty vertex_size)
                  (nth 1 (PyStr.split_on " " (py_str color)) "");
         CircleOutline (pretty vertex_size)]
      else [Circle (pretty vertex_size) (py_str color)]
  | PInt 2 =>
      [Rect (pretty vertex_size) (pretty vertex_size)
            (pretty (2 * vertex_size)%Z) (pretty (2 * vertex_size)%Z)
            (py_str color)]
  | _ => []
  end.

(** The lines of one vertex. *)
Definition svg_vertex_lines (layout : list (Q * Q)) (vertex_size : Z)
    (labels colors shapes : list pyval) (vidx : nat) : list svg_line :=
  VertexGroupOpen (fst (nth vidx layout (0, 0)%Q)) (snd (nth vidx layout (0, 0)%Q))
  :: svg_shape_lines vertex_size (nth vidx shapes PNone) (nth vidx colors PNone)
  ++ [VertexText (py_str (nth vidx labels PNone)); VertexGroupClose].

(** [f i x] for every [x] of the list and its position, from [i] on. *)
Fixpoint flat_enumerate {A B} (i : nat) (xs : list A) (f : nat -> A -> list B)
    : list B :=
  match xs with
  | [] => []
  | x :: xs' => f i x ++ flat_enumerate (S i) xs' f
  end.

(** The whole file. *)
Definition svg_document (math : MathLib) (self : Graph) (layout : list (Q * Q))
    (width height vertex_size : Z) (font_size : string)
    (labels colors shapes edge_colors : list pyval) : list svg_line :=
  svg_header_lines width height font_size
  ++ flat_enumerate 0 (get_edgelist self)
       (svg_edge_lines math layout (is_directed self) vertex_size edge_colors)
  ++ [GroupClose; Blank; VerticesOpen; VerticesComment]
  ++ flat_map (svg_vertex_lines layout vertex_size labels colors shapes)
       (seq 0 (vcount self))
  ++ [GroupClose; RootGroupClose; Blank; SvgClose].

(** The calls [__plot__] makes for one edge: colour and width, the path
    (a circle for a loop, a segment otherwise), the stroke, and for an edge
    of a directed graph that is no loop the filled arrowhead. *)
Definition plot_edge_cmds (math : MathLib) (layout : list (Q * Q))
    (directed : bool) (vertex_sizes : list Q) (edge_colors : list (Q * Q * Q))
    (edge_widths : list Q) (idx : nat) (e : nat * nat) : list cairo_cmd :=
  let p1 := nth (fst e) layout (0, 0)%Q in
  let p2 := nth (snd e) layout (0, 0)%Q in
  let r := (nth (fst e) vertex_sizes 0%Q * 2)%Q in
  [SetSourceRgb (nth idx edge_colors (0, 0, 0)%Q);
   SetLineWidth (nth idx edge_widths 0%Q)]
  ++ (if Nat.eqb (fst e) (snd e) then
        [Arc (fst p1 + cos math (pi math / 4) * r / 2)
             (snd p1 - sin math (pi math / 4) * r / 2)
             (r / 2) 0 (pi math * 2)]
      else [MoveTo p1; LineTo p2])
  ++ [Stroke]
  ++ (if directed && negb (Nat.eqb (fst e) (snd e)) then
        [MoveTo p2; LineTo (arrow_corner1 math p1 p2);
         LineTo (arrow_corner2 math p1 p2); LineTo p2; Fill]
      else []).

Definition plot_vertex_cmds (math : MathLib) (layout : list (Q * Q))
    (vertex_sizes : list Q) (vertex_colors : list (Q * Q * Q)) (idx : nat)
    : list cairo_cmd :=
  [Arc (fst (nth idx layout (0, 0)%Q)) (snd (nth idx layout (0, 0)%Q))
       (nth idx vertex_sizes 0%Q / 2) 0 (2 * pi math);
   SetSourceRgb (nth idx vertex_colors (0, 0, 0)%Q);
   FillPreserve;
   SetSourceRgb (0, 0, 0)%Q;
   Stroke].

Definition plot_label_cmds (math : MathLib)
    (text_extents : pyval -> result (Q * Q * Q * Q)) (layout : list (Q * Q))
    (vertex_sizes : list Q) (vertex_labels : list pyval)
    (vertex_dists vertex_degrees : list Q) (idx : nat) : list cairo_cmd :=
  match text_extents (nth idx vertex_labels PNone) with
  | Ok (xb, yb, w, h) =>
      [MoveTo ((fst (nth idx layout (0, 0)%Q)
                + cos math (nth idx vertex_degrees 0%Q) * nth idx vertex_dists 0%Q
                  * nth idx vertex_sizes 0%Q
                - (w / 2 + xb))%Q,
               (snd (nth idx layout (0, 0)%Q)
                + sin math (nth idx vertex_degrees 0%Q) * nth idx vertex_dists 0%Q
                  * nth idx vertex_sizes 0%Q
                - (h / 2 + yb))%Q);
       ShowText (nth idx vertex_labels PNone)]
  | Raise _ => []
  end.

(** All the calls of a run of [__plot__]. *)
Definition plot_document (math : MathLib)
    (text_extents : pyval -> result (Q * Q * Q * Q)) (self : Graph)
    (layout : list (Q * Q)) (vertex_colors : list (Q * Q * Q))
    (vertex_sizes : list Q) (edge_colors : list (Q * Q * Q))
    (edge_widths : list Q) (vertex_labels : list pyval)
    (vertex_dists vertex_degrees : list Q) : list cairo_cmd :=
  [SetLineWidth 1]
  ++ flat_enumerate 0 (get_edgelist self)
       (plot_edge_cmds math layout (is_directed self) vertex_sizes edge_colors
                       edge_widths)
  ++ [SetLineWidth 1]
  ++ flat_map (plot_vertex_cmds math layout vertex_sizes vertex_colors)
       (seq 0 (vcount self))
  ++ [SelectFontFace "sans-serif"; SetFontSize 14]
  ++ flat_map (plot_label_cmds math text_extents layout vertex_sizes
                               vertex_labels vertex_dists vertex_degrees)
       (seq 0 (vcount self)).

(** The inputs on which [write_svg] gets to the end of the file: sizes
    that are positive, a font size [fs] that is accepted, parameters
    resolved to [params], coordinates [rows] (given, or returned by the
    algorithm named) that have an extent along both axes and are
    normalised to [layout], lists [shp] of shapes and
    [ecs] of edge colours with an entry for every vertex and edge, a point
    for every vertex, and edges between vertices of the graph. *)
Record svg_run_ready (self : Graph) (rows : list (pynum * pynum))
    (width height : option Z) (labels colors shapes : attr_arg)
    (vertex_size : Z) (edge_colors : attr_arg) (font_size : font_arg)
    (fs : string) (params : svg_params) (layout : list (Q * Q))
    (shp ecs : list pyval) : Prop := {
  ready_width : (0 < fst (effective_size width height))%Z;
  ready_height : (0 < snd (effective_size width height))%Z;
  ready_font : resolve_font_size font_size = Ok fs;
  ready_params : resolve_params self labels colors shapes edge_colors = Ok params;
  ready_layout :
    normalize rows (fst (effective_size width height))
              (snd (effective_size width height)) vertex_size = Ok layout;
  ready_shapes : sp_shapes params = Some shp;
  ready_shapes_length : vcount self <= List.length shp;
  ready_edge_colors : sp_edge_colors params = Some ecs;
  ready_edge_colors_length : ecount self <= List.length ecs;
  ready_rows_length : vcount self <= List.length rows;
  ready_edges :
    Forall (fun e => fst e < vcount self /\ snd e < vcount self)
           (get_edgelist self)
}.

(** The same for [__plot__]: the attributes are collected without error
    into lists with an entry for every vertex and edge, the layout [rows]
    (given, or returned by [self.layout]) is scaled to [layout], the edges
    are between
    vertices of the graph, and the extents of every label can be
    measured. *)
Record plot_run_ready (math : MathLib)
    (collect_colors :
       nat -> string -> string -> plot_kwds -> gmap string (list pyval)
       -> string -> result (list (Q * Q * Q)))
    (collect_floats :
       nat -> string -> string -> plot_kwds -> gmap string (list pyval)
       -> Q -> result (list Q))
    (collect_values :
       nat -> string -> string -> plot_kwds -> gmap string (list pyval)
       -> pyval -> result (list pyval))
    (bounding_box : list (Q * Q) -> Q * Q * Q * Q)
    (text_extents : pyval -> result (Q * Q * Q * Q))
    (self : Graph) (bbox_width bbox_height : Q) (kwds : plot_kwds)
    (rows layout : list (Q * Q))
    (vertex_colors edge_colors : list (Q * Q * Q))
    (vertex_sizes edge_widths vertex_dists vertex_degrees : list Q)
    (max_vertex_size : Q) (vertex_labels : list pyval) : Prop := {
  ready_vertex_colors :
    collect_colors (vcount self) "vertex_color" "color" kwds
                   (vertex_attributes self) "red" = Ok vertex_colors;
  ready_vertex_sizes :
    collect_floats (vcount self) "vertex_size" "size" kwds
                   (vertex_attributes self) 10%Q = Ok vertex_sizes;
  ready_max_size : py_max vertex_sizes = Ok max_vertex_size;
  ready_plot_layout :
    plot_normalize bounding_box rows bbox_width bbox_height max_vertex_size
                   (plot_margin kwds) = Ok layout;
  ready_plot_edge_colors :
    collect_colors (ecount self) "edge_color" "color" kwds
                   (edge_attributes self) "black" = Ok edge_colors;
  ready_edge_widths :
    collect_floats (ecount self) "edge_width" "width" kwds
                   (edge_attributes self) 1%Q = Ok edge_widths;
  ready_vertex_labels :
    plot_vertex_labels collect_values self kwds = Ok vertex_labels;
  ready_vertex_dists :
    collect_floats (vcount self) "vertex_dist" "dist" kwds
                   (vertex_attributes self) 1%Q = Ok vertex_dists;
  ready_vertex_degrees :
    collect_floats (vcount self) "vertex_degree" "degree" kwds
                   (vertex_attributes self) (- pi math / 4)%Q = Ok vertex_degrees;
  ready_plot_rows_length : vcount self <= List.length rows;
  ready_vertex_colors_length : vcount self <= List.length vertex_colors;
  ready_vertex_sizes_length : vcount self <= List.length vertex_sizes;
  ready_vertex_labels_length : vcount self <= List.length vertex_labels;
  ready_vertex_dists_length : vcount self <= List.length vertex_dists;
  ready_vertex_degrees_length : vcount self <= List.length vertex_degrees;
  ready_plot_edge_colors_length : ecount self <= List.length edge_colors;
  ready_edge_widths_length : ecount self <= List.length edge_widths;
  ready_plot_edges :
    Forall (fun e => fst e < vcount self /\ snd e < vcount self)
           (get_edgelist self);
  ready_extents :
    forall i, i < vcount self ->
      is_raise (text_extents (nth i vertex_labels PNone)) = false
}.

(** A method that, in every world, adds the events [es] to the log,
    changes nothing else and returns [a]. *)
Definition writes {A} (m : M A) (es : list event) (a : A) : Prop :=
  forall w : world, m w = (emits es w, Ok a).

(** ** Concrete environments, for running the methods *)

Definition empty_world : world := World ∅ [].

Definition no_attributes : gmap string (list pyval) := ∅.

(** Codecs that fail as soon as they are called. *)
Definition failing_reader (name : string) (f : fileref) (args : unit) : M Graph :=
  raise (OtherError name).

Definition failing_writer (name : string) (g : Graph) (f : fileref)
    (args : unit) : M unit :=
  raise (OtherError name).

(** A [Graph] class without layout algorithms. *)
Definition no_layout (name : string) (g : Graph) : M (list (Q * Q)) :=
  raise (AttributeError ("layout_" +:+ name)).

(** Text files of two and of three lines of two numbers each. *)
Definition two_line_text : string := "1 2
3 4
".

Definition three_line_text : string := "1 2
3 4
5 6
".

Definition three_line_rest : string := "5 6
".

(** Two vertices and the edge between them. *)
Definition path_graph : Graph :=
  {| vcount := 2; get_edgelist := [(0, 1)%nat]; is_directed := false;
     vertex_attributes := no_attributes; edge_attributes := no_attributes |}.

(** Three vertices and the edge between the first two, undirected and
    directed, and a layout that puts this edge along the x axis. *)
Definition wedge : Graph :=
  {| vcount := 3; get_edgelist := [(0, 1)%nat]; is_directed := false;
     vertex_attributes := no_attributes; edge_attributes := no_attributes |}.

Definition directed_wedge : Graph :=
  {| vcount := 3; get_edgelist := [(0, 1)%nat]; is_directed := true;
     vertex_attributes := no_attributes; edge_attributes := no_attributes |}.

(** One vertex and no edge. *)
Definition single_vertex : Graph :=
  {| vcount := 1; get_edgelist := []; is_directed := false;
     vertex_attributes := no_attributes; edge_attributes := no_attributes |}.

Definition wedge_layout : list (Q * Q) := [(0, 0); (2, 0); (1, 2)]%Q.

(** The [math] functions along the positive x axis, where floats give
    them exactly: [atan2(0, x) = 0] for [x > 0], [cos(0) = 1],
    [sin(0) = 0]; [pi] is the double nearest to the number. The values
    given for other arguments are not Python's. Of the runs below, the
    positions stated that are computed with these functions are those of an
    edge of [write_svg] along that axis; the label positions and arrowhead
    corners of [__plot__], which use other angles, are not stated. *)
Definition axis_math : MathLib :=
  {| atan2 := fun y x => 0%Q;
     cos := fun a => if Qeq_bool a 0 then 1%Q else 0%Q;
     sin := fun a => 0%Q;
     pi := (884279719003555 # 281474976710656)%Q |}.

(** [collect_attributes] when neither a keyword nor an attribute gives
    the values: the default at every position. *)
Definition default_colors (n : nat) (kw attr : string) (kwds : plot_kwds)
    (attrs : gmap string (list pyval)) (default : string)
    : result (list (Q * Q * Q)) :=
  Ok (repeat (if String.eqb default "red" then (1, 0, 0)%Q else (0, 0, 0)%Q) n).

Definition default_floats (n : nat) (kw attr : string) (kwds : plot_kwds)
    (attrs : gmap string (list pyval)) (default : Q) : result (list Q) :=
  Ok (repeat default n).

Definition default_values (n : nat) (kw attr : string) (kwds : plot_kwds)
    (attrs : gmap string (list pyval)) (default : pyval) : result (list pyval) :=
  Ok (repeat default n).

(** A layout algorithm and a font without extents. *)
Definition wedge_layout_algorithm (g : Graph) (name : option string)
    : M (list (Q * Q)) :=
  ret wedge_layout.

Definition no_extents (text : pyval) : result (Q * Q * Q * Q) :=
  Ok (0, 0, 0, 0)%Q.

(** [layout=Layout(...)] and no other keyword. *)
Definition with_wedge_layout : plot_kwds :=
  {| kw_margin := None; kw_layout := Some (LayoutRows wedge_layout);
     kw_vertex_label := None; kw_drawing := ∅ |}.

(** What a run printed to the SVG file and drew on the Cairo context,
    with every number in lowest terms. *)
Definition canon_line (l : svg_line) : svg_line :=
  match l with
  | RootGroupOpen tx ty => RootGroupOpen (Qred tx) (Qred ty)
  | ArrowGroupOpen tx ty f s => ArrowGroupOpen (Qred tx) (Qred ty) f s
  | ArrowLine x1 y1 => ArrowLine (Qred x1) (Qred y1)
  | ArrowUse r => ArrowUse (Qred r)
  | EdgeLine x1 y1 x2 y2 s => EdgeLine (Qred x1) (Qred y1) (Qred x2) (Qred y2) s
  | VertexGroupOpen tx ty => VertexGroupOpen (Qred tx) (Qred ty)
  | _ => l
  end.

Definition printed (w : world) : list svg_line :=
  omap (fun e => match e with
                 | EvPrint _ l => Some (canon_line l)
                 | _ => None
                 end) (log w).

Definition canon_point (p : Q * Q) : Q * Q := (Qred (fst p), Qred (snd p)).

Definition canon_cmd (c : cairo_cmd) : cairo_cmd :=
  match c with
  | SetLineWidth w => SetLineWidth (Qred w)
  | SetSourceRgb (r, g, b) => SetSourceRgb (Qred r, Qred g, Qred b)
  | Arc xc yc r a1 a2 => Arc (Qred xc) (Qred yc) (Qred r) (Qred a1) (Qred a2)
  | MoveTo p => MoveTo (canon_point p)
  | LineTo p => LineTo (canon_point p)
  | _ => c
  end.

Definition drawn (w : world) : list cairo_cmd :=
  omap (fun e => match e with
                 | EvCairo _ c => Some (canon_cmd c)
                 | _ => None
                 end) (log w).

(** The path commands up to the first [Stroke]: the first edge. *)
Fixpoint first_stroke (cs : list cairo_cmd) : list cairo_cmd :=
  match cs with
  | [] => []
  | Stroke :: _ => []
  | MoveTo p :: cs' => MoveTo p :: first_stroke cs'
  | LineTo p :: cs' => LineTo p :: first_stroke cs'
  | Arc xc yc r a1 a2 :: cs' => Arc xc yc r a1 a2 :: first_stroke cs'
  | _ :: cs' => first_stroke cs'
  end.

Definition shown_texts (w : world) : list pyval :=
  omap (fun c => match c with
                 | ShowText t => Some t
                 | _ => None
                 end) (drawn w).

(** The lines between the opening of a group and the end of the file. *)
Fixpoint lines_from_group (opening : svg_line -> bool) (ls : list svg_line)
    : list svg_line :=
  match ls with
  | [] => []
  | l :: ls' => if opening l then ls' else lines_from_group opening ls'
  end.

Definition is_edges_open (l : svg_line) : bool :=
  match l with EdgesComment => true | _ => false end.

Definition is_vertices_open (l : svg_line) : bool :=
  match l with VerticesComment => true | _ => false end.

(** The lines of the edges: from the edges comment to the close of that
    group. *)
Fixpoint until_group_close (ls : list svg_line) : list svg_line :=
  match ls with
  | [] => []
  | GroupClose :: _ => []
  | l :: ls' => l :: until_group_close ls'
  end.

Definition edge_lines (w : world) : list svg_line :=
  until_group_close (lines_from_group is_edges_open (printed w)).

Definition vertex_lines (w : world) : list svg_line :=
  until_group_close (lines_from_group is_vertices_open (printed w)).

(** [write_svg] and [__plot__] with the defaults of their signatures. *)
Definition write_svg_defaults (self : Graph) (fname : string)
    (layout : list (Q * Q)) : M unit :=
  write_svg axis_math no_layout self fname (LayoutRows layout) None None
            (ArgName "label") (ArgName "color") (ArgName "shape") 10
            (ArgName "color") (FontNumber 16).

Definition plot_defaults (self : Graph) (kwds : plot_kwds) : M unit :=
  __plot__ axis_math default_colors default_floats default_values
           wedge_layout_algorithm Layout_bounding_box no_extents "context"
           self 600 600 kwds.

(** An environment for the gzipped GraphML methods: the temporary file
    is [/tmp/tmpA1], the codec writes one line, and the disk is full when
    the gzip stream is written; reading finds text that is no GraphML. *)
Definition tmp_a1 (w : world) : result string := Ok "/tmp/tmpA1".

Definition one_line_codec (g : Graph) (p : string) : M unit :=
  file_write p "<graphml/>".

Definition rejecting_codec (p : string) : M Graph :=
  raise (OtherError "not well-formed").

Definition gzip_open_ok (f : string) (level : Z) : M unit := ret tt.

Definition gzip_write_full (f line : string) : M unit :=
  raise (IOError "No space left on device").

Definition gzip_close_ok (f : string) : M unit := ret tt.

Definition gzip_two_lines (f : string) : M (list (result string)) :=
  ret [Ok "<graphml>"; Ok "</graphml>"].

Definition write_full_disk_run : world * result unit :=
  write_graphmlz tmp_a1 one_line_codec gzip_open_ok gzip_write_full
                 gzip_close_ok path_graph "g.graphmlz" 9 empty_world.

Definition read_rejected_run : world * result Graph :=
  Read_GraphMLz tmp_a1 rejecting_codec gzip_close_ok gzip_two_lines
                "g.graphmlz" empty_world.

(** The runs of the renderers looked at below. *)
Definition unknown_shape_run : world * result unit :=
  write_svg axis_math no_layout wedge "g.svg" (LayoutRows wedge_layout)
            None None (ArgName "label") (ArgName "color")
            (ArgList [PInt 7; PInt 1; PInt 2]) 10 (ArgName "color")
            (FontNumber 16) empty_world.

Definition undirected_svg_run : world * result unit :=
  write_svg_defaults wedge "g.svg" wedge_layout empty_world.

Definition directed_svg_run : world * result unit :=
  write_svg_defaults directed_wedge "g.svg" wedge_layout empty_world.

Definition undirected_plot_run : world * result unit :=
  plot_defaults wedge with_wedge_layout empty_world.

Definition directed_plot_run : world * result unit :=
  plot_defaults directed_wedge with_wedge_layout empty_world.

(** The centres of the vertices as [__plot__] draws them. *)
Definition vertex_centres (w : world) : list (Q * Q) :=
  omap (fun c => match c with
                 | Arc xc yc _ _ _ => Some (xc, yc)
                 | _ => None
                 end) (drawn w).

(** The positions of the vertices as [write_svg] writes them. *)
Definition vertex_positions (w : world) : list (Q * Q) :=
  omap (fun l => match l with
                 | VertexGroupOpen tx ty => Some (tx, ty)
                 | _ => None
                 end) (printed w).

(** Matrix text, and text whose second line has one field. *)
Definition matrix_text : string := "0 1 0
1 0 1
0 1 0
".

Definition ragged_text : string := "1 2
3
".

(** The text a sequence of writes leaves in a file. *)
Definition text_of (lines : list string) : string :=
  fold_right String.append "" lines.

(** More environments for the gzipped GraphML methods: no temporary file
    can be made; the codec fails, before or after it has removed the file it
    was given; the gzip stream records what it is given; the stream to read
    breaks after its first line. *)
Definition no_tmp (w : world) : result string :=
  Raise (OSError "No usable temporary file name found").

Definition failing_codec (g : Graph) (p : string) : M unit :=
  raise (IOError "No space left on device").

Definition removing_codec (g : Graph) (p : string) : M unit :=
  unlink p ;;; raise (IOError "No space left on device").

Definition two_line_codec (g : Graph) (p : string) : M unit :=
  file_write p two_line_text.

Definition gzip_write_log (f line : string) : M unit := tell (EvWrite f line).

Definition gzip_broken (f : string) : M (list (result string)) :=
  ret [Ok (line_of "<graphml>"); Raise (IOError "CRC check failed");
       Ok (line_of "</graphml>")].

Definition gzip_close_log (f : string) : M unit := tell (EvClose f).

(** A point between the smallest and the largest coordinates, by their
    values. *)
Definition within (acc : (pynum * pynum) * (pynum * pynum))
    (p : pynum * pynum) : Prop :=
  (num_value (fst (snd acc)) <= num_value (fst p))%Q
  /\ (num_value (fst p) <= num_value (fst (fst acc)))%Q
  /\ (num_value (snd (snd acc)) <= num_value (snd p))%Q
  /\ (num_value (snd p) <= num_value (snd (fst acc)))%Q.

(** Rows of [int]s, and the [int]s small enough for the doubles of lines
    656-660 to hold them, their sums, their halves and their products with
    a ratio exactly. *)
Definition ints (rows : list (Z * Z)) : list (pynum * pynum) :=
  map (fun row => (NInt (fst row), NInt (snd row))) rows.

Definition small (z : Z) : Prop := (- 2 ^ 50 <= z <= 2 ^ 50)%Z.

(** The largest and the smallest coordinates of rows of [int]s are
    [int]s. *)
Definition int_extent (acc : (pynum * pynum) * (pynum * pynum)) : Prop :=
  exists max0 max1 min0 min1 : Z,
    acc = ((NInt max0, NInt max1), (NInt min0, NInt min1)).

(** A point of the drawing area of [write_svg], whose origin is the
    centre of the picture: it keeps [vertex_size] away from the border. *)
Definition in_drawing_area (width height vertex_size : Z) (p : Q * Q) : Prop :=
  (- (inject_Z (width - 2 * vertex_size) / 2) <= fst p)%Q
  /\ (fst p <= inject_Z (width - 2 * vertex_size) / 2)%Q
  /\ (- (inject_Z (height - 2 * vertex_size) / 2) <= snd p)%Q
  /\ (snd p <= inject_Z (height - 2 * vertex_size) / 2)%Q.

(** A graph without vertices. *)
Definition null_graph : Graph :=
  {| vcount := 0; get_edgelist := []; is_directed := false;
     vertex_attributes := no_attributes; edge_attributes := no_attributes |}.

(** [margin=(5, 7, 9)] and a layout. *)
Definition with_three_margins : plot_kwds :=
  {| kw_margin := Some (MarginList 5 [7; 9]%Q);
     kw_layout := Some (LayoutRows wedge_layout);
     kw_vertex_label := None; kw_drawing := ∅ |}.

(** ** Eccentricity: [Graph.eccentricity] *)

(** [map(f, xs)] and [[f(x) for x in xs]] for an [f] that may raise: the
    first exception ends it. *)
Fixpoint map_result {A B} (f : A -> result B) (xs : list A) : result (list B) :=
  match xs with
  | [] => Ok []
  | x :: xs' =>
      match f x with
      | Raise e => Raise e
      | Ok y =>
          match map_result f xs' with
          | Raise e => Raise e
          | Ok ys => Ok (y :: ys)
          end
      end
  end.

(** [max(row)] for a row of distances. *)
Definition py_max_Z (row : list Z) : result Z :=
  match row with
  | [] => Raise (ValueError "max() arg is an empty sequence")
  | x :: xs => Ok (fold_left Z.max xs x)
  end.

(** [l[idx]] for an index of either sign: a negative one counts from the
    end. *)
Definition py_index {A} (l : list A) (idx : Z) : result A :=
  let i := if (idx <? 0)%Z then (idx + Z.of_nat (List.length l))%Z else idx in
  if (i <? 0)%Z then Raise IndexError
  else match l !! Z.to_nat i with
       | Some v => Ok v
       | None => Raise IndexError
       end.

(** [1.0/x] *)
Definition reciprocal (x : Z) : result Q := pydiv 1 (inject_Z x).

Section Eccentricity.

(** [self.shortest_paths(mode=OUT)] of the core: the matrix of
    distances. *)
Variable shortest_paths : Graph -> list (list Z).

Definition eccentricity (self : Graph) (nodes : option (list Z))
    : result (list Q) :=
  if Nat.eqb (vcount self) 0 then Ok []
  else if Nat.eqb (vcount self) 1 then Ok [1%Q]
  else
    let distance_matrix := shortest_paths self in
    match map_result py_max_Z distance_matrix with
    | Raise e => Raise e
    | Ok distance_maxs =>
        match nodes with
        | None => map_result reciprocal distance_maxs
        | Some nodes =>
            map_result (fun idx =>
                          match py_index distance_maxs idx with
                          | Raise e => Raise e
                          | Ok x => reciprocal x
                          end) nodes
        end
    end.

End Eccentricity.

(** Distances in a path of three vertices, and in three vertices of
    which the last is joined to no other: a distance that does not exist is
    given as the number of vertices. *)
Definition path3 : Graph :=
  {| vcount := 3; get_edgelist := [(0, 1); (1, 2)]%nat; is_directed := false;
     vertex_attributes := no_attributes; edge_attributes := no_attributes |}.

Definition path3_distances (g : Graph) : list (list Z) :=
  [[0; 1; 2]; [1; 0; 1]; [2; 1; 0]]%Z.

Definition wedge_distances (g : Graph) : list (list Z) :=
  [[0; 1; 3]; [1; 0; 3]; [3; 3; 0]]%Z.

(** ** The k-cores: [Graph.k_core] *)

(** An argument is an integer, or a list or tuple of integers; the
    result is one graph or a list of graphs. *)
Inductive core_arg :=
| CoreInt (k : Z)
| CoreList (ks : list Z).

Inductive core_result :=
| CoreGraph (g : Graph)
| CoreGraphs (gs : list Graph).

(** Lines 391-396: [indices.extend(arg)], or [indices.append(arg)] when
    the argument cannot be iterated over. *)
Definition core_indices (args : list core_arg) : list Z :=
  flat_map (fun arg => match arg with
                       | CoreInt k => [k]
                       | CoreList ks => ks
                       end) args.

(** Line 404: [[vidx for vidx in vidxs if corenesses[vidx] >= idx]] *)
Fixpoint core_idxs (corenesses : list Z) (idx : Z) (vidxs : list nat)
    : result (list nat) :=
  match vidxs with
  | [] => Ok []
  | vidx :: vidxs' =>
      match corenesses !! vidx with
      | None => Raise IndexError
      | Some c =>
          match core_idxs corenesses idx vidxs' with
          | Raise e => Raise e
          | Ok rest => Ok (if (idx <=? c)%Z then vidx :: rest else rest)
          end
      end
  end.

Section KCore.

(** [self.coreness()] and [self.subgraph(vertices)] of the core. *)
Variable coreness : Graph -> list Z.
Variable subgraph : Graph -> list nat -> Graph.

Definition k_core (self : Graph) (args : list core_arg) : result core_result :=
  let '(indices, return_single) :=
    match args with
    | [] => (map Z.of_nat (seq 0 (vcount self)), false)
    | _ :: _ => (core_indices args, true)
    end in
  (* line 398: [args[0]] is looked at when there is at most one index *)
  match (if Nat.ltb 1 (List.length indices) then Ok false
         else match args with
              | [] => Raise IndexError
              | CoreList _ :: _ => Ok false
              | CoreInt _ :: _ => Ok return_single
              end) with
  | Raise e => Raise e
  | Ok return_single =>
      let corenesses := coreness self in
      let vidxs := seq 0 (vcount self) in
      match map_result (fun idx =>
                          match core_idxs corenesses idx vidxs with
                          | Raise e => Raise e
                          | Ok core => Ok (subgraph self core)
                          end) indices with
      | Raise e => Raise e
      | Ok result =>
          if return_single then
            match subscript (Some result) 0 with
            | Raise e => Raise e
            | Ok g => Ok (CoreGraph g)
            end
          else Ok (CoreGraphs result)
      end
  end.

End KCore.

(** The subgraph of some vertices: they are numbered anew in their
    order, and the edges between them are kept. *)
Definition position (vs : list nat) (v : nat) : option nat :=
  fst <$> list_find (Nat.eqb v) vs.

Definition induced_subgraph (g : Graph) (vs : list nat) : Graph :=
  {| vcount := List.length vs;
     get_edgelist :=
       omap (fun e => match position vs (fst e), position vs (snd e) with
                      | Some a, Some b => Some (a, b)
                      | _, _ => None
                      end) (get_edgelist g);
     is_directed := is_directed g;
     vertex_attributes := no_attributes; edge_attributes := no_attributes |}.

(** A triangle with a pendant vertex, and the coreness of its
    vertices. *)
Definition kite : Graph :=
  {| vcount := 4; get_edgelist := [(0, 1); (1, 2); (0, 2); (2, 3)]%nat;
     is_directed := false;
     vertex_attributes := no_attributes; edge_attributes := no_attributes |}.

Definition kite_coreness (g : Graph) : list Z := [2; 2; 2; 1]%Z.

Definition unit_coreness (g : Graph) : list Z := repeat 0%Z (vcount g).

(** The vertices of coreness [k] or more, in increasing order. *)
Definition core_vertices (corenesses : list Z) (n : nat) (k : Z) : list nat :=
  List.filter (fun v => (k <=? nth v corenesses 0%Z)%Z) (seq 0 n).

(** ** Edge betweenness clustering: [Graph.edge_betweenness_clustering] *)

(** [xs.index(x)]: the first position with an equal value. *)
Fixpoint index_of (x : Q) (xs : list Q) : result nat :=
  match xs with
  | [] => Raise (ValueError "list.index(x): x not in list")
  | y :: xs' =>
      if Qeq_bool y x then Ok 0
      else match index_of x xs' with
           | Raise e => Raise e
           | Ok i => Ok (S i)
           end
  end.

Definition deprecation_warning : string :=
  "Graph.edge_betweenness_clustering is deprecated and will be removed soon. Use Graph.community_edge_betweenness instead".

Section EdgeBetweenness.

(** The clustering objects, [g.clusters()], [max(cl)] and
    [VertexClustering(self, ...)]; [g.edge_betweenness(directed)] and
    [g.delete_edges(index, by_index=True)] of the core. *)
Variable Clustering : Type.
Variable graph_clusters : Graph -> Clustering.
Variable clustering_max : Clustering -> result Z.
Variable VertexClustering : Graph -> Clustering -> Clustering.
Variable edge_betweenness : Graph -> bool -> list Q.
Variable delete_edges : Graph -> nat -> Graph.

(** Lines 357-371: the [while True] loop, one turn for every unit of
    [fuel]; nothing when the fuel runs out before a [break]. *)
Fixpoint ebc_loop (fuel : nat) (clusters steps : option Z) (directed : bool)
    (g : Graph) (number_of_steps : Z) : option (result Graph) :=
  match fuel with
  | O => None
  | S fuel' =>
      match (match clusters with
             | None => Ok false
             | Some clusters =>
                 match clustering_max (graph_clusters g) with
                 | Raise e => Raise e
                 | Ok m => Ok (clusters <=? m + 1)%Z
                 end
             end) with
      | Raise e => Some (Raise e)
      | Ok true => Some (Ok g)
      | Ok false =>
          if (match steps with
              | None => false
              | Some steps => (steps <? number_of_steps)%Z
              end)
          then Some (Ok g)
          else
            let ebs := edge_betweenness g directed in
            if Nat.eqb (List.length ebs) 0 then Some (Ok g)
            else
              match py_max ebs with
              | Raise e => Some (Raise e)
              | Ok eb_max =>
                  match index_of eb_max ebs with
                  | Raise e => Some (Raise e)
                  | Ok eb_max_index =>
                      ebc_loop fuel' clusters steps directed
                               (delete_edges g eb_max_index)
                               (number_of_steps + 1)
                  end
              end
      end
  end.

(** The warnings given, and the result. *)
Definition edge_betweenness_clustering (fuel : nat) (self : Graph)
    (clusters steps : option Z) : list string * option (result Clustering) :=
  ([deprecation_warning],
   match ebc_loop fuel clusters steps (is_directed self) self 0 with
   | None => None
   | Some (Raise e) => Some (Raise e)
   | Some (Ok g) => Some (Ok (VertexClustering self (graph_clusters g)))
   end).

End EdgeBetweenness.

(** An environment for the clustering: every edge has betweenness 1
    but the last, which has 2; an edge is deleted from the list of edges;
    the clustering of a graph is the graph itself. *)
Definition last_edge_betweenness (g : Graph) (directed : bool) : list Q :=
  match ecount g with
  | O => []
  | S n => repeat 1%Q n ++ [2%Q]
  end.

Definition delete_edge (g : Graph) (index : nat) : Graph :=
  {| vcount := vcount g; get_edgelist := delete index (get_edgelist g);
     is_directed := is_directed g;
     vertex_attributes := vertex_attributes g;
     edge_attributes := edge_attributes g |}.

Definition one_cluster (c : Graph) : result Z := Ok 0%Z.

Definition clustering_of (self : Graph) (c : Graph) : Graph := c.

(** ** Pickling: [Graph.write_pickle], [Graph.Read_Pickle] *)

(** The [fname] argument: [None], a string, or an open file object,
    given by the name it was opened with. *)
Inductive pickle_arg :=
| PickleNone
| PickleStr (s : string)
| PickleFile (name : string).

(** What unpickling gives: a graph, or an object of another class. *)
Inductive pyobj :=
| ObjGraph (g : Graph)
| ObjOther (repr : string).

(** The text that line 545 looks for *)
Definition pickle_marker : string :=
  "cigraph" +:+ String PyStr.newline ("Graph" +:+ String PyStr.newline "").

(** [sub in s] *)
Definition contains (sub s : string) : bool :=
  match String.index 0 sub s with
  | Some _ => true
  | None => false
  end.

(** The exception for a local variable read before it is assigned. *)
Definition UnboundLocalError (name : string) : exn :=
  OtherError ("UnboundLocalError: local variable '" +:+ name
              +:+ "' referenced before assignment").

Section Pickle.

(** [cPickle.dumps(obj, version)] and [cPickle.loads(data)];
    [cPickle.dump] writes to a file what [dumps] gives, [cPickle.load]
    reads from a file what [loads] is given. *)
Variable dumps : Graph -> Z -> result string.
Variable loads : string -> result pyobj.

Definition write_pickle (self : Graph) (fname : pickle_arg) (version : Z)
    : M (option string) :=
  match fname with
  | PickleNone =>
      data <- lift_result (dumps self version) ;;
      ret (Some data)
  | PickleStr p =>
      (* [file_was_opened=True] *)
      open_for_writing p "wb" ;;;
      data <- lift_result (dumps self version) ;;
      file_write p data ;;;
      file_close p ;;;
      ret None
  | PickleFile p =>
      data <- lift_result (dumps self version) ;;
      file_write p data ;;;
      (* [if file_was_opened]: never assigned on this path *)
      raise (UnboundLocalError "file_was_opened")
  end.

Definition Read_Pickle (fname : pickle_arg) : M pyobj :=
  match fname with
  | PickleNone => raise TypeError          (* [len(None)] *)
  | PickleFile _ => raise TypeError        (* [len(f)] of a file object *)
  | PickleStr s =>
      if Nat.ltb 40 (String.length s) && contains pickle_marker s then
        lift_result (loads s)
      else
        text <- open_for_reading s "rb" ;;
        result <- lift_result (loads text) ;;
        file_close s ;;;
        match result with
        | ObjGraph _ => ret result
        | ObjOther _ => raise TypeError
        end
  end.

End Pickle.

(** A pickle codec for the runs below: the graph [wedge] is written as a
    text of fifty characters or so that names its class, any other text
    unpickles to an integer, and text that does not end in a full stop is
    truncated. *)
Definition wedge_pickle : string :=
  "cigraph" +:+ String PyStr.newline
    ("Graph" +:+ String PyStr.newline "(I3 (lp0 (I0 I1 tp1 a I00 tRp2 .").

Definition toy_dumps (g : Graph) (version : Z) : result string :=
  if (version <=? 2)%Z then Ok wedge_pickle
  else Raise (ValueError "pickle protocol must be <= 2").

Definition toy_loads (data : string) : result pyobj :=
  if String.eqb data wedge_pickle then Ok (ObjGraph wedge)
  else if String.eqb data "I7." then Ok (ObjOther "7")
  else Raise (OtherError "EOFError").

(** An algorithm that lays the three vertices out as [wedge_layout],
    whatever its name; rows of [int]s whose extents, 3 and 1, do not both
    divide the size 380; and no keyword at all for [__plot__]. *)
Definition wedge_algorithm (name : string) (g : Graph) : M (list (Q * Q)) :=
  ret wedge_layout.

Definition int_rows : list (pynum * pynum) :=
  [(NInt 0, NInt 0); (NInt 3, NInt 0); (NInt 1, NInt 1)].

Definition no_keywords : plot_kwds :=
  {| kw_margin := None; kw_layout := None;
     kw_vertex_label := None; kw_drawing := ∅ |}.

Definition named_svg_run : world * result unit :=
  write_svg axis_math wedge_algorithm wedge "g.svg" (LayoutName "circle")
            None None (ArgName "label") (ArgName "color")
            (ArgList [PInt 7; PInt 1; PInt 2]) 10 (ArgName "color")
            (FontNumber 16) empty_world.

Definition int_svg_run : world * result unit :=
  write_svg axis_math no_layout wedge "g.svg" (LayoutNumbers int_rows)
            None None (ArgName "label") (ArgName "color") (ArgName "shape") 10
            (ArgName "color") (FontNumber 16) empty_world.

Definition plain_plot_run : world * result unit :=
  plot_defaults wedge no_keywords empty_world.

Definition directed_plain_plot_run : world * result unit :=
  plot_defaults directed_wedge no_keywords empty_world.

(** A method that raises [e] in every world. *)
Definition raises {A} (m : M A) (e : exn) : Prop :=
  forall w : world, (m w).2 = Raise e.

(** [write_svg] with one label for three vertices, with one shape, and
    on the graph of two vertices with no edge colour for its edge; all the
    rest by name. *)
Definition short_labels_run : world * result unit :=
  write_svg axis_math no_layout wedge "g.svg" (LayoutRows wedge_layout)
            None None (ArgList [PStr "a"]) (ArgList [PStr "blue"])
            (ArgName "shape") 10 (ArgName "color") (FontNumber 16)
            empty_world.

Definition short_shapes_run : world * result unit :=
  write_svg axis_math no_layout wedge "g.svg" (LayoutRows wedge_layout)
            None None (ArgName "label") (ArgName "color")
            (ArgList [PInt 2]) 10 (ArgName "color") (FontNumber 16)
            empty_world.

Definition short_edge_colors_run : world * result unit :=
  write_svg axis_math no_layout wedge "g.svg" (LayoutRows wedge_layout)
            None None (ArgName "label") (ArgName "color")
            (ArgName "shape") 10 (ArgList []) (FontNumber 16)
            empty_world.

(** The texts of the vertices in what a run printed. *)
Definition vertex_texts (w : world) : list string :=
  omap (fun l => match l with
                 | VertexText label => Some label
                 | _ => None
                 end) (printed w).

(** The colours of the circles in what a run printed. *)
Definition circle_fills (w : world) : list string :=
  omap (fun l => match l with
                 | Circle _ fill => Some fill
                 | _ => None
                 end) (printed w).

(** ** Format identification *)

Lemma existsb_static_extensions (ext : string) :
  In ext static_extensions -> existsb (String.eqb ext) static_extensions = true.
Proof.
  intros Hin. apply existsb_exists. exists ext. split; [exact Hin|].
  apply String.eqb_refl.
Qed.

(** C9: a path whose lower-cased extension is in the static table is
    identified as that extension without its dot, and the world is left as
    it was: no file is opened, and the text of the file plays no part. The
    same holds for a file object of that name. *)
Theorem identify_format_static_extension (p ext : string) (w : world) :
  extension p = ext ->
  In ext static_extensions ->
  _identify_format (Path p) w = (w, Ok (Some (PyStr.tail ext)))
  /\ _identify_format (FileObj (Some p)) w = (w, Ok (Some (PyStr.tail ext))).
Proof.
  unfold extension. intros Hext Hin. unfold _identify_format.
  destruct (PosixPath.splitext p) as [root e]. simpl in Hext. rewrite Hext.
  rewrite (existsb_static_extensions ext Hin). split; reflexivity.
Qed.

Lemma identify_format_static_extension_witness :
  _identify_format (Path "data/Net.GraphML") empty_world
    = (empty_world, Ok (Some "graphml"))
  /\ _identify_format (FileObj (Some "data/Net.GraphML")) empty_world
    = (empty_world, Ok (Some "graphml")).
Proof.
  apply (identify_format_static_extension "data/Net.GraphML" ".graphml").
  - reflexivity.
  - simpl. tauto.
Defined.

(** The tokens of the static table, one by one. *)
Example static_tokens :
  map PyStr.tail static_extensions
  = ["graphml"; "graphmlz"; "lgl"; "ncol"; "pajek"; "gml"; "dimacs";
     "edgelist"; "edges"; "edge"; "net"; "pickle"].
Proof. reflexivity. Qed.

(** [readline] gives back a line that ends the first newline. *)
Lemma readline_line (body rest : string) :
  PyStr.contains_char PyStr.newline body = false ->
  PyStr.readline (body +:+ String PyStr.newline rest)
  = (body +:+ String PyStr.newline "", rest).
Proof.
  induction body as [|c body IH]; intros Hnl.
  - reflexivity.
  - cbn [PyStr.contains_char] in Hnl. apply orb_false_iff in Hnl as [Hc Hb].
    change (String c body +:+ String PyStr.newline rest)
      with (String c (body +:+ String PyStr.newline rest)).
    cbn [PyStr.readline].
    rewrite Ascii.eqb_sym, Hc. rewrite (IH Hb). reflexivity.
Qed.

Lemma line_app (body rest : string) :
  (body +:+ String PyStr.newline "") +:+ rest = body +:+ String PyStr.newline rest.
Proof.
  induction body as [|x body IH]; [reflexivity|].
  change (String x ((body +:+ String PyStr.newline "") +:+ rest)
          = String x (body +:+ String PyStr.newline rest)).
  now rewrite IH.
Qed.

(** ** Dispatch *)

Lemma pajek_is_static : In ".pajek" static_extensions.
Proof. unfold static_extensions. do 4 right. left. reflexivity. Qed.

Lemma net_is_static : In ".net" static_extensions.
Proof. unfold static_extensions. do 10 right. left. reflexivity. Qed.

Section DispatchFacts.

Variable Args : Type.
Variable invoke_reader : string -> fileref -> Args -> M Graph.
Variable invoke_writer : string -> Graph -> fileref -> Args -> M unit.

Lemma mapping_entry_pajek :
  mapping_entry (Some "pajek") = Some (Some "Read_Pajek", None).
Proof using Type. vm_compute. reflexivity. Qed.

Lemma mapping_entry_net :
  mapping_entry (Some "net") = Some (Some "Read_Pajek", None).
Proof using Type. vm_compute. reflexivity. Qed.

(** C8: [write] with the format [pajek] (or [net]), given or found from
    the extension, raises the error of a missing writer and leaves the
    world as it was: no file is opened or written, no codec is called. *)
Theorem write_pajek_has_no_writer (self : Graph) (f : fileref) (args : Args)
    (w : world) :
  write Args invoke_writer self f (Some "pajek") args w
    = (w, Raise (IOError "no writer method for file format: pajek"))
  /\ write Args invoke_writer self f (Some "net") args w
    = (w, Raise (IOError "no writer method for file format: net"))
  /\ (forall p : string,
        extension p = ".pajek" ->
        write Args invoke_writer self (Path p) None args w
          = (w, Raise (IOError "no writer method for file format: pajek")))
  /\ (forall p : string,
        extension p = ".net" ->
        write Args invoke_writer self (Path p) None args w
          = (w, Raise (IOError "no writer method for file format: net"))).
Proof using Args invoke_writer.
  repeat split.
  - intros p Hext. unfold write, bind.
    destruct (identify_format_static_extension p ".pajek" w Hext) as [-> _].
    + exact pajek_is_static.
    + change (PyStr.tail ".pajek") with "pajek".
      rewrite mapping_entry_pajek. reflexivity.
  - intros p Hext. unfold write, bind.
    destruct (identify_format_static_extension p ".net" w Hext) as [-> _].
    + exact net_is_static.
    + change (PyStr.tail ".net") with "net".
      rewrite mapping_entry_net. reflexivity.
Qed.

Lemma mapping_entry_None : mapping_entry None = None.
Proof using Type. reflexivity. Qed.

Lemma mapping_entry_edges :
  mapping_entry (Some "edges") = Some (Some "Read_Edgelist", Some "write_edgelist").
Proof using Type. vm_compute. reflexivity. Qed.

(** C2: a [.txt] or [.dat] file whose first two lines have two fields
    each. With a third line that has a field, the file is identified as an
    edge list ([edges], read by [Read_Edgelist]). When the text ends after
    the second line, no format is identified, and [Read] and [write] with
    no format given raise [IOError]. The fields of a line are those of
    [line.strip().split()]; the source does not look whether they are
    numbers. *)
Theorem identify_format_two_fields (p : string) (w : world)
    (body1 body2 rest : string) (self : Graph) (args : Args) :
  extension p = ".txt" \/ extension p = ".dat" ->
  PyStr.contains_char PyStr.newline body1 = false ->
  PyStr.contains_char PyStr.newline body2 = false ->
  files w !! p = Some (line_of body1 +:+ line_of body2 +:+ rest) ->
  List.length (parts_of (line_of body1)) = 2%nat ->
  List.length (parts_of (line_of body2)) = 2%nat ->
  (parts_of (fst (PyStr.readline rest)) <> [] ->
     _identify_format (Path p) w = (emit (EvOpen p "r") w, Ok (Some "edges"))
     /\ Read Args invoke_reader (Path p) None args w
        = invoke_reader "Read_Edgelist" (Path p) args (emit (EvOpen p "r") w))
  /\ (rest = "" ->
     _identify_format (Path p) w = (emit (EvOpen p "r") w, Ok None)
     /\ Read Args invoke_reader (Path p) None args w
        = (emit (EvOpen p "r") w, Raise (IOError "unknown file format: None"))
     /\ write Args invoke_writer self (Path p) None args w
        = (emit (EvOpen p "r") w, Raise (IOError "unknown file format: None"))).
Proof using Type.
  unfold extension, line_of.
  set (line1 := body1 +:+ String PyStr.newline "").
  set (line2 := body2 +:+ String PyStr.newline "").
  intros Hext Hb1 Hb2 Hfile Hl1 Hl2.
  assert (Hid : _identify_format (Path p) w
                = (emit (EvOpen p "r") w, Ok (sniff (line1 +:+ line2 +:+ rest)))).
  { unfold _identify_format.
    destruct (PosixPath.splitext p) as [root e]. simpl in Hext.
    unfold bind, open_read.
    destruct Hext as [-> | ->]; simpl; rewrite Hfile; reflexivity. }
  assert (Hsniff : sniff (line1 +:+ line2 +:+ rest)
                   = if Nat.eqb (List.length (parts_of (fst (PyStr.readline rest)))) 0
                     then None else Some "edges").
  { unfold sniff, readline. subst line1 line2.
    rewrite (line_app body2 rest), (line_app body1).
    rewrite (readline_line body1 _ Hb1).
    fold (parts_of (body1 +:+ String PyStr.newline "")). rewrite Hl1. simpl Nat.eqb.
    cbv iota beta.
    rewrite (readline_line body2 _ Hb2).
    fold (parts_of (body2 +:+ String PyStr.newline "")). rewrite Hl2. simpl Nat.eqb.
    cbv iota beta.
    destruct (PyStr.readline rest) as [line3 rest3]. reflexivity. }
  rewrite Hsniff in Hid. clear Hsniff. split.
  - intros Hne.
    destruct (parts_of (fst (PyStr.readline rest))) as [|f fs] eqn:Hp;
      [congruence|].
    simpl in Hid. split; [exact Hid|].
    unfold Read, bind. rewrite Hid. rewrite mapping_entry_edges. reflexivity.
  - intros ->. simpl in Hid. split; [exact Hid|]. split.
    + unfold Read, bind. rewrite Hid. reflexivity.
    + unfold write, bind. rewrite Hid. reflexivity.
Qed.

End DispatchFacts.

Lemma write_pajek_has_no_writer_witness :
  write unit failing_writer path_graph (Path "out/graph.PAJEK") None tt empty_world
  = (empty_world, Raise (IOError "no writer method for file format: pajek")).
Proof.
  apply (write_pajek_has_no_writer unit failing_writer path_graph
           (Path "out/graph.PAJEK") tt empty_world).
  reflexivity.
Defined.

(** ** The temporary file of the gzipped GraphML methods *)

Lemma keeps_files_ret {A} (a : A) : keeps_files (ret a).
Proof. intros w p H. exact H. Qed.

Lemma keeps_files_bind {A B} (m : M A) (k : A -> M B) :
  keeps_files m -> (forall a, keeps_files (k a)) -> keeps_files (bind m k).
Proof.
  intros Hm Hk w p H. unfold bind.
  specialize (Hm w p H). destruct (m w) as [w1 [a|e]]; simpl in *.
  - apply Hk. exact Hm.
  - exact Hm.
Qed.

Lemma keeps_files_for_each {A} (xs : list A) (body : A -> M unit) :
  (forall x, keeps_files (body x)) -> keeps_files (for_each xs body).
Proof.
  intros Hbody. induction xs as [|x xs IH]; simpl.
  - apply keeps_files_ret.
  - apply keeps_files_bind; [apply Hbody | intros _; exact IH].
Qed.

Lemma keeps_files_lift_result {A} (r : result A) : keeps_files (lift_result r).
Proof. intros w p H. exact H. Qed.

Lemma keeps_files_tell (e : event) : keeps_files (tell e).
Proof. intros w p H. exact H. Qed.

Lemma keeps_files_open_read (p : string) : keeps_files (open_read p).
Proof.
  intros w q H. unfold open_read. destruct (files w !! p); exact H.
Qed.

Lemma keeps_files_open_for_writing (p mode : string) :
  keeps_files (open_for_writing p mode).
Proof.
  intros w q H. unfold open_for_writing. simpl.
  destruct (decide (p = q)) as [->|Hne].
  - rewrite lookup_insert_eq. eauto.
  - rewrite lookup_insert_ne by exact Hne. exact H.
Qed.

Lemma keeps_files_open_write (p : string) : keeps_files (open_write p).
Proof.
  intros w q H. unfold open_write. simpl.
  destruct (decide (p = q)) as [->|Hne].
  - rewrite lookup_insert_eq. eauto.
  - rewrite lookup_insert_ne by exact Hne. exact H.
Qed.

Lemma keeps_files_file_write (p line : string) : keeps_files (file_write p line).
Proof.
  intros w q H. unfold file_write. simpl.
  destruct (decide (p = q)) as [->|Hne].
  - rewrite lookup_alter_eq. destruct H as [t ->]. simpl. eauto.
  - rewrite lookup_alter_ne by exact Hne. exact H.
Qed.

(** After [os.unlink(p)] there is no file [p], whether the call succeeds
    or raises. *)
Lemma unlink_gone (p : string) (w : world) : files (unlink p w).1 !! p = None.
Proof.
  unfold unlink. destruct (files w !! p) eqn:H; simpl.
  - apply lookup_delete_eq.
  - exact H.
Qed.

Lemma unlink_existing (p : string) (w : world) :
  is_Some (files w !! p) -> (unlink p w).2 = Ok tt.
Proof. intros [t H]. unfold unlink. rewrite H. reflexivity. Qed.

Section CompressedFacts.

Variable mkstemp_name : world -> result string.
Variable write_graphml : Graph -> string -> M unit.
Variable Read_GraphML : string -> M Graph.
Variable gzip_open_write : string -> Z -> M unit.
Variable gzip_write : string -> string -> M unit.
Variable gzip_close : string -> M unit.
Variable gzip_open_read : string -> M (list (result string)).

(** The codec and the [gzip] module create and write files, and remove
    none. *)
Hypothesis write_graphml_keeps : forall g p, keeps_files (write_graphml g p).
Hypothesis Read_GraphML_keeps : forall p, keeps_files (Read_GraphML p).
Hypothesis gzip_open_write_keeps : forall f l, keeps_files (gzip_open_write f l).
Hypothesis gzip_write_keeps : forall f line, keeps_files (gzip_write f line).
Hypothesis gzip_close_keeps : forall f, keeps_files (gzip_close f).
Hypothesis gzip_open_read_keeps : forall f, keeps_files (gzip_open_read f).

Lemma mkstemp_creates (w : world) (tmp : string) :
  mkstemp_name w = Ok tmp ->
  exists w1, mkstemp mkstemp_name w = (w1, Ok tmp) /\ is_Some (files w1 !! tmp).
Proof using Type.
  intros H. unfold mkstemp. rewrite H. eexists. split; [reflexivity|].
  simpl. rewrite lookup_insert_eq. eauto.
Qed.

(** C3: when [mkstemp] has made the temporary file [tmp], there is no
    file [tmp] after [write_graphmlz] and after [Read_GraphMLz], however the
    [try] block was left, and the call ends as the [try] block ended: with
    its value, or with the exception the codec or the gzip copy raised. *)
Theorem graphmlz_tempfile_removed :
  (forall (self : Graph) (f : string) (level : Z) (w : world) (tmp : string),
     mkstemp_name w = Ok tmp ->
     files (write_graphmlz mkstemp_name write_graphml gzip_open_write
              gzip_write gzip_close self f level w).1 !! tmp = None
     /\ (write_graphmlz_try mkstemp_name write_graphml gzip_open_write
           gzip_write gzip_close self f level w).2.1 = Some tmp
     /\ (write_graphmlz mkstemp_name write_graphml gzip_open_write
           gzip_write gzip_close self f level w).2
        = (write_graphmlz_try mkstemp_name write_graphml gzip_open_write
             gzip_write gzip_close self f level w).2.2)
  /\
  (forall (f : string) (w : world) (tmp : string),
     mkstemp_name w = Ok tmp ->
     files (Read_GraphMLz mkstemp_name Read_GraphML gzip_close
              gzip_open_read f w).1 !! tmp = None
     /\ (Read_GraphMLz_try mkstemp_name Read_GraphML gzip_close
           gzip_open_read f w).2.1 = Some tmp
     /\ (Read_GraphMLz mkstemp_name Read_GraphML gzip_close
           gzip_open_read f w).2
        = (Read_GraphMLz_try mkstemp_name Read_GraphML gzip_close
             gzip_open_read f w).2.2).
Proof using All.
  split.
  - intros self f level w tmp Hmk.
    destruct (mkstemp_creates w tmp Hmk) as (w1 & Hw1 & Hex).
    unfold write_graphmlz, write_graphmlz_try. rewrite Hw1.
    match goal with |- context [?body w1] =>
      assert (Hk : keeps_files body); [|specialize (Hk w1 tmp Hex);
                                        destruct (body w1) as [w2 r]] end.
    { repeat first
        [ apply keeps_files_bind; [|intros ?]
        | apply keeps_files_for_each; intros ?
        | apply keeps_files_open_read
        | apply keeps_files_tell
        | apply write_graphml_keeps
        | apply gzip_open_write_keeps
        | apply gzip_write_keeps
        | apply gzip_close_keeps ]. }
    simpl in Hk |- *.
    pose proof (unlink_gone tmp w2) as Hgone.
    pose proof (unlink_existing tmp w2 Hk) as Hok.
    destruct (unlink tmp w2) as [w3 [[]|e]]; simpl in *; [|discriminate].
    auto.
  - intros f w tmp Hmk.
    destruct (mkstemp_creates w tmp Hmk) as (w1 & Hw1 & Hex).
    unfold Read_GraphMLz, Read_GraphMLz_try. rewrite Hw1.
    match goal with |- context [?body w1] =>
      assert (Hk : keeps_files body); [|specialize (Hk w1 tmp Hex);
                                        destruct (body w1) as [w2 r]] end.
    { repeat first
        [ apply keeps_files_bind; [|intros ?]
        | apply keeps_files_for_each; intros ?
        | apply keeps_files_open_write
        | apply keeps_files_open_for_writing
        | apply keeps_files_file_write
        | apply keeps_files_lift_result
        | apply keeps_files_tell
        | apply Read_GraphML_keeps
        | apply gzip_open_read_keeps
        | apply gzip_close_keeps ]. }
    simpl in Hk |- *.
    pose proof (unlink_gone tmp w2) as Hgone.
    pose proof (unlink_existing tmp w2 Hk) as Hok.
    destruct (unlink tmp w2) as [w3 [[]|e]]; simpl in *; [|discriminate].
    auto.
Qed.

End CompressedFacts.

Lemma keeps_files_raise {A} (e : exn) : keeps_files (@raise A e).
Proof. intros w p H. exact H. Qed.

Lemma graphmlz_tempfile_removed_witness :
  (files write_full_disk_run.1 !! "/tmp/tmpA1" = None
   /\ write_full_disk_run.2 = Raise (IOError "No space left on device"))
  /\
  (files read_rejected_run.1 !! "/tmp/tmpA1" = None
   /\ read_rejected_run.2 = Raise (OtherError "not well-formed")).
Proof.
  pose proof (graphmlz_tempfile_removed tmp_a1 one_line_codec rejecting_codec
                gzip_open_ok gzip_write_full gzip_close_ok gzip_two_lines
                (fun g p => keeps_files_file_write p "<graphml/>")
                (fun p => keeps_files_raise _)
                (fun f l => keeps_files_ret tt)
                (fun f line => keeps_files_raise _)
                (fun f => keeps_files_ret tt)
                (fun f => keeps_files_ret _)) as [Hw Hr].
  split.
  - destruct (Hw path_graph "g.graphmlz" 9%Z empty_world "/tmp/tmpA1" eq_refl)
      as (Hgone & _ & Hres).
    split; [exact Hgone|]. unfold write_full_disk_run. rewrite Hres.
    vm_compute. reflexivity.
  - destruct (Hr "g.graphmlz" empty_world "/tmp/tmpA1" eq_refl)
      as (Hgone & _ & Hres).
    split; [exact Hgone|]. unfold read_rejected_run. rewrite Hres.
    vm_compute. reflexivity.
Defined.

(** ** The SVG writer: parameters *)

Lemma pad_labels_loop_spec (fuel vc : nat) (labels : list pyval) :
  vc - List.length labels <= fuel ->
  pad_labels_loop fuel vc labels
  = labels ++ map (fun k => PInt (Z.of_nat k + 1))
                  (seq (List.length labels) (vc - List.length labels)).
Proof.
  revert labels. induction fuel as [|fuel IH]; intros labels Hfuel.
  - replace (vc - List.length labels) with 0 by lia. simpl.
    now rewrite app_nil_r.
  - cbn [pad_labels_loop].
    destruct (Nat.ltb_spec (List.length labels) vc) as [Hlt|Hge].
    + rewrite IH by (rewrite length_app; simpl; lia).
      rewrite length_app. simpl List.length.
      replace (vc - List.length labels) with (S (vc - (List.length labels + 1)))
        by lia.
      cbn [seq map]. rewrite <- app_assoc.
      replace (S (List.length labels)) with (List.length labels + 1) by lia.
      reflexivity.
    + replace (vc - List.length labels) with 0 by lia. simpl.
      now rewrite app_nil_r.
Qed.

Lemma pad_colors_loop_spec (fuel vc : nat) (colors : list pyval) :
  vc - List.length colors <= fuel ->
  pad_colors_loop fuel vc colors
  = colors ++ repeat (PStr "red") (vc - List.length colors).
Proof.
  revert colors. induction fuel as [|fuel IH]; intros colors Hfuel.
  - replace (vc - List.length colors) with 0 by lia. simpl.
    now rewrite app_nil_r.
  - cbn [pad_colors_loop].
    destruct (Nat.ltb_spec (List.length colors) vc) as [Hlt|Hge].
    + rewrite IH by (rewrite length_app; simpl; lia).
      rewrite length_app. simpl List.length.
      replace (vc - List.length colors) with (S (vc - (List.length colors + 1)))
        by lia.
      cbn [repeat]. rewrite <- app_assoc. reflexivity.
    + replace (vc - List.length colors) with 0 by lia. simpl.
      now rewrite app_nil_r.
Qed.

Lemma pad_labels_spec (vc : nat) (labels : list pyval) :
  pad_labels vc labels
  = labels ++ map (fun k => PInt (Z.of_nat k + 1))
                  (seq (List.length labels) (vc - List.length labels)).
Proof. apply pad_labels_loop_spec. lia. Qed.

Lemma pad_colors_spec (vc : nat) (colors : list pyval) :
  pad_colors vc colors = colors ++ repeat (PStr "red") (vc - List.length colors).
Proof. apply pad_colors_loop_spec. lia. Qed.

(** ** The SVG writer: validation comes first *)

Section WriteSvgFacts.

Variable math : MathLib.
Variable call_layout : string -> Graph -> M (list (Q * Q)).


End WriteSvgFacts.

(** ** Normalisation of the layout *)

Lemma widen_numbers_same_x (c : Q) (acc : (pynum * pynum) * (pynum * pynum))
    (row : pynum * pynum) :
  (num_value (fst (fst acc)) == c)%Q -> (num_value (fst (snd acc)) == c)%Q ->
  (num_value (fst row) == c)%Q ->
  (num_value (fst (fst (widen_numbers acc row))) == c)%Q
  /\ (num_value (fst (snd (widen_numbers acc row))) == c)%Q.
Proof.
  destruct acc as [[max0 max1] [min0 min1]]. unfold widen_numbers.
  cbn [fst snd]. intros Hmax Hmin Hrow.
  destruct (Qltb (num_value max0) (num_value (fst row))),
           (Qltb (num_value (fst row)) (num_value min0)); cbn [fst snd]; auto.
Qed.

Lemma widen_numbers_same_y (c : Q) (acc : (pynum * pynum) * (pynum * pynum))
    (row : pynum * pynum) :
  (num_value (snd (fst acc)) == c)%Q -> (num_value (snd (snd acc)) == c)%Q ->
  (num_value (snd row) == c)%Q ->
  (num_value (snd (fst (widen_numbers acc row))) == c)%Q
  /\ (num_value (snd (snd (widen_numbers acc row))) == c)%Q.
Proof.
  destruct acc as [[max0 max1] [min0 min1]]. unfold widen_numbers.
  cbn [fst snd]. intros Hmax Hmin Hrow.
  destruct (Qltb (num_value max1) (num_value (snd row))),
           (Qltb (num_value (snd row)) (num_value min1)); cbn [fst snd]; auto.
Qed.

Lemma fold_widen_same_x (c : Q) (rest : list (pynum * pynum))
    (acc : (pynum * pynum) * (pynum * pynum)) :
  (num_value (fst (fst acc)) == c)%Q -> (num_value (fst (snd acc)) == c)%Q ->
  Forall (fun row => (num_value (fst row) == c)%Q) rest ->
  (num_value (fst (fst (fold_left widen_numbers rest acc))) == c)%Q
  /\ (num_value (fst (snd (fold_left widen_numbers rest acc))) == c)%Q.
Proof.
  revert acc. induction rest as [|row rest IH]; intros acc Hmax Hmin Hall.
  - simpl. auto.
  - inversion Hall as [|? ? Hrow Hrest]; subst. simpl.
    destruct (widen_numbers_same_x c acc row Hmax Hmin Hrow) as [H1 H2].
    apply IH; assumption.
Qed.

Lemma fold_widen_same_y (c : Q) (rest : list (pynum * pynum))
    (acc : (pynum * pynum) * (pynum * pynum)) :
  (num_value (snd (fst acc)) == c)%Q -> (num_value (snd (snd acc)) == c)%Q ->
  Forall (fun row => (num_value (snd row) == c)%Q) rest ->
  (num_value (snd (fst (fold_left widen_numbers rest acc))) == c)%Q
  /\ (num_value (snd (snd (fold_left widen_numbers rest acc))) == c)%Q.
Proof.
  revert acc. induction rest as [|row rest IH]; intros acc Hmax Hmin Hall.
  - simpl. auto.
  - inversion Hall as [|? ? Hrow Hrest]; subst. simpl.
    destruct (widen_numbers_same_y c acc row Hmax Hmin Hrow) as [H1 H2].
    apply IH; assumption.
Qed.

(** The value of a difference is the difference of the values, and a
    division by a number of value zero raises, be it [0] or [0.0]. *)
Lemma num_sub_value (a b : pynum) :
  (num_value (num_sub a b) == num_value a - num_value b)%Q.
Proof.
  destruct a as [x|x], b as [y|y]; cbn [num_sub num_value]; try reflexivity.
  unfold Z.sub. rewrite inject_Z_plus, inject_Z_opp. reflexivity.
Qed.

Lemma int_div_zero (a : Z) (b : pynum) :
  (num_value b == 0)%Q -> int_div a b = Raise ZeroDivisionError.
Proof.
  destruct b as [z|x]; cbn [num_value int_div]; intros Hb.
  - assert (z = 0%Z) as ->; [|reflexivity].
    unfold Qeq in Hb. simpl in Hb. lia.
  - replace (Qeq_bool x 0) with true; [reflexivity|].
    symmetry. apply Qeq_bool_iff. exact Hb.
Qed.

Lemma int_div_raises (a : Z) (b : pynum) (e : exn) :
  int_div a b = Raise e -> e = ZeroDivisionError.
Proof.
  destruct b as [z|x]; cbn [int_div];
    [destruct (z =? 0)%Z | destruct (Qeq_bool x 0)]; congruence.
Qed.

Lemma pydiv_zero (a b : Q) : (b == 0)%Q -> pydiv a b = Raise ZeroDivisionError.
Proof.
  intros Hb. unfold pydiv.
  replace (Qeq_bool b 0) with true; [reflexivity|].
  symmetry. apply Qeq_bool_iff. exact Hb.
Qed.

Lemma pydiv_raises (a b : Q) (e : exn) :
  pydiv a b = Raise e -> e = ZeroDivisionError.
Proof. unfold pydiv. destruct (Qeq_bool b 0); congruence. Qed.

Lemma pydiv_nonzero (a b : Q) : Qeq_bool b 0 = false -> pydiv a b = Ok (a / b)%Q.
Proof. intros Hb. unfold pydiv. rewrite Hb. reflexivity. Qed.

(** [write_svg] on a layout whose points all have the same x, or all the
    same y: the division of line 657 raises, for [int]s and [float]s
    alike. *)
Lemma normalize_zero_extent (layout : list (pynum * pynum))
    (width height vertex_size : Z) (c : Q) :
  layout <> [] ->
  Forall (fun row => (num_value (fst row) == c)%Q) layout
  \/ Forall (fun row => (num_value (snd row) == c)%Q) layout ->
  normalize layout width height vertex_size = Raise ZeroDivisionError.
Proof.
  intros Hne Hsame. destruct layout as [|row0 rest]; [congruence|].
  unfold normalize, extent_numbers.
  destruct Hsame as [Hall|Hall]; inversion Hall as [|? ? H0 Hrest]; subst.
  - destruct (fold_widen_same_x c rest (row0, row0) H0 H0 Hrest) as [Hmax Hmin].
    destruct (fold_left widen_numbers rest (row0, row0)) as [maxs mins].
    cbn [fst snd] in *. rewrite int_div_zero; [reflexivity|].
    rewrite num_sub_value, Hmax, Hmin. ring.
  - destruct (fold_widen_same_y c rest (row0, row0) H0 H0 Hrest) as [Hmax Hmin].
    destruct (fold_left widen_numbers rest (row0, row0)) as [maxs mins].
    cbn [fst snd] in *.
    destruct (int_div _ (num_sub (fst maxs) (fst mins))) as [ratio0|e] eqn:Hd.
    + rewrite int_div_zero; [reflexivity|].
      rewrite num_sub_value, Hmax, Hmin. ring.
    + now rewrite (int_div_raises _ _ _ Hd).
Qed.

(** What [bind] does when the first step ends well. *)
Lemma bind_run {A B} (m : M A) (k : A -> M B) (w w1 : world) (a : A) :
  m w = (w1, Ok a) -> bind m k w = k a w1.
Proof. intros H. unfold bind. now rewrite H. Qed.

(** The coordinates a layout given as rows stands for. *)
Lemma given_layout_rows (call_layout : string -> Graph -> M (list (Q * Q)))
    (self : Graph) (rows : list (Q * Q)) (w : world) :
  given_layout call_layout self (LayoutRows rows) w = (w, Ok (floats rows)).
Proof. reflexivity. Qed.

(** A whole run of [write_svg] on such a layout, given as coordinates or
    returned by the algorithm named: the file is opened, and the division
    raises before a line is written. *)
Lemma write_svg_zero_extent (math : MathLib)
    (call_layout : string -> Graph -> M (list (Q * Q))) (self : Graph)
    (fname : string) (layout : layout_arg) (rows : list (pynum * pynum))
    (width height : option Z)
    (labels colors shapes : attr_arg) (vertex_size : Z)
    (edge_colors : attr_arg) (font_size : font_arg)
    (fs : string) (params : svg_params) (c : Q) (w w1 : world) :
  (0 < fst (effective_size width height))%Z ->
  (0 < snd (effective_size width height))%Z ->
  given_layout call_layout self layout w = (w1, Ok rows) ->
  resolve_font_size font_size = Ok fs ->
  resolve_params self labels colors shapes edge_colors = Ok params ->
  rows <> [] ->
  Forall (fun row => (num_value (fst row) == c)%Q) rows
  \/ Forall (fun row => (num_value (snd row) == c)%Q) rows ->
  write_svg math call_layout self fname layout width height labels
            colors shapes vertex_size edge_colors font_size w
  = (World (<[fname := ""]> (files w1)) (log w1 ++ [EvOpen fname "w"]),
     Raise ZeroDivisionError).
Proof.
  intros Hw Hh Hlayout Hfont Hparams Hne Hsame. unfold write_svg.
  destruct (effective_size width height) as [wd ht]. simpl fst in *. simpl snd in *.
  replace ((wd <=? 0)%Z || (ht <=? 0)%Z) with false
    by (symmetry; apply orb_false_iff; split; apply Z.leb_gt; assumption).
  rewrite (bind_run _ _ w w1 rows Hlayout).
  unfold bind at 1. rewrite Hfont. unfold lift_result at 1.
  unfold bind at 1. rewrite Hparams. unfold lift_result at 1.
  unfold bind at 1. unfold open_write at 1.
  unfold bind at 1.
  rewrite (normalize_zero_extent rows wd ht vertex_size c Hne Hsame).
  reflexivity.
Qed.

(** [__plot__] guards the two divisions of lines 1041-1042: it never
    raises a division error there, whatever the bounding box. *)
Lemma plot_normalize_guarded (bounding_box : list (Q * Q) -> Q * Q * Q * Q)
    (layout : list (Q * Q)) (bbox_width bbox_height max_vertex_size : Q)
    (margin : list Q) :
  plot_normalize bounding_box layout bbox_width bbox_height max_vertex_size margin
  <> Raise ZeroDivisionError.
Proof.
  unfold plot_normalize.
  destruct (bounding_box layout) as [[[sl st] sr] sb].
  destruct (subscript (Some margin) 0) as [m0|e0] eqn:H0;
    [|unfold subscript in H0; destruct (margin !! 0%nat); congruence].
  destruct (subscript (Some margin) 1) as [m1|e1] eqn:H1;
    [|unfold subscript in H1; destruct (margin !! 1%nat); congruence].
  destruct (subscript (Some margin) 2) as [m2|e2] eqn:H2;
    [|unfold subscript in H2; destruct (margin !! 2%nat); congruence].
  destruct (subscript (Some margin) 3) as [m3|e3] eqn:H3;
    [|unfold subscript in H3; destruct (margin !! 3%nat); congruence].
  assert (Hguard : forall d : Q,
            Qeq_bool (if Qeq_bool d 0 then 1%Q else d) 0 = false).
  { intros d. destruct (Qeq_bool d 0) eqn:Hd; [reflexivity | exact Hd]. }
  rewrite !pydiv_nonzero by apply Hguard. discriminate.
Qed.

(** C1: [write_svg] has no guard for an axis without extent. With its
    default parameters it opens the file and then raises
    [ZeroDivisionError] on two points with the same x, on two points with
    the same y, and on the layout of a graph of one vertex. *)
Theorem write_svg_zero_extent_raises :
  write_svg_defaults path_graph "g.svg" [(0, 0); (0, 1)]%Q empty_world
  = (World {["g.svg" := ""]} [EvOpen "g.svg" "w"], Raise ZeroDivisionError)
  /\ write_svg_defaults path_graph "g.svg" [(0, 0); (1, 0)]%Q empty_world
  = (World {["g.svg" := ""]} [EvOpen "g.svg" "w"], Raise ZeroDivisionError)
  /\ write_svg_defaults single_vertex "g.svg" [(3, 4)]%Q empty_world
  = (World {["g.svg" := ""]} [EvOpen "g.svg" "w"], Raise ZeroDivisionError).
Proof. repeat split; vm_compute; reflexivity. Qed.

(** ** The log of a run *)

Lemma emits_nil (w : world) : emits [] w = w.
Proof. destruct w as [fs lg]. unfold emits. simpl. now rewrite app_nil_r. Qed.

Lemma emits_app (es1 es2 : list event) (w : world) :
  emits es2 (emits es1 w) = emits (es1 ++ es2) w.
Proof. unfold emits. simpl. now rewrite app_assoc. Qed.

Lemma writes_ret {A} (a : A) : writes (ret a) [] a.
Proof. intros w. unfold ret. now rewrite emits_nil. Qed.

Lemma writes_lift_result {A} (a : A) : writes (lift_result (Ok a)) [] a.
Proof. intros w. unfold lift_result. now rewrite emits_nil. Qed.

Lemma writes_tell (e : event) : writes (tell e) [e] tt.
Proof. intros w. reflexivity. Qed.

Lemma writes_bind {A B} (m : M A) (k : A -> M B) (es1 es2 : list event)
    (a : A) (b : B) :
  writes m es1 a -> writes (k a) es2 b -> writes (bind m k) (es1 ++ es2) b.
Proof.
  intros Hm Hk w. unfold bind. rewrite Hm, Hk. now rewrite emits_app.
Qed.

Lemma writes_for_each {A} (xs : list A) (body : A -> M unit)
    (g : A -> list event) :
  (forall x, In x xs -> writes (body x) (g x) tt) ->
  writes (for_each xs body) (flat_map g xs) tt.
Proof.
  induction xs as [|x xs IH]; intros Hbody.
  - apply writes_ret.
  - cbn [for_each flat_map]. apply (writes_bind _ _ _ _ tt).
    + apply Hbody. now left.
    + apply IH. intros y Hy. apply Hbody. now right.
Qed.

Lemma writes_for_enumerate {A} (xs : list A) (body : nat -> A -> M unit)
    (g : nat -> A -> list event) (i : nat) :
  (forall j x, xs !! j = Some x -> writes (body (i + j) x) (g (i + j) x) tt) ->
  writes (for_enumerate i xs body) (flat_enumerate i xs g) tt.
Proof.
  revert i. induction xs as [|x xs IH]; intros i Hbody.
  - apply writes_ret.
  - cbn [for_enumerate flat_enumerate]. apply (writes_bind _ _ _ _ tt).
    + specialize (Hbody 0 x eq_refl). rewrite Nat.add_0_r in Hbody. exact Hbody.
    + apply IH. intros j y Hy. specialize (Hbody (S j) y Hy).
      replace (S i + j) with (i + S j) by lia. exact Hbody.
Qed.

Lemma writes_print_all (fname : string) (ls : list svg_line) :
  writes (for_each ls (print fname)) (map (EvPrint fname) ls) tt.
Proof.
  induction ls as [|l ls IH].
  - apply writes_ret.
  - cbn [for_each map]. apply (writes_bind _ _ [EvPrint fname l] _ tt).
    + apply writes_tell.
    + exact IH.
Qed.

Lemma subscript_nth {A} (l : list A) (i : nat) (d : A) :
  i < List.length l -> subscript (Some l) i = Ok (nth i l d).
Proof.
  intros Hi. unfold subscript.
  destruct (l !! i) as [v|] eqn:Hl.
  - now rewrite (nth_lookup_Some l i d v Hl).
  - apply lookup_ge_None in Hl. lia.
Qed.

Lemma split_on_two (c : ascii) (s : string) :
  PyStr.contains_char c s = true -> 2 <= List.length (PyStr.split_on c s).
Proof.
  induction s as [|d s IH]; cbn [PyStr.contains_char PyStr.split_on];
    [discriminate|].
  intros H. destruct (Ascii.eqb c d) eqn:Hcd.
  - assert (1 <= List.length (PyStr.split_on c s)).
    { destruct s; cbn [PyStr.split_on]; [simpl; lia|].
      destruct (Ascii.eqb c a); [simpl; lia|].
      destruct (PyStr.split_on c s); simpl; lia. }
    simpl. lia.
  - simpl in H. specialize (IH H).
    destruct (PyStr.split_on c s) as [|p0 ps]; simpl in *; lia.
Qed.

(** One edge: the events of [svg_edge] are the lines of
    [svg_edge_lines]. *)
Lemma svg_edge_writes (math : MathLib) (fname : string) (layout : list (Q * Q))
    (directed : bool) (vertex_size : Z) (edge_colors : list pyval)
    (eidx : nat) (vidxs : nat * nat) :
  fst vidxs < List.length layout ->
  snd vidxs < List.length layout ->
  eidx < List.length edge_colors ->
  writes (svg_edge math fname layout directed vertex_size (Some edge_colors)
                   eidx vidxs)
         (map (EvPrint fname)
              (svg_edge_lines math layout directed vertex_size edge_colors
                              eidx vidxs))
         tt.
Proof.
  intros H1 H2 Hc w.
  unfold svg_edge, svg_edge_lines, bind, lift_result, print, tell.
  rewrite (subscript_nth layout (fst vidxs) (0, 0)%Q H1).
  rewrite (subscript_nth layout (snd vidxs) (0, 0)%Q H2).
  rewrite (subscript_nth edge_colors eidx PNone Hc).
  destruct (nth (fst vidxs) layout (0, 0)%Q) as [x1 y1].
  destruct (nth (snd vidxs) layout (0, 0)%Q) as [x2 y2].
  destruct directed; unfold emits, emit; simpl; rewrite <- ?app_assoc;
    reflexivity.
Qed.

(** One vertex: the events of [svg_vertex] are the lines of
    [svg_vertex_lines]. *)
Lemma svg_vertex_writes (fname : string) (layout : list (Q * Q))
    (vertex_size : Z) (params : svg_params) (shapes : list pyval) (vidx : nat) :
  vidx < List.length layout ->
  sp_shapes params = Some shapes ->
  vidx < List.length shapes ->
  vidx < List.length (sp_colors params) ->
  vidx < List.length (sp_labels params) ->
  writes (svg_vertex fname layout vertex_size params vidx)
         (map (EvPrint fname)
              (svg_vertex_lines layout vertex_size (sp_labels params)
                                (sp_colors params) shapes vidx))
         tt.
Proof.
  intros Hp Hshapes Hs Hc Hl w.
  unfold svg_vertex, svg_vertex_lines, svg_shape_lines, bind, lift_result,
    print, tell.
  rewrite (subscript_nth layout vidx (0, 0)%Q Hp). rewrite Hshapes.
  cbn [files log emit].
  rewrite (subscript_nth shapes vidx PNone Hs).
  rewrite (subscript_nth (sp_labels params) vidx PNone Hl).
  assert (Hcol := subscript_nth (sp_colors params) vidx PNone Hc).
  destruct (nth vidx shapes PNone) as [|z|str];
    try (unfold emits, emit, ret; simpl; rewrite <- ?app_assoc; reflexivity).
  destruct z as [|[q|q|]|q];
    try (unfold emits, emit, ret; simpl; rewrite <- ?app_assoc; reflexivity).
  - destruct q;
      try (unfold emits, emit, ret; simpl; rewrite <- ?app_assoc; reflexivity).
    rewrite Hcol.
    unfold emits, emit, ret; simpl; rewrite <- ?app_assoc; reflexivity.
  - rewrite Hcol.
    destruct (PyStr.contains_char " " (py_str (nth vidx (sp_colors params) PNone)))
      eqn:Hsp.
    + pose proof (split_on_two _ _ Hsp) as Hlen.
      assert (H0 : 0 < List.length
                     (PyStr.split_on " " (py_str (nth vidx (sp_colors params) PNone))))
        by lia.
      assert (H1 : 1 < List.length
                     (PyStr.split_on " " (py_str (nth vidx (sp_colors params) PNone))))
        by lia.
      rewrite (subscript_nth _ 0 "" H0). cbn [files log emit].
      rewrite (subscript_nth _ 1 "" H1).
      unfold emits, emit, ret; simpl; rewrite <- ?app_assoc; reflexivity.
    + unfold emits, emit, ret; simpl; rewrite <- ?app_assoc; reflexivity.
Qed.

Lemma map_flat_map {A B C} (f : B -> C) (g : A -> list B) (xs : list A) :
  flat_map (fun x => map f (g x)) xs = map f (flat_map g xs).
Proof.
  induction xs as [|x xs IH]; simpl; [reflexivity|].
  now rewrite map_app, IH.
Qed.

Lemma map_flat_enumerate {A B C} (f : B -> C) (g : nat -> A -> list B)
    (i : nat) (xs : list A) :
  flat_enumerate i xs (fun j x => map f (g j x)) = map f (flat_enumerate i xs g).
Proof.
  revert i. induction xs as [|x xs IH]; intros i; simpl; [reflexivity|].
  now rewrite map_app, IH.
Qed.

Lemma pad_labels_length (vc : nat) (labels : list pyval) :
  vc <= List.length (pad_labels vc labels).
Proof. rewrite pad_labels_spec, length_app, length_map, length_seq. lia. Qed.

Lemma pad_colors_length (vc : nat) (colors : list pyval) :
  vc <= List.length (pad_colors vc colors).
Proof. rewrite pad_colors_spec, length_app, repeat_length. lia. Qed.

Lemma resolve_params_lengths (self : Graph)
    (labels colors shapes edge_colors : attr_arg) (params : svg_params) :
  resolve_params self labels colors shapes edge_colors = Ok params ->
  vcount self <= List.length (sp_labels params)
  /\ vcount self <= List.length (sp_colors params).
Proof.
  unfold resolve_params. intros H.
  destruct (resolve_labels self labels); [|discriminate].
  destruct (resolve_attr (vertex_attributes self) (vcount self) (PStr "red") colors);
    [|discriminate].
  injection H as <-. simpl.
  split; [apply pad_labels_length | apply pad_colors_length].
Qed.

Lemma normalize_length (rows : list (pynum * pynum)) (layout : list (Q * Q))
    (width height vertex_size : Z) :
  normalize rows width height vertex_size = Ok layout ->
  List.length layout = List.length rows.
Proof.
  unfold normalize. destruct rows as [|row0 rest]; [discriminate|].
  destruct (extent_numbers row0 rest) as [maxs mins].
  destruct (int_div _ (num_sub (fst maxs) (fst mins))); [|discriminate].
  destruct (int_div _ (num_sub (snd maxs) (snd mins))); [|discriminate].
  intros H. injection H as <-. simpl. now rewrite length_map.
Qed.

(** What [write_svg] writes once the layout is normalised, when every
    edge ends at a point of the layout and the lists are long enough. *)
Lemma svg_body_writes (math : MathLib) (self : Graph) (fname : string)
    (layout : list (Q * Q)) (width height vertex_size : Z) (font_size : string)
    (params : svg_params) (shapes edge_colors : list pyval) :
  sp_shapes params = Some shapes ->
  vcount self <= List.length shapes ->
  sp_edge_colors params = Some edge_colors ->
  ecount self <= List.length edge_colors ->
  vcount self <= List.length (sp_labels params) ->
  vcount self <= List.length (sp_colors params) ->
  vcount self <= List.length layout ->
  Forall (fun e => fst e < List.length layout /\ snd e < List.length layout)
         (get_edgelist self) ->
  writes (svg_body math self fname layout width height vertex_size font_size params)
         (map (EvPrint fname)
              (svg_document math self layout width height vertex_size font_size
                            (sp_labels params) (sp_colors params) shapes
                            edge_colors)
          ++ [EvClose fname])
         tt.
Proof.
  intros Hshapes Hs Hecs He Hl Hc Hp Hedges.
  unfold svg_body, svg_document, svg_header.
  fold (svg_header_lines width height font_size).
  rewrite !map_app, <- !app_assoc, Hecs.
  rewrite <- map_flat_map, <- map_flat_enumerate.
  apply (writes_bind _ _ _ _ tt); [apply writes_print_all|].
  apply (writes_bind _ _ _ _ tt).
  { apply writes_for_enumerate. intros j e Hj. simpl.
    pose proof (lookup_lt_Some _ _ _ Hj) as Hlt.
    rewrite Forall_forall in Hedges.
    destruct (Hedges e) as [H1 H2].
    { apply list_elem_of_lookup. eauto. }
    apply svg_edge_writes; [exact H1 | exact H2 |]. unfold ecount in He. lia. }
  cbn [map app].
  apply (writes_bind _ _ [_] _ tt); [apply writes_tell|].
  apply (writes_bind _ _ [_] _ tt); [apply writes_tell|].
  apply (writes_bind _ _ [_] _ tt); [apply writes_tell|].
  apply (writes_bind _ _ [_] _ tt); [apply writes_tell|].
  apply (writes_bind _ _ _ _ tt).
  { apply writes_for_each. intros i Hi. apply in_seq in Hi.
    apply svg_vertex_writes; try assumption; lia. }
  apply (writes_bind _ _ [_] _ tt); [apply writes_tell|].
  apply (writes_bind _ _ [_] _ tt); [apply writes_tell|].
  apply (writes_bind _ _ [_] _ tt); [apply writes_tell|].
  apply (writes_bind _ _ [_] _ tt); [apply writes_tell|].
  apply writes_tell.
Qed.

(** A whole run of [write_svg] that ends well, on coordinates given or
    returned by the algorithm named, which leaves the world [w1]: the file
    is opened, the lines of [svg_document] are written, and the file is
    closed. *)
Lemma write_svg_writes_document (math : MathLib)
    (call_layout : string -> Graph -> M (list (Q * Q))) (self : Graph)
    (fname : string) (given : layout_arg) (rows : list (pynum * pynum))
    (width height : option Z)
    (labels colors shapes : attr_arg) (vertex_size : Z)
    (edge_colors : attr_arg) (font_size : font_arg)
    (fs : string) (params : svg_params) (layout : list (Q * Q))
    (shp ecs : list pyval) (w w1 : world) :
  given_layout call_layout self given w = (w1, Ok rows) ->
  svg_run_ready self rows width height labels colors shapes vertex_size
                edge_colors font_size fs params layout shp ecs ->
  write_svg math call_layout self fname given width height labels
            colors shapes vertex_size edge_colors font_size w
  = (World (<[fname := ""]> (files w1))
           (log w1 ++ EvOpen fname "w"
              :: map (EvPrint fname)
                   (svg_document math self layout
                      (fst (effective_size width height))
                      (snd (effective_size width height)) vertex_size fs
                      (sp_labels params) (sp_colors params) shp ecs)
              ++ [EvClose fname]),
     Ok tt).
Proof.
  intros Hgiven [Hw Hh Hfont Hparams Hnorm Hshp Hs Hecs He Hrows Hedges].
  unfold write_svg.
  destruct (effective_size width height) as [wd ht]. simpl fst in *. simpl snd in *.
  replace ((wd <=? 0)%Z || (ht <=? 0)%Z) with false
    by (symmetry; apply orb_false_iff; split; apply Z.leb_gt; assumption).
  rewrite (bind_run _ _ w w1 rows Hgiven).
  unfold bind at 1. rewrite Hfont. unfold lift_result at 1.
  unfold bind at 1. rewrite Hparams. unfold lift_result at 1.
  unfold bind at 1. unfold open_write at 1.
  unfold bind at 1. rewrite Hnorm. unfold lift_result at 1.
  pose proof (normalize_length _ _ _ _ _ Hnorm) as Hlen.
  destruct (resolve_params_lengths _ _ _ _ _ _ Hparams) as [Hl Hc].
  rewrite (svg_body_writes math self fname layout wd ht vertex_size fs params
             shp ecs Hshp Hs Hecs He Hl Hc).
  - unfold emits. simpl. rewrite <- app_assoc. reflexivity.
  - lia.
  - apply (Forall_impl _ _ _ Hedges). intros e [H1 H2]. lia.
Qed.

(** ** Lists given for the parameters of [write_svg] *)

(** What lines 640-642 make of lists given for the parameters. *)
Lemma resolve_params_lists (self : Graph)
    (labels colors shapes edge_colors : attr_arg) (params : svg_params) :
  resolve_params self labels colors shapes edge_colors = Ok params ->
  (forall l, labels = ArgList l ->
     sp_labels params
     = l ++ map (fun k => PInt (Z.of_nat k + 1))
                (seq (List.length l) (vcount self - List.length l)))
  /\ (forall c, colors = ArgList c ->
        sp_colors params
        = c ++ repeat (PStr "red") (vcount self - List.length c))
  /\ (forall s, shapes = ArgList s -> sp_shapes params = Some s)
  /\ (forall e, edge_colors = ArgList e -> sp_edge_colors params = Some e).
Proof.
  unfold resolve_params. intros H.
  destruct (resolve_labels self labels) as [l'|] eqn:Hl; [|discriminate].
  destruct (resolve_attr (vertex_attributes self) (vcount self) (PStr "red")
                         colors) as [c'|] eqn:Hc; [|discriminate].
  injection H as <-. cbn [sp_labels sp_colors sp_shapes sp_edge_colors].
  repeat split.
  - intros l ->. injection Hl as <-. apply pad_labels_spec.
  - intros c ->. injection Hc as <-. apply pad_colors_spec.
  - intros s ->. reflexivity.
  - intros e ->. reflexivity.
Qed.

Lemma raises_first {A B} (m : M A) (k : A -> M B) (e : exn) :
  raises m e -> raises (bind m k) e.
Proof.
  intros Hm w. unfold bind. specialize (Hm w).
  destruct (m w) as [w' r]. simpl in Hm. subst r. reflexivity.
Qed.

Lemma raises_after {A B} (m : M A) (k : A -> M B) (es : list event) (a : A)
    (e : exn) :
  writes m es a -> raises (k a) e -> raises (bind m k) e.
Proof. intros Hm Hk w. unfold bind. rewrite Hm. apply Hk. Qed.

(** A loop whose body raises at [y], after turns that end well. *)
Lemma raises_for_each {A} (xs ys : list A) (y : A) (body : A -> M unit)
    (e : exn) :
  (forall x, In x xs -> exists es, writes (body x) es tt) ->
  raises (body y) e ->
  raises (for_each (xs ++ y :: ys) body) e.
Proof.
  intros Hxs Hy. induction xs as [|x xs IH]; cbn [app for_each].
  - now apply raises_first.
  - destruct (Hxs x (or_introl eq_refl)) as [es Hes].
    apply (raises_after _ _ es tt); [exact Hes|].
    apply IH. intros x' Hx'. apply Hxs. now right.
Qed.

Lemma raises_for_enumerate {A} (xs ys : list A) (y : A)
    (body : nat -> A -> M unit) (e : exn) (i : nat) :
  (forall j x, xs !! j = Some x -> exists es, writes (body (i + j) x) es tt) ->
  raises (body (i + List.length xs) y) e ->
  raises (for_enumerate i (xs ++ y :: ys) body) e.
Proof.
  revert i. induction xs as [|x xs IH]; intros i Hxs Hy;
    cbn [app for_enumerate].
  - apply raises_first. simpl in Hy. now rewrite Nat.add_0_r in Hy.
  - destruct (Hxs 0 x eq_refl) as [es Hes]. rewrite Nat.add_0_r in Hes.
    apply (raises_after _ _ es tt); [exact Hes|].
    apply IH.
    + intros j x' Hj. destruct (Hxs (S j) x' Hj) as [es' Hes'].
      exists es'. now replace (S i + j) with (i + S j) by lia.
    + simpl in Hy. now replace (S i + List.length xs)
                     with (i + S (List.length xs)) by lia.
Qed.

(** A vertex beyond the end of the shapes, and an edge beyond the end of
    the edge colours. *)
Lemma svg_vertex_raises (fname : string) (layout : list (Q * Q))
    (vertex_size : Z) (params : svg_params) (shapes : list pyval) (vidx : nat) :
  vidx < List.length layout ->
  sp_shapes params = Some shapes ->
  List.length shapes <= vidx ->
  raises (svg_vertex fname layout vertex_size params vidx) IndexError.
Proof.
  intros Hp Hshapes Hs w.
  unfold svg_vertex, bind, lift_result, print, tell.
  rewrite (subscript_nth layout vidx (0, 0)%Q Hp). rewrite Hshapes.
  unfold subscript. rewrite lookup_ge_None_2 by exact Hs. reflexivity.
Qed.

Lemma svg_edge_raises (math : MathLib) (fname : string) (layout : list (Q * Q))
    (directed : bool) (vertex_size : Z) (edge_colors : list pyval)
    (eidx : nat) (vidxs : nat * nat) :
  fst vidxs < List.length layout ->
  snd vidxs < List.length layout ->
  List.length edge_colors <= eidx ->
  raises (svg_edge math fname layout directed vertex_size (Some edge_colors)
                   eidx vidxs) IndexError.
Proof.
  intros H1 H2 Hc w.
  unfold svg_edge, bind, lift_result.
  rewrite (subscript_nth layout (fst vidxs) (0, 0)%Q H1).
  rewrite (subscript_nth layout (snd vidxs) (0, 0)%Q H2).
  destruct (nth (fst vidxs) layout (0, 0)%Q) as [x1 y1].
  destruct (nth (snd vidxs) layout (0, 0)%Q) as [x2 y2].
  unfold subscript. rewrite lookup_ge_None_2 by exact Hc.
  destruct directed; reflexivity.
Qed.

Lemma seq_split (n k : nat) :
  k < n -> seq 0 n = seq 0 k ++ k :: seq (S k) (n - S k).
Proof.
  intros Hk. replace n with (k + S (n - S k)) at 1 by lia.
  rewrite seq_app. reflexivity.
Qed.

(** The body of [write_svg] with too few shapes: the edges are written,
    and the vertices up to the first one without a shape. *)
Lemma svg_body_short_shapes (math : MathLib) (self : Graph) (fname : string)
    (layout : list (Q * Q)) (width height vertex_size : Z) (font_size : string)
    (params : svg_params) (shapes edge_colors : list pyval) :
  sp_shapes params = Some shapes ->
  List.length shapes < vcount self ->
  sp_edge_colors params = Some edge_colors ->
  ecount self <= List.length edge_colors ->
  vcount self <= List.length (sp_labels params) ->
  vcount self <= List.length (sp_colors params) ->
  vcount self <= List.length layout ->
  Forall (fun e => fst e < List.length layout /\ snd e < List.length layout)
         (get_edgelist self) ->
  raises (svg_body math self fname layout width height vertex_size font_size
                   params) IndexError.
Proof.
  intros Hshapes Hs Hecs He Hl Hc Hp Hedges.
  unfold svg_body, svg_header. rewrite Hecs.
  apply (raises_after _ _ _ tt IndexError (writes_print_all fname _)).
  eapply (raises_after _ _ _ tt).
  { apply writes_for_enumerate. intros j e Hj. simpl.
    pose proof (lookup_lt_Some _ _ _ Hj) as Hlt.
    rewrite Forall_forall in Hedges.
    destruct (Hedges e) as [H1 H2].
    { apply list_elem_of_lookup. eauto. }
    apply svg_edge_writes; [exact H1 | exact H2 |]. unfold ecount in He. lia. }
  apply (raises_after _ _ _ tt IndexError (writes_tell _)).
  apply (raises_after _ _ _ tt IndexError (writes_tell _)).
  apply (raises_after _ _ _ tt IndexError (writes_tell _)).
  apply (raises_after _ _ _ tt IndexError (writes_tell _)).
  apply raises_first.
  rewrite (seq_split (vcount self) (List.length shapes) Hs).
  apply raises_for_each.
  - intros i Hi. apply in_seq in Hi. eexists.
    apply (svg_vertex_writes fname layout vertex_size params shapes i);
      try assumption; lia.
  - apply (svg_vertex_raises fname layout vertex_size params shapes);
      [lia | assumption | lia].
Qed.

(** The same with too few edge colours: nothing is written after the
    edges that have one. *)
Lemma svg_body_short_edge_colors (math : MathLib) (self : Graph)
    (fname : string) (layout : list (Q * Q)) (width height vertex_size : Z)
    (font_size : string) (params : svg_params) (edge_colors : list pyval) :
  sp_edge_colors params = Some edge_colors ->
  List.length edge_colors < ecount self ->
  Forall (fun e => fst e < List.length layout /\ snd e < List.length layout)
         (get_edgelist self) ->
  raises (svg_body math self fname layout width height vertex_size font_size
                   params) IndexError.
Proof.
  intros Hecs He Hedges.
  unfold svg_body, svg_header. rewrite Hecs.
  apply (raises_after _ _ _ tt IndexError (writes_print_all fname _)).
  apply raises_first.
  unfold ecount in He.
  destruct (lookup_lt_is_Some_2 (get_edgelist self) (List.length edge_colors) He)
    as [e0 He0].
  rewrite <- (take_drop_middle _ _ _ He0).
  assert (Htake : List.length (take (List.length edge_colors) (get_edgelist self))
                  = List.length edge_colors)
    by (rewrite length_take; lia).
  rewrite Forall_forall in Hedges.
  apply raises_for_enumerate.
  - intros j e Hj. simpl.
    pose proof (lookup_lt_Some _ _ _ Hj) as Hlt. rewrite Htake in Hlt.
    rewrite lookup_take_lt in Hj by exact Hlt.
    destruct (Hedges e) as [H1 H2].
    { apply list_elem_of_lookup. eauto. }
    eexists. apply svg_edge_writes; [exact H1 | exact H2 | exact Hlt].
  - rewrite Htake. simpl.
    destruct (Hedges e0) as [H1 H2].
    { apply list_elem_of_lookup. eauto. }
    apply svg_edge_raises; [exact H1 | exact H2 | lia].
Qed.

(** A run of [write_svg] whose body raises. *)
Lemma write_svg_body_raises (math : MathLib)
    (call_layout : string -> Graph -> M (list (Q * Q))) (self : Graph)
    (fname : string) (given : layout_arg) (rows : list (pynum * pynum))
    (width height : option Z) (labels colors shapes : attr_arg)
    (vertex_size : Z) (edge_colors : attr_arg) (font_size : font_arg)
    (fs : string) (params : svg_params) (layout : list (Q * Q))
    (e : exn) (w w1 : world) :
  (0 < fst (effective_size width height))%Z ->
  (0 < snd (effective_size width height))%Z ->
  given_layout call_layout self given w = (w1, Ok rows) ->
  resolve_font_size font_size = Ok fs ->
  resolve_params self labels colors shapes edge_colors = Ok params ->
  normalize rows (fst (effective_size width height))
            (snd (effective_size width height)) vertex_size = Ok layout ->
  raises (svg_body math self fname layout (fst (effective_size width height))
                   (snd (effective_size width height)) vertex_size fs params)
         e ->
  (write_svg math call_layout self fname given width height labels colors
             shapes vertex_size edge_colors font_size w).2 = Raise e.
Proof.
  intros Hw Hh Hgiven Hfont Hparams Hnorm Hbody. unfold write_svg.
  destruct (effective_size width height) as [wd ht]. simpl fst in *. simpl snd in *.
  replace ((wd <=? 0)%Z || (ht <=? 0)%Z) with false
    by (symmetry; apply orb_false_iff; split; apply Z.leb_gt; assumption).
  rewrite (bind_run _ _ w w1 rows Hgiven).
  unfold bind at 1. rewrite Hfont. unfold lift_result at 1.
  unfold bind at 1. rewrite Hparams. unfold lift_result at 1.
  unfold bind at 1. unfold open_write at 1.
  unfold bind at 1. rewrite Hnorm. unfold lift_result at 1.
  apply Hbody.
Qed.

(** C10: in a run of [write_svg] that gets to the end, on coordinates
    given or returned by the algorithm named, the file is written with the
    labels and colours of [params], and when [labels] is given as a list
    these are the list followed by the ordinals [len+1 .. vc] (each one
    the length of the list so far plus one), when [colors] is given as a
    list they are the list followed by ["red"] up to [vc] entries, and a
    list of [vc] entries or more is kept as it is; [shapes] and
    [edge_colors] given as lists are used as they are, and with fewer
    shapes than vertices, or fewer edge colours than edges, nothing is
    added: the run raises [IndexError]. Every parameter not spoken of is a
    list, a name or [None]. *)
Theorem explicit_lists_padding (math : MathLib)
    (call_layout : string -> Graph -> M (list (Q * Q))) (self : Graph)
    (fname : string) (given : layout_arg) (rows : list (pynum * pynum))
    (width height : option Z) (vertex_size : Z) (font_size : font_arg)
    (fs : string) (layout : list (Q * Q)) (w w1 : world) :
  given_layout call_layout self given w = (w1, Ok rows) ->
  (0 < fst (effective_size width height))%Z ->
  (0 < snd (effective_size width height))%Z ->
  resolve_font_size font_size = Ok fs ->
  normalize rows (fst (effective_size width height))
            (snd (effective_size width height)) vertex_size = Ok layout ->
  vcount self <= List.length rows ->
  Forall (fun e => fst e < vcount self /\ snd e < vcount self)
         (get_edgelist self) ->
  (forall (labels colors shapes edge_colors : attr_arg) (params : svg_params)
          (shp ecs : list pyval),
     resolve_params self labels colors shapes edge_colors = Ok params ->
     sp_shapes params = Some shp -> vcount self <= List.length shp ->
     sp_edge_colors params = Some ecs -> ecount self <= List.length ecs ->
     write_svg math call_layout self fname given width height labels colors
               shapes vertex_size edge_colors font_size w
     = (World (<[fname := ""]> (files w1))
              (log w1 ++ EvOpen fname "w"
                 :: map (EvPrint fname)
                      (svg_document math self layout
                         (fst (effective_size width height))
                         (snd (effective_size width height)) vertex_size fs
                         (sp_labels params) (sp_colors params) shp ecs)
                 ++ [EvClose fname]),
        Ok tt)
     /\ (forall l, labels = ArgList l ->
           sp_labels params
           = l ++ map (fun k => PInt (Z.of_nat k + 1))
                      (seq (List.length l) (vcount self - List.length l))
           /\ (vcount self <= List.length l -> sp_labels params = l))
     /\ (forall c, colors = ArgList c ->
           sp_colors params
           = c ++ repeat (PStr "red") (vcount self - List.length c)
           /\ (vcount self <= List.length c -> sp_colors params = c))
     /\ (forall s, shapes = ArgList s -> shp = s)
     /\ (forall e, edge_colors = ArgList e -> ecs = e))
  /\
  (forall (labels colors edge_colors : attr_arg) (s ecs : list pyval)
          (params : svg_params),
     resolve_params self labels colors (ArgList s) edge_colors = Ok params ->
     sp_edge_colors params = Some ecs -> ecount self <= List.length ecs ->
     List.length s < vcount self ->
     (write_svg math call_layout self fname given width height labels colors
                (ArgList s) vertex_size edge_colors font_size w).2
     = Raise IndexError)
  /\
  (forall (labels colors shapes : attr_arg) (e : list pyval),
     is_raise (resolve_params self labels colors shapes (ArgList e)) = false ->
     List.length e < ecount self ->
     (write_svg math call_layout self fname given width height labels colors
                shapes vertex_size (ArgList e) font_size w).2
     = Raise IndexError).
Proof.
  intros Hgiven Hw Hh Hfont Hnorm Hrows Hedges.
  pose proof (normalize_length _ _ _ _ _ Hnorm) as Hlen.
  assert (Hedges' : Forall (fun e => fst e < List.length layout
                                     /\ snd e < List.length layout)
                           (get_edgelist self)).
  { apply (Forall_impl _ _ _ Hedges). intros e [H1 H2]. lia. }
  split; [|split].
  - intros labels colors shapes edge_colors params shp ecs
           Hparams Hshp Hs Hecs He.
    destruct (resolve_params_lists _ _ _ _ _ _ Hparams) as (Pl & Pc & Ps & Pe).
    split.
    { apply write_svg_writes_document with (rows := rows); [exact Hgiven|].
      constructor; assumption. }
    split; [|split; [|split]].
    + intros l Hl. rewrite (Pl l Hl). split; [reflexivity|].
      intros Hge. replace (vcount self - List.length l) with 0 by lia.
      simpl. apply app_nil_r.
    + intros c Hc. rewrite (Pc c Hc). split; [reflexivity|].
      intros Hge. replace (vcount self - List.length c) with 0 by lia.
      simpl. apply app_nil_r.
    + intros s Hsl. rewrite (Ps s Hsl) in Hshp. congruence.
    + intros e Hel. rewrite (Pe e Hel) in Hecs. congruence.
  - intros labels colors edge_colors s ecs params Hparams Hecs He Hs.
    destruct (resolve_params_lists _ _ _ _ _ _ Hparams) as (_ & _ & Ps & _).
    destruct (resolve_params_lengths _ _ _ _ _ _ Hparams) as [Hl Hc].
    apply (write_svg_body_raises math call_layout self fname given rows width
             height labels colors (ArgList s) vertex_size edge_colors
             font_size fs params layout IndexError w w1
             Hw Hh Hgiven Hfont Hparams Hnorm).
    apply (svg_body_short_shapes math self fname layout _ _ vertex_size fs
             params s ecs); try assumption; [now apply Ps | lia].
  - intros labels colors shapes e Hok He.
    destruct (resolve_params self labels colors shapes (ArgList e))
      as [params|] eqn:Hparams; [|discriminate].
    destruct (resolve_params_lists _ _ _ _ _ _ Hparams) as (_ & _ & _ & Pe).
    apply (write_svg_body_raises math call_layout self fname given rows width
             height labels colors shapes vertex_size (ArgList e)
             font_size fs params layout IndexError w w1
             Hw Hh Hgiven Hfont Hparams Hnorm).
    apply (svg_body_short_edge_colors math self fname layout _ _ vertex_size
             fs params e); [now apply Pe | exact He | exact Hedges'].
Qed.

(** One edge of [__plot__]. *)
Lemma plot_edge_writes (math : MathLib) (context : string)
    (layout : list (Q * Q)) (directed : bool) (vertex_sizes : list Q)
    (edge_colors : list (Q * Q * Q)) (edge_widths : list Q) (idx : nat)
    (e : nat * nat) :
  fst e < List.length layout ->
  snd e < List.length layout ->
  fst e < List.length vertex_sizes ->
  idx < List.length edge_colors ->
  idx < List.length edge_widths ->
  writes (plot_edge math context layout directed vertex_sizes edge_colors
                    edge_widths idx e)
         (map (EvCairo context)
              (plot_edge_cmds math layout directed vertex_sizes edge_colors
                              edge_widths idx e))
         tt.
Proof.
  intros H1 H2 Hsz Hc Hw w. destruct e as [src tgt]. simpl fst in *. simpl snd in *.
  unfold plot_edge, plot_edge_cmds, bind, lift_result, cairo, tell.
  simpl fst. simpl snd.
  rewrite (subscript_nth edge_colors idx (0, 0, 0)%Q Hc). cbn [files log emit].
  rewrite (subscript_nth edge_widths idx 0%Q Hw). cbn [files log emit].
  rewrite (subscript_nth layout src (0, 0)%Q H1).
  rewrite (subscript_nth layout tgt (0, 0)%Q H2).
  rewrite (subscript_nth vertex_sizes src 0%Q Hsz).
  destruct (Nat.eqb src tgt), directed;
    unfold emits, emit, ret; simpl; rewrite <- ?app_assoc; reflexivity.
Qed.

Lemma plot_vertex_writes (math : MathLib) (context : string)
    (layout : list (Q * Q)) (vertex_sizes : list Q)
    (vertex_colors : list (Q * Q * Q)) (idx : nat) :
  idx < List.length layout ->
  idx < List.length vertex_sizes ->
  idx < List.length vertex_colors ->
  writes (plot_vertex math context layout vertex_sizes vertex_colors idx)
         (map (EvCairo context)
              (plot_vertex_cmds math layout vertex_sizes vertex_colors idx))
         tt.
Proof.
  intros Hp Hs Hc w.
  unfold plot_vertex, plot_vertex_cmds, bind, lift_result, cairo, tell.
  rewrite (subscript_nth layout idx (0, 0)%Q Hp).
  rewrite (subscript_nth vertex_sizes idx 0%Q Hs). cbn [files log emit].
  rewrite (subscript_nth vertex_colors idx (0, 0, 0)%Q Hc).
  unfold emits, emit; simpl; rewrite <- ?app_assoc; reflexivity.
Qed.

Lemma plot_label_writes (math : MathLib)
    (text_extents : pyval -> result (Q * Q * Q * Q)) (context : string)
    (layout : list (Q * Q)) (vertex_sizes : list Q) (vertex_labels : list pyval)
    (vertex_dists vertex_degrees : list Q) (idx : nat) :
  idx < List.length layout ->
  idx < List.length vertex_sizes ->
  idx < List.length vertex_labels ->
  idx < List.length vertex_dists ->
  idx < List.length vertex_degrees ->
  is_raise (text_extents (nth idx vertex_labels PNone)) = false ->
  writes (plot_label math text_extents context layout vertex_sizes vertex_labels
                     vertex_dists vertex_degrees idx)
         (map (EvCairo context)
              (plot_label_cmds math text_extents layout vertex_sizes
                               vertex_labels vertex_dists vertex_degrees idx))
         tt.
Proof.
  intros Hp Hs Hl Hd Hg Hext w.
  unfold plot_label, plot_label_cmds, bind, lift_result, cairo, tell.
  rewrite (subscript_nth vertex_labels idx PNone Hl).
  destruct (text_extents (nth idx vertex_labels PNone)) as [[[[xb yb] wd] h]|e];
    [|discriminate].
  rewrite (subscript_nth layout idx (0, 0)%Q Hp).
  rewrite (subscript_nth vertex_degrees idx 0%Q Hg).
  rewrite (subscript_nth vertex_dists idx 0%Q Hd).
  rewrite (subscript_nth vertex_sizes idx 0%Q Hs). cbn [files log emit].
  unfold emits, emit; simpl; rewrite <- ?app_assoc; reflexivity.
Qed.

Lemma plot_normalize_length (bounding_box : list (Q * Q) -> Q * Q * Q * Q)
    (rows layout : list (Q * Q)) (bbox_width bbox_height max_vertex_size : Q)
    (margin : list Q) :
  plot_normalize bounding_box rows bbox_width bbox_height max_vertex_size margin
  = Ok layout ->
  List.length layout = List.length rows.
Proof.
  unfold plot_normalize.
  destruct (bounding_box rows) as [[[sl st] sr] sb].
  destruct (subscript (Some margin) 0); [|discriminate].
  destruct (subscript (Some margin) 1); [|discriminate].
  destruct (subscript (Some margin) 2); [|discriminate].
  destruct (subscript (Some margin) 3); [|discriminate].
  destruct (pydiv _ _); [|discriminate]. destruct (pydiv _ _); [|discriminate].
  intros H. injection H as <-.
  unfold Layout_translate, Layout_scale. now rewrite !length_map.
Qed.

Section PlotFacts.

Variable math : MathLib.
Variable collect_colors :
  nat -> string -> string -> plot_kwds -> gmap string (list pyval)
  -> string -> result (list (Q * Q * Q)).
Variable collect_floats :
  nat -> string -> string -> plot_kwds -> gmap string (list pyval)
  -> Q -> result (list Q).
Variable collect_values :
  nat -> string -> string -> plot_kwds -> gmap string (list pyval)
  -> pyval -> result (list pyval).
Variable graph_layout : Graph -> option string -> M (list (Q * Q)).
Variable bounding_box : list (Q * Q) -> Q * Q * Q * Q.
Variable text_extents : pyval -> result (Q * Q * Q * Q).
Variable context : string.

(** A whole run of [__plot__] that ends well, on a layout given or
    returned by [self.layout], which leaves the world [w1]: the calls of
    [plot_document] are made, in this order, and nothing is raised. *)
Lemma plot_writes_document (self : Graph) (bbox_width bbox_height : Q)
    (kwds : plot_kwds) (rows layout : list (Q * Q))
    (vertex_colors edge_colors : list (Q * Q * Q))
    (vertex_sizes edge_widths vertex_dists vertex_degrees : list Q)
    (max_vertex_size : Q) (vertex_labels : list pyval) (w w1 : world) :
  plot_layout graph_layout self kwds w = (w1, Ok rows) ->
  plot_run_ready math collect_colors collect_floats collect_values
                 bounding_box text_extents self bbox_width bbox_height kwds
                 rows layout vertex_colors edge_colors vertex_sizes edge_widths
                 vertex_dists vertex_degrees max_vertex_size vertex_labels ->
  __plot__ math collect_colors collect_floats collect_values
           graph_layout bounding_box text_extents context self
           bbox_width bbox_height kwds w
  = (emits (map (EvCairo context)
              (plot_document math text_extents self layout vertex_colors
                             vertex_sizes edge_colors edge_widths vertex_labels
                             vertex_dists vertex_degrees)) w1,
     Ok tt).
Proof using Type.
  intros Hlay [Hvc Hvs Hmax Hnorm Hec Hew Hlab Hdist Hdeg
               Lrows Lvc Lvs Llab Ldist Ldeg Lec Lew Hedges Hext].
  pose proof (plot_normalize_length _ _ _ _ _ _ _ Hnorm) as Hlen.
  unfold plot_document.
  rewrite !map_app, <- map_flat_enumerate, <- !map_flat_map.
  unfold __plot__.
  rewrite (bind_run _ _ w w vertex_colors)
    by (unfold lift_result; now rewrite Hvc).
  rewrite (bind_run _ _ w w vertex_sizes)
    by (unfold lift_result; now rewrite Hvs).
  rewrite (bind_run _ _ w w max_vertex_size)
    by (unfold lift_result; now rewrite Hmax).
  rewrite (bind_run _ _ w w1 rows Hlay).
  clear Hlay. revert w1.
  apply (writes_bind _ _ [] _ layout);
    [rewrite Hnorm; apply writes_lift_result|].
  apply (writes_bind _ _ [_] _ tt); [apply writes_tell|].
  apply (writes_bind _ _ [] _ edge_colors);
    [rewrite Hec; apply writes_lift_result|].
  apply (writes_bind _ _ [] _ edge_widths);
    [rewrite Hew; apply writes_lift_result|].
  apply (writes_bind _ _ _ _ tt).
  { apply writes_for_enumerate. intros j e Hj. simpl.
    pose proof (lookup_lt_Some _ _ _ Hj) as Hlt. unfold ecount in Lec, Lew.
    rewrite Forall_forall in Hedges.
    destruct (Hedges e) as [H1 H2]; [apply list_elem_of_lookup; eauto|].
    apply plot_edge_writes; lia. }
  apply (writes_bind _ _ [_] _ tt); [apply writes_tell|].
  apply (writes_bind _ _ _ _ tt).
  { apply writes_for_each. intros i Hi. apply in_seq in Hi.
    apply plot_vertex_writes; lia. }
  apply (writes_bind _ _ [] _ vertex_labels);
    [rewrite Hlab; apply writes_lift_result|].
  apply (writes_bind _ _ [] _ vertex_dists);
    [rewrite Hdist; apply writes_lift_result|].
  apply (writes_bind _ _ [] _ vertex_degrees);
    [rewrite Hdeg; apply writes_lift_result|].
  apply (writes_bind _ _ [_] _ tt); [apply writes_tell|].
  apply (writes_bind _ _ [_] _ tt); [apply writes_tell|].
  apply writes_for_each. intros i Hi. apply in_seq in Hi.
  apply plot_label_writes; try lia. apply Hext. lia.
Qed.

End PlotFacts.

(** ** Vertices and labels *)

(** A vertex whose shape is neither 1 nor 2 gets its group and its
    label and no shape. *)
Lemma svg_vertex_lines_no_shape (layout : list (Q * Q)) (vertex_size : Z)
    (labels colors shapes : list pyval) (vidx : nat) :
  nth vidx shapes PNone <> PInt 1 ->
  nth vidx shapes PNone <> PInt 2 ->
  svg_vertex_lines layout vertex_size labels colors shapes vidx
  = [VertexGroupOpen (fst (nth vidx layout (0, 0)%Q))
                     (snd (nth vidx layout (0, 0)%Q));
     VertexText (py_str (nth vidx labels PNone));
     VertexGroupClose].
Proof.
  intros Hne1 Hne2. unfold svg_vertex_lines, svg_shape_lines.
  destruct (nth vidx shapes PNone) as [|z|str]; try reflexivity.
  destruct z as [|[q|q|]|q]; try reflexivity; try congruence.
  destruct q; try reflexivity; congruence.
Qed.

(** C4, as the source has it: the shape codes are not validated. A run
    of [write_svg], on coordinates given or returned by the algorithm
    named, that is ready in the sense of [svg_run_ready], which asks nothing
    of the shape codes, ends without an error: it writes the file of
    [svg_document], in which a vertex whose shape is none of 0, 1 and 2 has
    its group and its label and no shape. *)
Theorem write_svg_unknown_shape_code (math : MathLib)
    (call_layout : string -> Graph -> M (list (Q * Q))) (self : Graph)
    (fname : string) (given : layout_arg) (rows : list (pynum * pynum))
    (width height : option Z)
    (labels colors shapes : attr_arg) (vertex_size : Z)
    (edge_colors : attr_arg) (font_size : font_arg)
    (fs : string) (params : svg_params) (layout : list (Q * Q))
    (shp ecs : list pyval) (w w1 : world) :
  given_layout call_layout self given w = (w1, Ok rows) ->
  svg_run_ready self rows width height labels colors shapes vertex_size
                edge_colors font_size fs params layout shp ecs ->
  write_svg math call_layout self fname given width height labels
            colors shapes vertex_size edge_colors font_size w
  = (World (<[fname := ""]> (files w1))
           (log w1 ++ EvOpen fname "w"
              :: map (EvPrint fname)
                   (svg_document math self layout
                      (fst (effective_size width height))
                      (snd (effective_size width height)) vertex_size fs
                      (sp_labels params) (sp_colors params) shp ecs)
              ++ [EvClose fname]),
     Ok tt)
  /\
  (forall vidx : nat,
     vidx < vcount self ->
     nth vidx shp PNone <> PInt 0 ->
     nth vidx shp PNone <> PInt 1 ->
     nth vidx shp PNone <> PInt 2 ->
     svg_vertex_lines layout vertex_size (sp_labels params) (sp_colors params)
                      shp vidx
     = [VertexGroupOpen (fst (nth vidx layout (0, 0)%Q))
                        (snd (nth vidx layout (0, 0)%Q));
        VertexText (py_str (nth vidx (sp_labels params) PNone));
        VertexGroupClose]).
Proof.
  intros Hgiven Hready. split.
  - now apply write_svg_writes_document with (rows := rows).
  - intros vidx _ _ Hne1 Hne2. now apply svg_vertex_lines_no_shape.
Qed.

(** C4, as stated, fails: with the shapes 7, 1 and 2 [write_svg] ends
    without an error, and the first vertex is written with its label and
    no shape. *)
Lemma write_svg_unknown_shape_cex :
  unknown_shape_run.2 = Ok tt
  /\ vertex_lines unknown_shape_run.1
     = [VertexGroupOpen (-190) (-190); VertexText "1"; VertexGroupClose;
        VertexGroupOpen 190 (-190); Circle "10" "red"; VertexText "2";
        VertexGroupClose;
        VertexGroupOpen 0 190; Rect "10" "10" "20" "20" "red"; VertexText "3";
        VertexGroupClose].
Proof. vm_compute. split; reflexivity. Qed.

Lemma lookup_repeat {A} (x : A) (n i : nat) : i < n -> repeat x n !! i = Some x.
Proof.
  revert i. induction n as [|n IH]; intros i Hi; [lia|].
  destruct i as [|i]; simpl; [reflexivity|]. apply IH. lia.
Qed.

Lemma pad_labels_full (vc : nat) (labels : list pyval) :
  vc <= List.length labels -> pad_labels vc labels = labels.
Proof.
  intros H. rewrite pad_labels_spec.
  replace (vc - List.length labels) with 0 by lia. simpl. apply app_nil_r.
Qed.

Lemma nth_repeat_lt {A} (x d : A) (n i : nat) : i < n -> nth i (repeat x n) d = x.
Proof.
  intros Hi. apply nth_lookup_Some with (d := d). now apply lookup_repeat.
Qed.

(** The labels of [write_svg] when the name is no attribute, and when
    labels are given as [None]. *)
Lemma svg_default_labels (self : Graph) (labels colors shapes edge_colors : attr_arg)
    (params : svg_params) (i : nat) :
  resolve_params self labels colors shapes edge_colors = Ok params ->
  i < vcount self ->
  (forall name, labels = ArgName name ->
     vertex_attributes self !! name = None ->
     nth i (sp_labels params) PNone = PInt (Z.of_nat i + 1))
  /\ (labels = ArgNone -> nth i (sp_labels params) PNone = PStr "").
Proof.
  intros Hres Hi. unfold resolve_params in Hres. split.
  - intros name -> Hname.
    unfold resolve_labels, get_attribute_values in Hres. rewrite Hname in Hres.
    destruct (resolve_attr (vertex_attributes self) (vcount self) (PStr "red") colors);
      [|discriminate].
    injection Hres as <-. cbn [sp_labels].
    rewrite pad_labels_full by (rewrite length_map, length_seq; lia).
    apply nth_lookup_Some with (d := PNone).
    rewrite list_lookup_fmap, lookup_seq_lt by exact Hi. reflexivity.
  - intros ->. unfold resolve_labels in Hres.
    destruct (resolve_attr (vertex_attributes self) (vcount self) (PStr "red") colors);
      [|discriminate].
    injection Hres as <-. cbn [sp_labels].
    rewrite pad_labels_full by (rewrite repeat_length; lia).
    now apply nth_repeat_lt.
Qed.

(** The labels of [__plot__] without a keyword and without a [label]
    attribute, and with the keyword given as [None]. *)
Lemma plot_default_labels
    (collect_values :
       nat -> string -> string -> plot_kwds -> gmap string (list pyval)
       -> pyval -> result (list pyval))
    (self : Graph) (kwds : plot_kwds) (vertex_labels : list pyval) (i : nat) :
  plot_vertex_labels collect_values self kwds = Ok vertex_labels ->
  i < vcount self ->
  (kw_vertex_label kwds = None ->
   vertex_attributes self !! "label" = None ->
   nth i vertex_labels PNone = PStr (pretty i))
  /\ (kw_vertex_label kwds = Some ArgNone -> nth i vertex_labels PNone = PStr "").
Proof.
  intros Hlab Hi. unfold plot_vertex_labels in Hlab. split.
  - intros Hkw Hattr. rewrite Hkw, Hattr in Hlab. injection Hlab as <-.
    apply nth_lookup_Some with (d := PNone).
    rewrite list_lookup_fmap, lookup_seq_lt by exact Hi. reflexivity.
  - intros Hkw. rewrite Hkw in Hlab. injection Hlab as <-.
    now apply nth_repeat_lt.
Qed.

(** C5, as the source has it. A run of [write_svg] that ends well, on
    coordinates given or returned by the algorithm named, writes the file
    of [svg_document], where the text of vertex [i] is the [str] of
    entry [i] of the labels; this entry is the number [i+1] when [labels]
    names no attribute of the vertices, and the empty string when [labels]
    is [None]. A run of [__plot__] that ends well, with or without a
    [layout] keyword, makes the calls of [plot_document], where the text
    shown for vertex [i] is entry [i] of the
    labels; without a [vertex_label] keyword and without a [label]
    attribute this entry is the string of [i] itself, counted from 0, and
    with [vertex_label=None] it is the empty string. *)
Theorem default_vertex_labels (math : MathLib) :
  (forall (call_layout : string -> Graph -> M (list (Q * Q))) (self : Graph)
          (fname : string) (given : layout_arg) (rows : list (pynum * pynum))
          (width height : option Z)
          (labels colors shapes : attr_arg) (vertex_size : Z)
          (edge_colors : attr_arg) (font_size : font_arg)
          (fs : string) (params : svg_params) (layout : list (Q * Q))
          (shp ecs : list pyval) (w w1 : world),
     given_layout call_layout self given w = (w1, Ok rows) ->
     svg_run_ready self rows width height labels colors shapes vertex_size
                   edge_colors font_size fs params layout shp ecs ->
     write_svg math call_layout self fname given width height
               labels colors shapes vertex_size edge_colors font_size w
     = (World (<[fname := ""]> (files w1))
              (log w1 ++ EvOpen fname "w"
                 :: map (EvPrint fname)
                      (svg_document math self layout
                         (fst (effective_size width height))
                         (snd (effective_size width height)) vertex_size fs
                         (sp_labels params) (sp_colors params) shp ecs)
                 ++ [EvClose fname]),
        Ok tt)
     /\
     (forall i : nat,
        i < vcount self ->
        svg_vertex_lines layout vertex_size (sp_labels params)
                         (sp_colors params) shp i
        = VertexGroupOpen (fst (nth i layout (0, 0)%Q))
                          (snd (nth i layout (0, 0)%Q))
          :: svg_shape_lines vertex_size (nth i shp PNone)
                             (nth i (sp_colors params) PNone)
          ++ [VertexText (py_str (nth i (sp_labels params) PNone));
              VertexGroupClose]
        /\ (forall name, labels = ArgName name ->
              vertex_attributes self !! name = None ->
              nth i (sp_labels params) PNone = PInt (Z.of_nat i + 1))
        /\ (labels = ArgNone -> nth i (sp_labels params) PNone = PStr "")))
  /\
  (forall (collect_colors :
             nat -> string -> string -> plot_kwds -> gmap string (list pyval)
             -> string -> result (list (Q * Q * Q)))
          (collect_floats :
             nat -> string -> string -> plot_kwds -> gmap string (list pyval)
             -> Q -> result (list Q))
          (collect_values :
             nat -> string -> string -> plot_kwds -> gmap string (list pyval)
             -> pyval -> result (list pyval))
          (graph_layout : Graph -> option string -> M (list (Q * Q)))
          (bounding_box : list (Q * Q) -> Q * Q * Q * Q)
          (text_extents : pyval -> result (Q * Q * Q * Q))
          (context : string) (self : Graph) (bbox_width bbox_height : Q)
          (kwds : plot_kwds) (rows layout : list (Q * Q))
          (vertex_colors edge_colors : list (Q * Q * Q))
          (vertex_sizes edge_widths vertex_dists vertex_degrees : list Q)
          (max_vertex_size : Q) (vertex_labels : list pyval) (w w1 : world),
     plot_layout graph_layout self kwds w = (w1, Ok rows) ->
     plot_run_ready math collect_colors collect_floats collect_values
                    bounding_box text_extents self bbox_width bbox_height kwds
                    rows layout vertex_colors edge_colors vertex_sizes
                    edge_widths vertex_dists vertex_degrees max_vertex_size
                    vertex_labels ->
     __plot__ math collect_colors collect_floats collect_values
              graph_layout bounding_box text_extents context self
              bbox_width bbox_height kwds w
     = (emits (map (EvCairo context)
                 (plot_document math text_extents self layout vertex_colors
                                vertex_sizes edge_colors edge_widths
                                vertex_labels vertex_dists vertex_degrees)) w1,
        Ok tt)
     /\
     (forall i : nat,
        i < vcount self ->
        (exists p : Q * Q,
           plot_label_cmds math text_extents layout vertex_sizes vertex_labels
                           vertex_dists vertex_degrees i
           = [MoveTo p; ShowText (nth i vertex_labels PNone)])
        /\ (kw_vertex_label kwds = None ->
            vertex_attributes self !! "label" = None ->
            nth i vertex_labels PNone = PStr (pretty i))
        /\ (kw_vertex_label kwds = Some ArgNone ->
            nth i vertex_labels PNone = PStr ""))).
Proof.
  split.
  - intros call_layout self fname given rows width height labels colors
           shapes vertex_size edge_colors font_size fs params layout shp ecs
           w w1 Hgiven Hready.
    split; [now apply write_svg_writes_document with (rows := rows)|].
    intros i Hi. split; [reflexivity|].
    apply (svg_default_labels self labels colors shapes edge_colors params i);
      [apply Hready | exact Hi].
  - intros collect_colors collect_floats collect_values graph_layout
           bounding_box text_extents context self bbox_width bbox_height kwds
           rows layout vertex_colors edge_colors vertex_sizes edge_widths
           vertex_dists vertex_degrees max_vertex_size vertex_labels w w1
           Hlayout Hready.
    split; [now apply plot_writes_document with (rows := rows)
                        (max_vertex_size := max_vertex_size)|].
    intros i Hi. split.
    + unfold plot_label_cmds.
      pose proof (ready_extents _ _ _ _ _ _ _ _ _ _ _ _ _ _ _ _ _ _ _ _ Hready i Hi)
        as Hext.
      destruct (text_extents (nth i vertex_labels PNone)) as [[[[xb yb] wd] h]|e];
        [|discriminate].
      eexists. reflexivity.
    + apply (plot_default_labels collect_values self kwds vertex_labels i);
        [apply Hready | exact Hi].
Qed.

(** C5, as stated, fails for [__plot__]: on three vertices without
    labels it shows the texts 0, 1 and 2, while [write_svg] writes 1, 2
    and 3. *)
Lemma plot_default_labels_cex :
  undirected_plot_run.2 = Ok tt
  /\ shown_texts undirected_plot_run.1 = [PStr "0"; PStr "1"; PStr "2"].
Proof. vm_compute. split; reflexivity. Qed.

(** ** Edges *)

(** The calls for an edge that is no loop: the stroke runs from the
    source to the target itself. *)
Lemma plot_edge_cmds_no_loop (math : MathLib) (layout : list (Q * Q))
    (directed : bool) (vertex_sizes : list Q) (edge_colors : list (Q * Q * Q))
    (edge_widths : list Q) (idx src tgt : nat) :
  src <> tgt ->
  plot_edge_cmds math layout directed vertex_sizes edge_colors edge_widths idx
                 (src, tgt)
  = [SetSourceRgb (nth idx edge_colors (0, 0, 0)%Q);
     SetLineWidth (nth idx edge_widths 0%Q);
     MoveTo (nth src layout (0, 0)%Q);
     LineTo (nth tgt layout (0, 0)%Q);
     Stroke]
    ++ (if directed then
          [MoveTo (nth tgt layout (0, 0)%Q);
           LineTo (arrow_corner1 math (nth src layout (0, 0)%Q)
                                 (nth tgt layout (0, 0)%Q));
           LineTo (arrow_corner2 math (nth src layout (0, 0)%Q)
                                 (nth tgt layout (0, 0)%Q));
           LineTo (nth tgt layout (0, 0)%Q);
           Fill]
        else []).
Proof.
  intros Hne. unfold plot_edge_cmds. simpl fst. simpl snd.
  replace (Nat.eqb src tgt) with false
    by (symmetry; apply Nat.eqb_neq; exact Hne).
  destruct directed; reflexivity.
Qed.

(** C6, as the source has it, for an edge that is no loop. A run of
    [write_svg] that ends well, on coordinates given or returned by the
    algorithm named, writes the file of [svg_document], and in it the stroke
    of the edge ends at the target moved back by the vertex size along the
    direction [atan2(dy, dx)], in a directed and in an undirected graph
    alike; in a directed graph the triangle is put at this moved end,
    turned by 180 degrees plus the direction in degrees. A run of
    [__plot__] that ends well, with or without a [layout] keyword, makes
    the calls of [plot_document], in which the edge is drawn from the
    source to the target itself, and in a directed graph a triangle is
    filled with its point at the target and its two rear corners 15 units
    back, a tenth of pi to either side of the direction. *)
Theorem edge_stroke_and_arrowhead (math : MathLib) :
  (forall (call_layout : string -> Graph -> M (list (Q * Q))) (self : Graph)
          (fname : string) (given : layout_arg) (rows : list (pynum * pynum))
          (width height : option Z)
          (labels colors shapes : attr_arg) (vertex_size : Z)
          (edge_colors : attr_arg) (font_size : font_arg)
          (fs : string) (params : svg_params) (layout : list (Q * Q))
          (shp ecs : list pyval) (w w1 : world),
     given_layout call_layout self given w = (w1, Ok rows) ->
     svg_run_ready self rows width height labels colors shapes vertex_size
                   edge_colors font_size fs params layout shp ecs ->
     write_svg math call_layout self fname given width height
               labels colors shapes vertex_size edge_colors font_size w
     = (World (<[fname := ""]> (files w1))
              (log w1 ++ EvOpen fname "w"
                 :: map (EvPrint fname)
                      (svg_document math self layout
                         (fst (effective_size width height))
                         (snd (effective_size width height)) vertex_size fs
                         (sp_labels params) (sp_colors params) shp ecs)
                 ++ [EvClose fname]),
        Ok tt)
     /\
     (forall (eidx u v : nat),
        get_edgelist self !! eidx = Some (u, v) ->
        u <> v ->
        svg_edge_lines math layout (is_directed self) vertex_size ecs eidx (u, v)
        = if is_directed self then
            [ArrowGroupOpen
               (fst (shortened math vertex_size (nth u layout (0, 0)%Q)
                               (nth v layout (0, 0)%Q)))
               (snd (shortened math vertex_size (nth u layout (0, 0)%Q)
                               (nth v layout (0, 0)%Q)))
               (py_str (nth eidx ecs PNone)) (py_str (nth eidx ecs PNone));
             ArrowLine
               (fst (nth u layout (0, 0)%Q)
                - fst (shortened math vertex_size (nth u layout (0, 0)%Q)
                                 (nth v layout (0, 0)%Q)))
               (snd (nth u layout (0, 0)%Q)
                - snd (shortened math vertex_size (nth u layout (0, 0)%Q)
                                 (nth v layout (0, 0)%Q)));
             ArrowUse (180 + direction math (nth u layout (0, 0)%Q)
                                       (nth v layout (0, 0)%Q) * 180 / pi math);
             ArrowGroupClose]
          else
            [EdgeLine
               (fst (nth u layout (0, 0)%Q)) (snd (nth u layout (0, 0)%Q))
               (fst (shortened math vertex_size (nth u layout (0, 0)%Q)
                               (nth v layout (0, 0)%Q)))
               (snd (shortened math vertex_size (nth u layout (0, 0)%Q)
                               (nth v layout (0, 0)%Q)))
               (py_str (nth eidx ecs PNone))]))
  /\
  (forall (collect_colors :
             nat -> string -> string -> plot_kwds -> gmap string (list pyval)
             -> string -> result (list (Q * Q * Q)))
          (collect_floats :
             nat -> string -> string -> plot_kwds -> gmap string (list pyval)
             -> Q -> result (list Q))
          (collect_values :
             nat -> string -> string -> plot_kwds -> gmap string (list pyval)
             -> pyval -> result (list pyval))
          (graph_layout : Graph -> option string -> M (list (Q * Q)))
          (bounding_box : list (Q * Q) -> Q * Q * Q * Q)
          (text_extents : pyval -> result (Q * Q * Q * Q))
          (context : string) (self : Graph) (bbox_width bbox_height : Q)
          (kwds : plot_kwds) (rows layout : list (Q * Q))
          (vertex_colors edge_colors : list (Q * Q * Q))
          (vertex_sizes edge_widths vertex_dists vertex_degrees : list Q)
          (max_vertex_size : Q) (vertex_labels : list pyval) (w w1 : world),
     plot_layout graph_layout self kwds w = (w1, Ok rows) ->
     plot_run_ready math collect_colors collect_floats collect_values
                    bounding_box text_extents self bbox_width bbox_height kwds
                    rows layout vertex_colors edge_colors vertex_sizes
                    edge_widths vertex_dists vertex_degrees max_vertex_size
                    vertex_labels ->
     __plot__ math collect_colors collect_floats collect_values
              graph_layout bounding_box text_extents context self
              bbox_width bbox_height kwds w
     = (emits (map (EvCairo context)
                 (plot_document math text_extents self layout vertex_colors
                                vertex_sizes edge_colors edge_widths
                                vertex_labels vertex_dists vertex_degrees)) w1,
        Ok tt)
     /\
     (forall (idx src tgt : nat),
        get_edgelist self !! idx = Some (src, tgt) ->
        src <> tgt ->
        plot_edge_cmds math layout (is_directed self) vertex_sizes edge_colors
                       edge_widths idx (src, tgt)
        = [SetSourceRgb (nth idx edge_colors (0, 0, 0)%Q);
           SetLineWidth (nth idx edge_widths 0%Q);
           MoveTo (nth src layout (0, 0)%Q);
           LineTo (nth tgt layout (0, 0)%Q);
           Stroke]
          ++ (if is_directed self then
                [MoveTo (nth tgt layout (0, 0)%Q);
                 LineTo (arrow_corner1 math (nth src layout (0, 0)%Q)
                                       (nth tgt layout (0, 0)%Q));
                 LineTo (arrow_corner2 math (nth src layout (0, 0)%Q)
                                       (nth tgt layout (0, 0)%Q));
                 LineTo (nth tgt layout (0, 0)%Q);
                 Fill]
              else []))).
Proof.
  split.
  - intros. split.
    + now apply write_svg_writes_document with (rows := rows).
    + intros eidx u v _ _. unfold svg_edge_lines. simpl fst. simpl snd.
      destruct (is_directed self); reflexivity.
  - intros. split.
    + now apply plot_writes_document with (rows := rows)
                                          (max_vertex_size := max_vertex_size).
    + intros idx src tgt _ Hne. now apply plot_edge_cmds_no_loop.
Qed.

(** C6, as stated, fails. On the three-vertex graph with the edge from
    vertex 0 to vertex 1 along the x axis, [write_svg] puts vertex 1 at
    (190, -190); in the undirected graph the stroke ends at (180, -190),
    moved back by the vertex size 10; in the directed graph the triangle is
    put at this moved end (180, -190), not at the vertex. [__plot__] puts
    vertex 1 at (595, 5) and, in the directed graph, ends the stroke at
    that very point. *)
Lemma edge_shortening_cex :
  (is_directed wedge = false
   /\ undirected_svg_run.2 = Ok tt
   /\ vertex_positions undirected_svg_run.1
      = [(-190, -190); (190, -190); (0, 190)]%Q
   /\ edge_lines undirected_svg_run.1
      = [EdgeLine (-190) (-190) 180 (-190) "black"])
  /\
  (is_directed directed_wedge = true
   /\ directed_svg_run.2 = Ok tt
   /\ vertex_positions directed_svg_run.1
      = [(-190, -190); (190, -190); (0, 190)]%Q
   /\ edge_lines directed_svg_run.1
      = [ArrowGroupOpen 180 (-190) "black" "black"; ArrowLine (-370) 0;
         ArrowUse 180; ArrowGroupClose])
  /\
  (directed_plot_run.2 = Ok tt
   /\ vertex_centres directed_plot_run.1 = [(5, 5); (595, 5); (300, 595)]%Q
   /\ first_stroke (drawn directed_plot_run.1)
      = [MoveTo (5, 5)%Q; LineTo (595, 5)%Q]).
Proof. vm_compute. repeat split; reflexivity. Qed.

(** Where [write_svg] floors: on rows of [int]s with the extent 3 the
    ratio is 126, the floor of 380/3, and the first and the last vertex
    are put at -189 and -63. *)
Lemma normalize_floors_ints :
  int_svg_run.2 = Ok tt
  /\ vertex_positions int_svg_run.1
     = [(-189, -190); (189, -190); (-63, 190)]%Q.
Proof. vm_compute. split; reflexivity. Qed.

(** The runs looked at are ready. *)
Ltac svg_ready rows :=
  let layout := fresh "layout" in
  let Hn := fresh "Hn" in
  assert (Hn : exists layout, normalize rows 400 400 10 = Ok layout)
    by (vm_compute; eauto);
  destruct Hn as [layout Hn]; exists layout;
  constructor; try reflexivity; try exact Hn; try (cbv; lia);
  repeat constructor.

Lemma unknown_shape_ready :
  exists layout,
    svg_run_ready wedge (floats wedge_layout) None None (ArgName "label")
      (ArgName "color") (ArgList [PInt 7; PInt 1; PInt 2]) 10 (ArgName "color")
      (FontNumber 16) "16px"
      {| sp_labels := [PInt 1; PInt 2; PInt 3];
         sp_colors := [PStr "red"; PStr "red"; PStr "red"];
         sp_shapes := Some [PInt 7; PInt 1; PInt 2];
         sp_edge_colors := Some [PStr "black"] |}
      layout [PInt 7; PInt 1; PInt 2] [PStr "black"].
Proof. svg_ready (floats wedge_layout). Defined.

Lemma wedge_svg_ready :
  exists layout,
    svg_run_ready wedge (floats wedge_layout) None None (ArgName "label")
      (ArgName "color") (ArgName "shape") 10 (ArgName "color")
      (FontNumber 16) "16px"
      {| sp_labels := [PInt 1; PInt 2; PInt 3];
         sp_colors := [PStr "red"; PStr "red"; PStr "red"];
         sp_shapes := Some [PInt 1; PInt 1; PInt 1];
         sp_edge_colors := Some [PStr "black"] |}
      layout [PInt 1; PInt 1; PInt 1] [PStr "black"].
Proof. svg_ready (floats wedge_layout). Defined.

Lemma int_svg_ready :
  exists layout,
    svg_run_ready wedge int_rows None None (ArgName "label")
      (ArgName "color") (ArgName "shape") 10 (ArgName "color")
      (FontNumber 16) "16px"
      {| sp_labels := [PInt 1; PInt 2; PInt 3];
         sp_colors := [PStr "red"; PStr "red"; PStr "red"];
         sp_shapes := Some [PInt 1; PInt 1; PInt 1];
         sp_edge_colors := Some [PStr "black"] |}
      layout [PInt 1; PInt 1; PInt 1] [PStr "black"].
Proof. svg_ready int_rows. Defined.

Ltac plot_ready kwds :=
  let layout := fresh "layout" in
  let Hn := fresh "Hn" in
  assert (Hn : exists layout,
             plot_normalize Layout_bounding_box wedge_layout 600 600 10
                            (plot_margin kwds) = Ok layout)
    by (vm_compute; eauto);
  destruct Hn as [layout Hn]; exists layout;
  constructor; try reflexivity; try exact Hn; try (cbv; lia);
  try (intros i _; reflexivity); repeat constructor.

Lemma wedge_plot_ready :
  exists layout,
    plot_run_ready axis_math default_colors default_floats default_values
      Layout_bounding_box no_extents wedge 600 600 with_wedge_layout
      wedge_layout layout (repeat (1, 0, 0)%Q 3) [(0, 0, 0)%Q] (repeat 10%Q 3)
      [1%Q] (repeat 1%Q 3) (repeat (- pi axis_math / 4)%Q 3) 10
      [PStr "0"; PStr "1"; PStr "2"].
Proof. plot_ready with_wedge_layout. Defined.

Lemma directed_wedge_plot_ready :
  exists layout,
    plot_run_ready axis_math default_colors default_floats default_values
      Layout_bounding_box no_extents directed_wedge 600 600 with_wedge_layout
      wedge_layout layout (repeat (1, 0, 0)%Q 3) [(0, 0, 0)%Q] (repeat 10%Q 3)
      [1%Q] (repeat 1%Q 3) (repeat (- pi axis_math / 4)%Q 3) 10
      [PStr "0"; PStr "1"; PStr "2"].
Proof. plot_ready with_wedge_layout. Defined.

Lemma plain_plot_ready :
  exists layout,
    plot_run_ready axis_math default_colors default_floats default_values
      Layout_bounding_box no_extents wedge 600 600 no_keywords
      wedge_layout layout (repeat (1, 0, 0)%Q 3) [(0, 0, 0)%Q] (repeat 10%Q 3)
      [1%Q] (repeat 1%Q 3) (repeat (- pi axis_math / 4)%Q 3) 10
      [PStr "0"; PStr "1"; PStr "2"].
Proof. plot_ready no_keywords. Defined.

Lemma directed_plain_plot_ready :
  exists layout,
    plot_run_ready axis_math default_colors default_floats default_values
      Layout_bounding_box no_extents directed_wedge 600 600 no_keywords
      wedge_layout layout (repeat (1, 0, 0)%Q 3) [(0, 0, 0)%Q] (repeat 10%Q 3)
      [1%Q] (repeat 1%Q 3) (repeat (- pi axis_math / 4)%Q 3) 10
      [PStr "0"; PStr "1"; PStr "2"].
Proof. plot_ready no_keywords. Defined.



Lemma identify_format_two_fields_witness :
  (_identify_format (Path "m.txt") (World {["m.txt" := three_line_text]} [])
   = (World {["m.txt" := three_line_text]} [EvOpen "m.txt" "r"], Ok (Some "edges")))
  /\ (_identify_format (Path "m.txt") (World {["m.txt" := two_line_text]} [])
   = (World {["m.txt" := two_line_text]} [EvOpen "m.txt" "r"], Ok None)).
Proof.
  split.
  - pose proof (identify_format_two_fields unit failing_reader failing_writer
                  "m.txt" (World {["m.txt" := three_line_text]} [])
                  "1 2" "3 4" three_line_rest path_graph tt) as H.
    destruct H as [H _];
      [left; reflexivity | reflexivity | reflexivity
      | vm_compute; reflexivity | reflexivity | reflexivity | ].
    apply H. vm_compute. discriminate.
  - pose proof (identify_format_two_fields unit failing_reader failing_writer
                  "m.txt" (World {["m.txt" := two_line_text]} [])
                  "1 2" "3 4" "" path_graph tt) as H.
    destruct H as [_ H];
      [left; reflexivity | reflexivity | reflexivity
      | vm_compute; reflexivity | reflexivity | reflexivity | ].
    apply H. reflexivity.
Defined.

(** One label and one colour for three vertices: the run ends well and
    the texts and the fills of the vertices are as the padding makes
    them. *)
Lemma short_lists_run :
  short_labels_run.2 = Ok tt
  /\ vertex_texts short_labels_run.1 = ["a"; "2"; "3"]
  /\ circle_fills short_labels_run.1 = ["blue"; "red"; "red"].
Proof. vm_compute. repeat split; reflexivity. Qed.

Lemma explicit_lists_padding_witness :
  short_labels_run.2 = Ok tt
  /\ short_shapes_run.2 = Raise IndexError
  /\ short_edge_colors_run.2 = Raise IndexError.
Proof.
  assert (Hn : exists layout,
             normalize (floats wedge_layout) 400 400 10 = Ok layout)
    by (vm_compute; eauto).
  destruct Hn as [layout Hn].
  destruct (explicit_lists_padding axis_math no_layout wedge "g.svg"
              (LayoutRows wedge_layout) (floats wedge_layout) None None 10
              (FontNumber 16) "16px" layout empty_world empty_world)
    as (Hpad & Hshapes & Hedges);
    [reflexivity | reflexivity | reflexivity | reflexivity | exact Hn
    | cbv; lia | repeat constructor |].
  split; [|split].
  - destruct (Hpad (ArgList [PStr "a"]) (ArgList [PStr "blue"])
                (ArgName "shape") (ArgName "color")
                {| sp_labels := [PStr "a"; PInt 2; PInt 3];
                   sp_colors := [PStr "blue"; PStr "red"; PStr "red"];
                   sp_shapes := Some [PInt 1; PInt 1; PInt 1];
                   sp_edge_colors := Some [PStr "black"] |}
                [PInt 1; PInt 1; PInt 1] [PStr "black"]) as [Hrun _];
      [reflexivity | reflexivity | cbv; lia | reflexivity | cbv; lia |].
    unfold short_labels_run. rewrite Hrun. reflexivity.
  - apply (Hshapes (ArgName "label") (ArgName "color") (ArgName "color")
             [PInt 2] [PStr "black"]
             {| sp_labels := [PInt 1; PInt 2; PInt 3];
                sp_colors := [PStr "red"; PStr "red"; PStr "red"];
                sp_shapes := Some [PInt 2];
                sp_edge_colors := Some [PStr "black"] |});
      [reflexivity | reflexivity | cbv; lia | cbv; lia].
  - apply (Hedges (ArgName "label") (ArgName "color") (ArgName "shape") []);
      [reflexivity | cbv; lia].
Defined.


Lemma write_svg_unknown_shape_code_witness :
  unknown_shape_run.2 = Ok tt /\ named_svg_run.2 = Ok tt.
Proof.
  destruct unknown_shape_ready as [layout Hready]. split.
  - destruct (write_svg_unknown_shape_code axis_math no_layout wedge "g.svg"
                (LayoutRows wedge_layout) (floats wedge_layout) None None
                (ArgName "label") (ArgName "color")
                (ArgList [PInt 7; PInt 1; PInt 2]) 10 (ArgName "color")
                (FontNumber 16) _ _ _ _ _ empty_world empty_world
                eq_refl Hready) as [Hrun _].
    unfold unknown_shape_run. rewrite Hrun. reflexivity.
  - destruct (write_svg_unknown_shape_code axis_math wedge_algorithm wedge
                "g.svg" (LayoutName "circle") (floats wedge_layout) None None
                (ArgName "label") (ArgName "color")
                (ArgList [PInt 7; PInt 1; PInt 2]) 10 (ArgName "color")
                (FontNumber 16) _ _ _ _ _ empty_world empty_world
                eq_refl Hready) as [Hrun _].
    unfold named_svg_run. rewrite Hrun. reflexivity.
Defined.

Lemma default_vertex_labels_witness :
  int_svg_run.2 = Ok tt /\ plain_plot_run.2 = Ok tt.
Proof.
  destruct (default_vertex_labels axis_math) as [Hsvg Hplot]. split.
  - destruct int_svg_ready as [layout Hready].
    destruct (Hsvg no_layout wedge "g.svg" (LayoutNumbers int_rows) int_rows
                None None (ArgName "label") (ArgName "color")
                (ArgName "shape") 10%Z (ArgName "color") (FontNumber 16)
                _ _ _ _ _ empty_world empty_world eq_refl Hready)
      as [Hrun _].
    unfold int_svg_run. rewrite Hrun. reflexivity.
  - destruct plain_plot_ready as [layout Hready].
    destruct (Hplot default_colors default_floats default_values
                wedge_layout_algorithm Layout_bounding_box no_extents "context"
                wedge 600%Q 600%Q no_keywords _ _ _ _ _ _ _ _ _ _
                empty_world empty_world eq_refl Hready)
      as [Hrun _].
    unfold plain_plot_run, plot_defaults. rewrite Hrun. reflexivity.
Defined.

Lemma edge_stroke_and_arrowhead_witness :
  undirected_svg_run.2 = Ok tt /\ directed_plain_plot_run.2 = Ok tt.
Proof.
  destruct (edge_stroke_and_arrowhead axis_math) as [Hsvg Hplot]. split.
  - destruct wedge_svg_ready as [layout Hready].
    destruct (Hsvg no_layout wedge "g.svg" (LayoutRows wedge_layout)
                (floats wedge_layout) None None
                (ArgName "label") (ArgName "color") (ArgName "shape") 10%Z
                (ArgName "color") (FontNumber 16) _ _ _ _ _
                empty_world empty_world eq_refl Hready)
      as [Hrun _].
    unfold undirected_svg_run, write_svg_defaults. rewrite Hrun. reflexivity.
  - destruct directed_plain_plot_ready as [layout Hready].
    destruct (Hplot default_colors default_floats default_values
                wedge_layout_algorithm Layout_bounding_box no_extents "context"
                directed_wedge 600%Q 600%Q no_keywords
                _ _ _ _ _ _ _ _ _ _ empty_world empty_world eq_refl Hready)
      as [Hrun _].
    unfold directed_plain_plot_run, plot_defaults. rewrite Hrun. reflexivity.
Defined.

(** ** More on format identification and dispatch *)

(** [sniff] by the fields of the first three lines. *)
Lemma sniff_by_lines (text : string) :
  sniff text
  = if Nat.eqb (List.length (parts_of (PyStr.readline text).1)) 2 then
      if Nat.eqb (List.length
                    (parts_of (PyStr.readline (PyStr.readline text).2).1)) 2
      then
        if Nat.eqb (List.length
                      (parts_of (PyStr.readline
                                   (PyStr.readline (PyStr.readline text).2).2).1)) 0
        then None else Some "edges"
      else None
    else Some "adjacency".
Proof.
  unfold sniff, readline.
  destruct (PyStr.readline text) as [l1 r1]. simpl.
  destruct (Nat.eqb (List.length (parts_of l1)) 2); [|reflexivity].
  destruct (PyStr.readline r1) as [l2 r2]. simpl.
  destruct (Nat.eqb (List.length (parts_of l2)) 2); [|reflexivity].
  destruct (PyStr.readline r2) as [l3 r3]. reflexivity.
Qed.

Lemma sniff_tokens (text tok : string) :
  sniff text = Some tok -> tok = "edges" \/ tok = "adjacency".
Proof.
  rewrite sniff_by_lines. intros H.
  repeat match type of H with
         | (if ?c then _ else _) = _ => destruct c
         end; inversion H; auto.
Qed.

(** A [.txt] or [.dat] file that exists is opened and sniffed. *)
Lemma identify_format_text_file (p text : string) (w : world) :
  extension p = ".txt" \/ extension p = ".dat" ->
  files w !! p = Some text ->
  _identify_format (Path p) w = (emit (EvOpen p "r") w, Ok (sniff text)).
Proof.
  unfold extension, _identify_format. intros Hext Hfile.
  destruct (PosixPath.splitext p) as [root e]. simpl in Hext.
  unfold bind, open_read.
  destruct Hext as [-> | ->]; simpl; rewrite Hfile; reflexivity.
Qed.

Lemma not_static_extension (ext : string) :
  ~ In ext static_extensions -> existsb (String.eqb ext) static_extensions = false.
Proof.
  intros Hnot. destruct (existsb (String.eqb ext) static_extensions) eqn:H;
    [|reflexivity].
  apply existsb_exists in H as (x & Hin & Heq).
  apply String.eqb_eq in Heq. subst x. contradiction.
Qed.

Lemma mapping_entry_adjacency :
  mapping_entry (Some "adjacency")
  = Some (Some "Read_Adjacency", Some "write_adjacency").
Proof. vm_compute. reflexivity. Qed.

(** Every extension of the static table names, without its dot, a
    format with a reader; the writer is missing for [pajek] and [net]. *)
Lemma static_extension_entry (x : string) :
  In x static_extensions ->
  exists (reader : string) (writer : option string),
    mapping_entry (Some (PyStr.tail x)) = Some (Some reader, writer)
    /\ (writer = None <-> PyStr.tail x = "pajek" \/ PyStr.tail x = "net").
Proof.
  unfold static_extensions. intros Hin.
  repeat (destruct Hin as [<- | Hin];
          [eexists _, _; split; [vm_compute; reflexivity|];
           split; [intros H; first [discriminate H | (left; reflexivity)
                                   | (right; reflexivity)]
                  | intros [H|H]; first [discriminate H | reflexivity]] |]).
  destruct Hin.
Qed.

Section FormatFacts.

Variable Args : Type.
Variable invoke_reader : string -> fileref -> Args -> M Graph.
Variable invoke_writer : string -> Graph -> fileref -> Args -> M unit.

(** X1: a [.txt] or [.dat] file whose first line does not have exactly
    two fields, an empty file among them, is an adjacency matrix: [Read]
    and [write] go on with [Read_Adjacency] and [write_adjacency]. *)
Theorem identify_format_adjacency (p text : string) (w : world)
    (self : Graph) (args : Args) :
  extension p = ".txt" \/ extension p = ".dat" ->
  files w !! p = Some text ->
  List.length (parts_of (PyStr.readline text).1) <> 2%nat ->
  _identify_format (Path p) w = (emit (EvOpen p "r") w, Ok (Some "adjacency"))
  /\ Read Args invoke_reader (Path p) None args w
     = invoke_reader "Read_Adjacency" (Path p) args (emit (EvOpen p "r") w)
  /\ write Args invoke_writer self (Path p) None args w
     = invoke_writer "write_adjacency" self (Path p) args (emit (EvOpen p "r") w).
Proof using Type.
  intros Hext Hfile Hparts.
  assert (Hid : _identify_format (Path p) w
                = (emit (EvOpen p "r") w, Ok (Some "adjacency"))).
  { rewrite (identify_format_text_file p text w Hext Hfile), sniff_by_lines.
    apply Nat.eqb_neq in Hparts. rewrite Hparts. reflexivity. }
  split; [exact Hid|]. split.
  - unfold Read, bind. rewrite Hid, mapping_entry_adjacency. reflexivity.
  - unfold write, bind. rewrite Hid, mapping_entry_adjacency. reflexivity.
Qed.

(** X2: a [.txt] or [.dat] file whose first line has two fields and
    whose second line has not, a file of one line among them, is not
    identified: [Read] and [write] raise. *)
Theorem identify_format_second_line (p text : string) (w : world)
    (self : Graph) (args : Args) :
  extension p = ".txt" \/ extension p = ".dat" ->
  files w !! p = Some text ->
  List.length (parts_of (PyStr.readline text).1) = 2%nat ->
  List.length (parts_of (PyStr.readline (PyStr.readline text).2).1) <> 2%nat ->
  _identify_format (Path p) w = (emit (EvOpen p "r") w, Ok None)
  /\ Read Args invoke_reader (Path p) None args w
     = (emit (EvOpen p "r") w, Raise (IOError "unknown file format: None"))
  /\ write Args invoke_writer self (Path p) None args w
     = (emit (EvOpen p "r") w, Raise (IOError "unknown file format: None")).
Proof using Type.
  intros Hext Hfile H1 H2.
  assert (Hid : _identify_format (Path p) w = (emit (EvOpen p "r") w, Ok None)).
  { rewrite (identify_format_text_file p text w Hext Hfile), sniff_by_lines.
    rewrite H1. apply Nat.eqb_neq in H2. rewrite H2. reflexivity. }
  split; [exact Hid|]. split.
  - unfold Read, bind. rewrite Hid. reflexivity.
  - unfold write, bind. rewrite Hid. reflexivity.
Qed.

(** X3: for a [.txt] or [.dat] path with no file behind it the
    [IOError] of [open] comes out of [_identify_format], and out of [Read]
    and [write] when no format is given: no codec is called. So [write]
    cannot find the format of a [.txt] file that does not exist yet. *)
Theorem identify_format_missing_file (p : string) (w : world)
    (self : Graph) (args : Args) :
  extension p = ".txt" \/ extension p = ".dat" ->
  files w !! p = None ->
  _identify_format (Path p) w = (w, Raise (IOError "No such file or directory"))
  /\ Read Args invoke_reader (Path p) None args w
     = (w, Raise (IOError "No such file or directory"))
  /\ write Args invoke_writer self (Path p) None args w
     = (w, Raise (IOError "No such file or directory")).
Proof using Type.
  intros Hext Hfile.
  assert (Hid : _identify_format (Path p) w
                = (w, Raise (IOError "No such file or directory"))).
  { unfold extension in Hext. unfold _identify_format.
    destruct (PosixPath.splitext p) as [root e]. simpl in Hext.
    unfold bind, open_read.
    destruct Hext as [-> | ->]; simpl; rewrite Hfile; reflexivity. }
  split; [exact Hid|]. split.
  - unfold Read, bind. rewrite Hid. reflexivity.
  - unfold write, bind. rewrite Hid. reflexivity.
Qed.

(** X4: a path whose extension is neither in the static table nor
    [.txt] or [.dat] ([.svg] and [.adj] among them, and a path without
    extension) is not identified, and no file is opened; [Read] and [write]
    with no format given raise. *)
Theorem identify_format_other_extension (p : string) (w : world)
    (self : Graph) (args : Args) :
  ~ In (extension p) static_extensions ->
  extension p <> ".txt" ->
  extension p <> ".dat" ->
  _identify_format (Path p) w = (w, Ok None)
  /\ Read Args invoke_reader (Path p) None args w
     = (w, Raise (IOError "unknown file format: None"))
  /\ write Args invoke_writer self (Path p) None args w
     = (w, Raise (IOError "unknown file format: None")).
Proof using Type.
  intros Hstatic Htxt Hdat.
  assert (Hid : _identify_format (Path p) w = (w, Ok None)).
  { unfold extension in *. unfold _identify_format.
    destruct (PosixPath.splitext p) as [root e]. cbn [snd] in *.
    rewrite (not_static_extension _ Hstatic).
    apply String.eqb_neq in Htxt, Hdat. rewrite Htxt, Hdat. reflexivity. }
  split; [exact Hid|]. split.
  - unfold Read, bind. rewrite Hid. reflexivity.
  - unfold write, bind. rewrite Hid. reflexivity.
Qed.

(** X5: every format [_identify_format] finds is a key of
    [_format_mapping] that has a reader, and it has a writer unless it is
    [pajek] or [net]. So [Read] with no format given, once the format is
    found, always gets to a reader. *)
Theorem identified_format_has_reader (f : fileref) (w w' : world)
    (tok : string) (args : Args) :
  _identify_format f w = (w', Ok (Some tok)) ->
  exists (reader : string) (writer : option string),
    mapping_entry (Some tok) = Some (Some reader, writer)
    /\ (writer = None <-> tok = "pajek" \/ tok = "net")
    /\ Read Args invoke_reader f None args w = invoke_reader reader f args w'.
Proof using Type.
  intros Hid.
  assert (Hentry : exists (reader : string) (writer : option string),
             mapping_entry (Some tok) = Some (Some reader, writer)
             /\ (writer = None <-> tok = "pajek" \/ tok = "net")).
  { unfold _identify_format in Hid.
    destruct (match f with Path p0 => Some p0 | FileObj name => name end)
      as [filename|]; [|discriminate].
    destruct (PosixPath.splitext filename) as [root e]. cbv zeta in Hid.
    destruct (existsb (String.eqb (PyStr.lower e)) static_extensions) eqn:Hst.
    - apply existsb_exists in Hst as (x & Hin & Heq).
      apply String.eqb_eq in Heq. rewrite Heq in Hid.
      injection Hid as _ <-. now apply static_extension_entry.
    - destruct (String.eqb (PyStr.lower e) ".txt"
                || String.eqb (PyStr.lower e) ".dat"); [|discriminate].
      unfold bind, open_read in Hid.
      destruct (files w !! filename) as [text|]; [|discriminate].
      injection Hid as _ Htok.
      destruct (sniff_tokens _ _ Htok) as [-> | ->];
        eexists _, _; (split; [vm_compute; reflexivity|]);
        (split; [discriminate | intros [H|H]; discriminate]). }
  destruct Hentry as (reader & writer & Hentry & Hw).
  exists reader, writer. split; [exact Hentry|]. split; [exact Hw|].
  unfold Read, bind. rewrite Hid, Hentry. reflexivity.
Qed.

End FormatFacts.

Lemma identify_format_adjacency_witness :
  _identify_format (Path "m.txt") (World {["m.txt" := matrix_text]} [])
  = (World {["m.txt" := matrix_text]} [EvOpen "m.txt" "r"], Ok (Some "adjacency"))
  /\ _identify_format (Path "e.dat") (World {["e.dat" := ""]} [])
     = (World {["e.dat" := ""]} [EvOpen "e.dat" "r"], Ok (Some "adjacency")).
Proof.
  split.
  - pose proof (identify_format_adjacency unit failing_reader failing_writer
                  "m.txt" matrix_text (World {["m.txt" := matrix_text]} [])
                  path_graph tt) as H.
    destruct H as [H _];
      [left; reflexivity | vm_compute; reflexivity | vm_compute; lia | exact H].
  - pose proof (identify_format_adjacency unit failing_reader failing_writer
                  "e.dat" "" (World {["e.dat" := ""]} [])
                  path_graph tt) as H.
    destruct H as [H _];
      [right; reflexivity | vm_compute; reflexivity | vm_compute; lia | exact H].
Defined.

Lemma identify_format_second_line_witness :
  Read unit failing_reader (Path "m.txt") None tt
    (World {["m.txt" := ragged_text]} [])
  = (World {["m.txt" := ragged_text]} [EvOpen "m.txt" "r"],
     Raise (IOError "unknown file format: None")).
Proof.
  pose proof (identify_format_second_line unit failing_reader failing_writer
                "m.txt" ragged_text (World {["m.txt" := ragged_text]} [])
                path_graph tt) as H.
  destruct H as (_ & H & _);
    [left; reflexivity | vm_compute; reflexivity | vm_compute; reflexivity
    | vm_compute; lia | exact H].
Defined.

Lemma identify_format_missing_file_witness :
  write unit failing_writer path_graph (Path "new.txt") None tt empty_world
  = (empty_world, Raise (IOError "No such file or directory")).
Proof.
  pose proof (identify_format_missing_file unit failing_reader failing_writer
                "new.txt" empty_world path_graph tt) as H.
  destruct H as (_ & _ & H);
    [left; reflexivity | vm_compute; reflexivity | exact H].
Defined.

Lemma identify_format_other_extension_witness :
  write unit failing_writer path_graph (Path "picture.svg") None tt empty_world
  = (empty_world, Raise (IOError "unknown file format: None")).
Proof.
  pose proof (identify_format_other_extension unit failing_reader failing_writer
                "picture.svg" empty_world path_graph tt) as H.
  destruct H as (_ & _ & H);
    [vm_compute; intuition discriminate | vm_compute; discriminate
    | vm_compute; discriminate | exact H].
Defined.

Lemma identified_format_has_reader_witness :
  exists (reader : string) (writer : option string),
    mapping_entry (Some "adjacency") = Some (Some reader, writer)
    /\ (writer = None <-> "adjacency" = "pajek" \/ "adjacency" = "net")
    /\ Read unit failing_reader (Path "m.txt") None tt
         (World {["m.txt" := matrix_text]} [])
       = failing_reader reader (Path "m.txt") tt
           (World {["m.txt" := matrix_text]} [EvOpen "m.txt" "r"]).
Proof.
  apply (identified_format_has_reader unit failing_reader (Path "m.txt")
           (World {["m.txt" := matrix_text]} [])
           (World {["m.txt" := matrix_text]} [EvOpen "m.txt" "r"])
           "adjacency" tt).
  vm_compute. reflexivity.
Defined.

(** ** More on the gzipped GraphML methods *)

Lemma append_cons (x : ascii) (a b : string) :
  String x a +:+ b = String x (a +:+ b).
Proof. reflexivity. Qed.

Lemma append_assoc (a b c : string) : (a +:+ b) +:+ c = a +:+ (b +:+ c).
Proof.
  induction a as [|x a IH]; [reflexivity | rewrite !append_cons, IH; reflexivity].
Qed.

Lemma append_empty_r (a : string) : a +:+ "" = a.
Proof.
  induction a as [|x a IH]; [reflexivity | rewrite !append_cons, IH; reflexivity].
Qed.

Lemma text_of_app (xs ys : list string) :
  text_of (xs ++ ys) = text_of xs +:+ text_of ys.
Proof.
  induction xs as [|x xs IH]; simpl; [reflexivity|].
  now rewrite IH, append_assoc.
Qed.

Lemma string_of_rev_cons (c : ascii) (cur : list ascii) :
  string_of_list_ascii (rev (c :: cur))
  = string_of_list_ascii (rev cur) +:+ String c "".
Proof.
  simpl. generalize (rev cur). intros l.
  induction l as [|x l IH]; simpl; [reflexivity | now rewrite IH].
Qed.

(** Iterating over a file gives its text back, piece by piece. *)
Lemma lines_from_text (s : string) (cur : list ascii) :
  text_of (lines_from cur s) = string_of_list_ascii (rev cur) +:+ s.
Proof.
  revert cur. induction s as [|c s IH]; intros cur.
  - simpl. destruct cur as [|x cur]; [reflexivity|].
    cbn [text_of fold_right]. now rewrite !append_empty_r.
  - cbn [lines_from]. destruct (Ascii.eqb c PyStr.newline).
    + cbn [text_of fold_right]. fold (text_of (lines_from [] s)).
      rewrite (IH []), string_of_rev_cons, append_assoc. reflexivity.
    + rewrite (IH (c :: cur)), string_of_rev_cons, append_assoc. reflexivity.
Qed.

Lemma file_lines_text (text : string) : text_of (file_lines text) = text.
Proof. unfold file_lines. now rewrite lines_from_text. Qed.

(** The copy loop of [Read_GraphMLz] over a stream that gives [lines]. *)
Lemma copy_lines (p : string) (lines : list string) (w : world) :
  for_each (map Ok lines)
           (fun item => bind (lift_result item) (file_write p)) w
  = (World (alter (fun text => text +:+ text_of lines) p (files w))
           (log w ++ map (EvWrite p) lines), Ok tt).
Proof.
  revert w. induction lines as [|l lines IH]; intros w.
  - simpl. unfold ret. rewrite app_nil_r.
    rewrite alter_id by (intros; apply append_empty_r).
    destruct w; reflexivity.
  - cbn [map for_each]. unfold bind at 1. unfold bind at 1.
    unfold lift_result, file_write. rewrite IH. cbn [files log].
    rewrite alter_alter_eq, <- app_assoc. do 2 f_equal.
    apply alter_ext. intros x _. unfold compose. apply append_assoc.
Qed.

(** The same loop over a stream that breaks after [lines]. *)
Lemma copy_lines_broken (p : string) (lines : list string) (e : exn)
    (rest : list (result string)) (w : world) :
  for_each (map Ok lines ++ Raise e :: rest)
           (fun item => bind (lift_result item) (file_write p)) w
  = (World (alter (fun text => text +:+ text_of lines) p (files w))
           (log w ++ map (EvWrite p) lines), Raise e).
Proof.
  revert w. induction lines as [|l lines IH]; intros w.
  - simpl. unfold bind, lift_result. rewrite app_nil_r.
    rewrite alter_id by (intros; apply append_empty_r).
    destruct w; reflexivity.
  - cbn [map app for_each]. unfold bind at 1. unfold bind at 1.
    unfold lift_result, file_write. rewrite IH. cbn [files log].
    rewrite alter_alter_eq, <- app_assoc. do 2 f_equal.
    apply alter_ext. intros x _. unfold compose. apply append_assoc.
Qed.

Section CompressedFacts.

Variable mkstemp_name : world -> result string.
Variable write_graphml : Graph -> string -> M unit.
Variable Read_GraphML : string -> M Graph.
Variable gzip_open_write : string -> Z -> M unit.
Variable gzip_write : string -> string -> M unit.
Variable gzip_close : string -> M unit.
Variable gzip_open_read : string -> M (list (result string)).

(** X6: when [mkstemp] fails, [write_graphmlz] and [Read_GraphMLz] end
    with its exception in the world as it was: no codec and no gzip stream
    is used, and [finally] unlinks nothing. *)
Theorem graphmlz_mkstemp_failure (self : Graph) (f : string) (level : Z)
    (w : world) (e : exn) :
  mkstemp_name w = Raise e ->
  write_graphmlz mkstemp_name write_graphml gzip_open_write gzip_write
                 gzip_close self f level w = (w, Raise e)
  /\ Read_GraphMLz mkstemp_name Read_GraphML gzip_close gzip_open_read f w
     = (w, Raise e).
Proof using Type.
  intros Hmk.
  unfold write_graphmlz, write_graphmlz_try, Read_GraphMLz, Read_GraphMLz_try,
    mkstemp.
  rewrite Hmk. split; reflexivity.
Qed.

(** X7: when the GraphML codec raises in [write_graphmlz], the gzip
    file is never opened. The temporary file is unlinked and the exception of
    the codec comes out; if the codec has removed the temporary file itself,
    the [OSError] of [os.unlink] in [finally] comes out in its place. *)
Theorem graphmlz_write_codec_failure (self : Graph) (f tmp : string)
    (level : Z) (w w2 : world) (e : exn) :
  mkstemp_name w = Ok tmp ->
  write_graphml self tmp (mkstemp mkstemp_name w).1 = (w2, Raise e) ->
  write_graphmlz mkstemp_name write_graphml gzip_open_write gzip_write
                 gzip_close self f level w
  = match files w2 !! tmp with
    | Some _ => (World (delete tmp (files w2)) (log w2 ++ [EvUnlink tmp]), Raise e)
    | None => (w2, Raise (OSError "No such file or directory"))
    end.
Proof using Type.
  intros Hmk Hcodec.
  unfold write_graphmlz, write_graphmlz_try.
  unfold mkstemp in *. rewrite Hmk in *. cbn [fst] in Hcodec.
  unfold bind at 1. rewrite Hcodec.
  unfold unlink_tmp, unlink.
  destruct (files w2 !! tmp); reflexivity.
Qed.

(** X8: [write_graphmlz] hands the text the codec left in the temporary
    file to the gzip stream whole and in order: with a stream that records
    what it is given, the writes are the lines of the file, and put together
    they are its text. *)
Theorem graphmlz_write_copies_file (self : Graph) (f tmp text : string)
    (level : Z) (w w2 w3 : world) :
  mkstemp_name w = Ok tmp ->
  write_graphml self tmp (mkstemp mkstemp_name w).1 = (w2, Ok tt) ->
  gzip_open_write f level w2 = (w3, Ok tt) ->
  files w3 !! tmp = Some text ->
  (forall (line : string) (w' : world),
     gzip_write f line w' = (emit (EvWrite f line) w', Ok tt)) ->
  (forall w' : world, gzip_close f w' = (emit (EvClose f) w', Ok tt)) ->
  write_graphmlz mkstemp_name write_graphml gzip_open_write gzip_write
                 gzip_close self f level w
  = (World (delete tmp (files w3))
           (log w3 ++ [EvOpen tmp "r"] ++ map (EvWrite f) (file_lines text)
              ++ [EvClose tmp; EvClose f; EvUnlink tmp]), Ok tt)
  /\ text_of (file_lines text) = text.
Proof using Type.
  intros Hmk Hcodec Hopen Htext Hwrite Hclose.
  split; [|apply file_lines_text].
  unfold write_graphmlz, write_graphmlz_try.
  unfold mkstemp in *. rewrite Hmk in *. cbn [fst] in Hcodec.
  unfold bind at 1. rewrite Hcodec.
  unfold bind at 1. rewrite Hopen.
  unfold bind at 1. unfold open_read. rewrite Htext.
  assert (Hloop : forall (ls : list string) (w' : world),
             for_each ls (fun line => gzip_write f line) w'
             = (World (files w') (log w' ++ map (EvWrite f) ls), Ok tt)).
  { induction ls as [|l ls IH]; intros w'.
    - simpl. unfold ret. rewrite app_nil_r. destruct w'; reflexivity.
    - cbn [for_each map]. unfold bind. rewrite Hwrite, IH.
      unfold emit. cbn [files log]. rewrite <- app_assoc. reflexivity. }
  unfold bind at 1. rewrite Hloop.
  unfold bind at 1. unfold file_close, tell.
  rewrite Hclose. unfold emit. cbn [files log].
  unfold unlink_tmp, unlink. cbn [files log]. rewrite Htext.
  rewrite <- !app_assoc. reflexivity.
Qed.

(** X9: [Read_GraphMLz] gives [Read_GraphML] a temporary file that
    holds what the gzip stream gave, line after line, and nothing else,
    whatever was in the file before. *)
Theorem graphmlz_read_copies_stream (f tmp : string) (lines : list string)
    (w w2 : world) :
  mkstemp_name w = Ok tmp ->
  gzip_open_read f (mkstemp mkstemp_name w).1 = (w2, Ok (map Ok lines)) ->
  (forall w' : world, gzip_close f w' = (emit (EvClose f) w', Ok tt)) ->
  exists w3 : world,
    files w3 !! tmp = Some (text_of lines)
    /\ Read_GraphMLz_try mkstemp_name Read_GraphML gzip_close gzip_open_read f w
       = ((Read_GraphML tmp w3).1, (Some tmp, (Read_GraphML tmp w3).2)).
Proof using Type.
  intros Hmk Hopen Hclose.
  unfold Read_GraphMLz_try.
  unfold mkstemp in *. rewrite Hmk in *. cbn [fst] in Hopen.
  unfold bind at 1. rewrite Hopen.
  unfold bind at 1. unfold open_for_writing.
  unfold bind at 1. rewrite copy_lines. cbn [files log].
  unfold bind at 1. rewrite Hclose.
  unfold bind at 1. unfold file_close, tell.
  match goal with |- context [Read_GraphML tmp ?w3] => exists w3 end.
  split.
  - unfold emit. cbn [files].
    rewrite lookup_alter_eq, lookup_insert_eq. reflexivity.
  - destruct (Read_GraphML tmp _) as [w4 r]. reflexivity.
Qed.

(** X10: when the gzip stream breaks while [Read_GraphMLz] copies it,
    [Read_GraphML] is not called on the part that was copied and the stream
    is not closed: the temporary file is unlinked and the exception of the
    stream comes out. *)
Theorem graphmlz_read_stream_failure (f tmp : string) (lines : list string)
    (e : exn) (rest : list (result string)) (w w2 : world) :
  mkstemp_name w = Ok tmp ->
  gzip_open_read f (mkstemp mkstemp_name w).1
  = (w2, Ok (map Ok lines ++ Raise e :: rest)) ->
  Read_GraphMLz mkstemp_name Read_GraphML gzip_close gzip_open_read f w
  = (World (delete tmp (files w2))
           (log w2 ++ [EvOpen tmp "wt"] ++ map (EvWrite tmp) lines
              ++ [EvUnlink tmp]), Raise e).
Proof using Type.
  intros Hmk Hopen.
  unfold Read_GraphMLz, Read_GraphMLz_try.
  unfold mkstemp in *. rewrite Hmk in *. cbn [fst] in Hopen.
  unfold bind at 1. rewrite Hopen.
  unfold bind at 1. unfold open_for_writing.
  unfold bind at 1. rewrite copy_lines_broken. cbn [files log].
  unfold unlink_tmp, unlink. cbn [files log].
  rewrite lookup_alter_eq, lookup_insert_eq. cbn [fmap option_fmap option_map].
  rewrite alter_insert_eq, delete_insert_eq, <- !app_assoc. reflexivity.
Qed.

End CompressedFacts.

Lemma graphmlz_mkstemp_failure_witness :
  write_graphmlz no_tmp one_line_codec gzip_open_ok gzip_write_full
                 gzip_close_ok path_graph "g.graphmlz" 9 empty_world
  = (empty_world, Raise (OSError "No usable temporary file name found"))
  /\ Read_GraphMLz no_tmp rejecting_codec gzip_close_ok gzip_two_lines
                   "g.graphmlz" empty_world
     = (empty_world, Raise (OSError "No usable temporary file name found")).
Proof.
  apply (graphmlz_mkstemp_failure no_tmp one_line_codec rejecting_codec
           gzip_open_ok gzip_write_full gzip_close_ok gzip_two_lines
           path_graph "g.graphmlz" 9 empty_world).
  reflexivity.
Defined.

Lemma graphmlz_write_codec_failure_witness :
  write_graphmlz tmp_a1 failing_codec gzip_open_ok gzip_write_log
                 gzip_close_ok path_graph "g.graphmlz" 9 empty_world
  = (World ∅ [EvMkstemp "/tmp/tmpA1"; EvUnlink "/tmp/tmpA1"],
     Raise (IOError "No space left on device"))
  /\ write_graphmlz tmp_a1 removing_codec gzip_open_ok gzip_write_log
                    gzip_close_ok path_graph "g.graphmlz" 9 empty_world
     = (World ∅ [EvMkstemp "/tmp/tmpA1"; EvUnlink "/tmp/tmpA1"],
        Raise (OSError "No such file or directory")).
Proof.
  split.
  - rewrite (graphmlz_write_codec_failure tmp_a1 failing_codec gzip_open_ok
               gzip_write_log gzip_close_ok path_graph "g.graphmlz"
               "/tmp/tmpA1" 9 empty_world
               (World {["/tmp/tmpA1" := ""]} [EvMkstemp "/tmp/tmpA1"])
               (IOError "No space left on device"));
      [vm_compute; reflexivity | reflexivity | vm_compute; reflexivity].
  - rewrite (graphmlz_write_codec_failure tmp_a1 removing_codec gzip_open_ok
               gzip_write_log gzip_close_ok path_graph "g.graphmlz"
               "/tmp/tmpA1" 9 empty_world
               (World ∅ [EvMkstemp "/tmp/tmpA1"; EvUnlink "/tmp/tmpA1"])
               (IOError "No space left on device"));
      [vm_compute; reflexivity | reflexivity | vm_compute; reflexivity].
Defined.

Lemma graphmlz_write_copies_file_witness :
  write_graphmlz tmp_a1 two_line_codec gzip_open_ok gzip_write_log
                 gzip_close_log path_graph "g.graphmlz" 9
                 empty_world
  = (World (delete "/tmp/tmpA1" {["/tmp/tmpA1" := two_line_text]})
       ([EvMkstemp "/tmp/tmpA1"; EvWrite "/tmp/tmpA1" two_line_text]
        ++ [EvOpen "/tmp/tmpA1" "r"]
        ++ map (EvWrite "g.graphmlz") (file_lines two_line_text)
        ++ [EvClose "/tmp/tmpA1"; EvClose "g.graphmlz";
            EvUnlink "/tmp/tmpA1"]), Ok tt)
  /\ text_of (file_lines two_line_text) = two_line_text.
Proof.
  pose proof (graphmlz_write_copies_file tmp_a1 two_line_codec gzip_open_ok
           gzip_write_log gzip_close_log path_graph
           "g.graphmlz" "/tmp/tmpA1" two_line_text 9 empty_world
           (World {["/tmp/tmpA1" := two_line_text]}
                  [EvMkstemp "/tmp/tmpA1"; EvWrite "/tmp/tmpA1" two_line_text])
           (World {["/tmp/tmpA1" := two_line_text]}
                  [EvMkstemp "/tmp/tmpA1"; EvWrite "/tmp/tmpA1" two_line_text]))
    as H.
  cbn [files log] in H. apply H.
  - reflexivity.
  - vm_compute. reflexivity.
  - reflexivity.
  - vm_compute. reflexivity.
  - reflexivity.
  - reflexivity.
Defined.

Lemma graphmlz_read_copies_stream_witness :
  exists w3 : world,
    files w3 !! "/tmp/tmpA1" = Some (text_of ["<graphml>"; "</graphml>"])
    /\ Read_GraphMLz_try tmp_a1 rejecting_codec gzip_close_log gzip_two_lines
                         "g.graphmlz" empty_world
       = ((rejecting_codec "/tmp/tmpA1" w3).1,
          (Some "/tmp/tmpA1", (rejecting_codec "/tmp/tmpA1" w3).2)).
Proof.
  apply (graphmlz_read_copies_stream tmp_a1 rejecting_codec
           gzip_close_log gzip_two_lines "g.graphmlz"
           "/tmp/tmpA1" ["<graphml>"; "</graphml>"] empty_world
           (World {["/tmp/tmpA1" := ""]} [EvMkstemp "/tmp/tmpA1"])).
  - reflexivity.
  - reflexivity.
  - reflexivity.
Defined.

Lemma graphmlz_read_stream_failure_witness :
  Read_GraphMLz tmp_a1 rejecting_codec gzip_close_ok gzip_broken
                "g.graphmlz" empty_world
  = (World (delete "/tmp/tmpA1" {["/tmp/tmpA1" := ""]})
       ([EvMkstemp "/tmp/tmpA1"] ++ [EvOpen "/tmp/tmpA1" "wt"]
        ++ map (EvWrite "/tmp/tmpA1") [line_of "<graphml>"]
        ++ [EvUnlink "/tmp/tmpA1"]),
     Raise (IOError "CRC check failed")).
Proof.
  pose proof (graphmlz_read_stream_failure tmp_a1 rejecting_codec
                gzip_close_ok gzip_broken "g.graphmlz" "/tmp/tmpA1"
                [line_of "<graphml>"] (IOError "CRC check failed")
                [Ok (line_of "</graphml>")] empty_world
                (World {["/tmp/tmpA1" := ""]} [EvMkstemp "/tmp/tmpA1"])) as H.
  cbn [files log] in H. apply H.
  - reflexivity.
  - reflexivity.
Defined.

(** ** The normalised layout fits the drawing area *)

Lemma Qltb_true (a b : Q) : Qltb a b = true -> (a < b)%Q.
Proof.
  unfold Qltb. intros H. apply negb_true_iff in H.
  apply Qnot_le_lt. intros Hle. apply Qle_bool_iff in Hle. congruence.
Qed.

Lemma Qltb_false (a b : Q) : Qltb a b = false -> (b <= a)%Q.
Proof.
  unfold Qltb. intros H. apply negb_false_iff in H. now apply Qle_bool_iff.
Qed.

Ltac widen_cases :=
  repeat match goal with
         | |- context [Qltb ?a ?b] =>
             let H := fresh "H" in destruct (Qltb a b) eqn:H
         end;
  cbn [fst snd];
  repeat match goal with
         | H : Qltb _ _ = true |- _ => apply Qltb_true in H
         | H : Qltb _ _ = false |- _ => apply Qltb_false in H
         end.

Lemma widen_within_row (acc : (pynum * pynum) * (pynum * pynum))
    (row : pynum * pynum) :
  within (widen_numbers acc row) row.
Proof.
  destruct acc as [[max0 max1] [min0 min1]]. unfold within, widen_numbers.
  widen_cases; repeat split; lra.
Qed.

Lemma widen_within_keeps (acc : (pynum * pynum) * (pynum * pynum))
    (row p : pynum * pynum) :
  within acc p -> within (widen_numbers acc row) p.
Proof.
  destruct acc as [[max0 max1] [min0 min1]]. unfold within, widen_numbers.
  cbn [fst snd]. intros (Ha & Hb & Hc & Hd).
  widen_cases; repeat split; lra.
Qed.

Lemma fold_widen_keeps (rest : list (pynum * pynum))
    (acc : (pynum * pynum) * (pynum * pynum)) (p : pynum * pynum) :
  within acc p -> within (fold_left widen_numbers rest acc) p.
Proof.
  revert acc. induction rest as [|row rest IH]; intros acc H; [exact H|].
  simpl. apply IH. now apply widen_within_keeps.
Qed.

Lemma fold_widen_within (rest : list (pynum * pynum))
    (acc : (pynum * pynum) * (pynum * pynum)) :
  Forall (within (fold_left widen_numbers rest acc)) rest.
Proof.
  revert acc. induction rest as [|row rest IH]; intros acc; [constructor|].
  simpl. constructor; [|apply IH].
  apply fold_widen_keeps, widen_within_row.
Qed.

(** Every row of the layout lies between the extremes of lines
    646-653. *)
Lemma extent_within (row0 : pynum * pynum) (rest : list (pynum * pynum)) :
  Forall (within (extent_numbers row0 rest)) (row0 :: rest).
Proof.
  unfold extent_numbers. constructor; [|apply fold_widen_within].
  apply fold_widen_keeps. unfold within. cbn [fst snd].
  repeat split; apply Qle_refl.
Qed.

Lemma fold_widen_ints (rest : list (Z * Z))
    (acc : (pynum * pynum) * (pynum * pynum)) :
  int_extent acc -> int_extent (fold_left widen_numbers (ints rest) acc).
Proof.
  revert acc. induction rest as [|row rest IH]; intros acc Hacc; [exact Hacc|].
  cbn [ints map fold_left]. apply IH.
  destruct Hacc as (max0 & max1 & min0 & min1 & ->).
  unfold widen_numbers, int_extent. cbn [fst snd].
  repeat match goal with
         | |- context [Qltb ?a ?b] => destruct (Qltb a b)
         end; eauto.
Qed.

Lemma Forall_map_impl {A B} (P : A -> Prop) (R : B -> Prop) (f : A -> B)
    (l : list A) :
  Forall P l -> (forall x, P x -> R (f x)) -> Forall R (map f l).
Proof.
  intros Hall Himp. induction Hall as [|x l Hx _ IH]; simpl; constructor; auto.
Qed.

Lemma Qhalf (a : Q) : (a / 2 == a * (1 # 2))%Q.
Proof. reflexivity. Qed.

(** A coordinate between [lo] and [hi], centred and scaled by a ratio
    [r] that takes the extent [hi - lo] to [s] at most, ends between
    [- s / 2] and [s / 2]. *)
Lemma centred_fits (x lo hi s r : Q) :
  (lo <= x)%Q -> (x <= hi)%Q -> (0 <= r)%Q -> (r * (hi - lo) <= s)%Q ->
  (- (s / 2) <= (x - (hi + lo) / 2) * r)%Q
  /\ ((x - (hi + lo) / 2) * r <= s / 2)%Q.
Proof.
  intros Hlo Hhi Hr Hs.
  assert (Hup : ((x - (hi + lo) / 2) * r <= ((hi - lo) / 2) * r)%Q).
  { apply Qmult_le_compat_r; [rewrite !Qhalf; lra | exact Hr]. }
  assert (Hdown : ((- ((hi - lo) / 2)) * r <= (x - (hi + lo) / 2) * r)%Q).
  { apply Qmult_le_compat_r; [rewrite !Qhalf; lra | exact Hr]. }
  assert (E : (((hi - lo) / 2) * r == (r * (hi - lo)) / 2)%Q) by (field).
  assert (E' : ((- ((hi - lo) / 2)) * r == - ((r * (hi - lo)) / 2))%Q)
    by (field).
  rewrite E in Hup. rewrite E' in Hdown.
  rewrite !Qhalf in *. split; lra.
Qed.

(** The floor of line 657 on [int]s: a ratio that is not negative and
    takes the extent to the size at most. *)
Lemma floor_ratio (size lo hi : Z) :
  (0 <= size)%Z -> (lo < hi)%Z ->
  (0 <= inject_Z (size / (hi - lo)))%Q
  /\ (inject_Z (size / (hi - lo)) * (inject_Z hi - inject_Z lo)
      <= inject_Z size)%Q.
Proof.
  intros Hsize Hlt. split.
  - change 0%Q with (inject_Z 0). rewrite <- Zle_Qle.
    apply Z.div_pos; lia.
  - assert (E : (inject_Z hi - inject_Z lo == inject_Z (hi - lo))%Q).
    { unfold Z.sub. rewrite inject_Z_plus, inject_Z_opp. reflexivity. }
    rewrite E, <- inject_Z_mult, <- Zle_Qle.
    rewrite Z.mul_comm. apply Z.mul_div_le. lia.
Qed.

(** X11: a layout of [int]s that [write_svg] has normalised lies in the
    drawing area: no vertex centre is nearer than [vertex_size] to the
    border of the picture. The picture is at least two vertex sizes wide
    and high, and the numbers are small enough for the doubles of lines
    656-660 to be exact. *)
Theorem normalize_fits (rows : list (Z * Z)) (layout : list (Q * Q))
    (width height vertex_size : Z) :
  normalize (ints rows) width height vertex_size = Ok layout ->
  (0 <= vertex_size)%Z ->
  (2 * vertex_size <= width)%Z -> small width ->
  (2 * vertex_size <= height)%Z -> small height ->
  Forall (fun row => small (fst row) /\ small (snd row)) rows ->
  Forall (in_drawing_area width height vertex_size) layout.
Proof.
  unfold normalize. destruct rows as [|row0 rest]; [discriminate|].
  cbn [ints map]. fold (ints rest).
  pose proof (extent_within (NInt (fst row0), NInt (snd row0)) (ints rest))
    as Hext.
  assert (Hints : int_extent
                    (extent_numbers (NInt (fst row0), NInt (snd row0))
                                    (ints rest))).
  { apply fold_widen_ints. unfold int_extent. eauto. }
  destruct Hints as (max0 & max1 & min0 & min1 & Hacc).
  rewrite Hacc in *. cbn [fst snd num_sub int_div].
  destruct (max0 - min0 =? 0)%Z eqn:E0; [discriminate|].
  destruct (max1 - min1 =? 0)%Z eqn:E1; [discriminate|].
  intros E _ Hw _ Hh _ _. injection E as <-.
  apply Z.eqb_neq in E0, E1.
  pose proof (Forall_inv Hext) as (A0 & B0 & C0 & D0).
  cbn [fst snd num_value] in A0, B0, C0, D0.
  rewrite <- Zle_Qle in A0, B0, C0, D0.
  destruct (floor_ratio (width - 2 * vertex_size) min0 max0) as [R0 S0];
    [lia | lia |].
  destruct (floor_ratio (height - 2 * vertex_size) min1 max1) as [R1 S1];
    [lia | lia |].
  apply (Forall_map_impl
           (within ((NInt max0, NInt max1), (NInt min0, NInt min1))) _
           (fun row : pynum * pynum =>
              (((num_value (fst row)
                 - (num_value (NInt max0) + num_value (NInt min0)) / 2)
                * num_value (NInt ((width - 2 * vertex_size)
                                   / (max0 - min0))))%Q,
               ((num_value (snd row)
                 - (num_value (NInt max1) + num_value (NInt min1)) / 2)
                * num_value (NInt ((height - 2 * vertex_size)
                                   / (max1 - min1))))%Q))
           _ Hext).
  intros p (A & B & C & D). cbn [fst snd num_value] in *.
  unfold in_drawing_area. cbn [fst snd].
  destruct (centred_fits (num_value (fst p)) (inject_Z min0) (inject_Z max0)
              _ _ A B R0 S0) as [P1 P2].
  destruct (centred_fits (num_value (snd p)) (inject_Z min1) (inject_Z max1)
              _ _ C D R1 S1) as [P3 P4].
  repeat split; assumption.
Qed.

Lemma normalize_fits_witness :
  exists layout : list (Q * Q),
    normalize (ints [(0, 0); (3, 0); (1, 1)]%Z) 400 400 10 = Ok layout
    /\ Forall (in_drawing_area 400 400 10) layout.
Proof.
  assert (Hn : exists layout,
             normalize (ints [(0, 0); (3, 0); (1, 1)]%Z) 400 400 10
             = Ok layout)
    by (vm_compute; eauto).
  destruct Hn as [layout Hn]. exists layout. split; [exact Hn|].
  apply (normalize_fits [(0, 0); (3, 0); (1, 1)]%Z layout 400 400 10 Hn);
    unfold small; try lia.
  repeat constructor; simpl; lia.
Defined.

(** ** The margins of [__plot__] *)

(** X13: the loop of line 1027 on a list that is not empty ends within
    two turns, with four entries or more; on the empty list it never ends:
    however many turns are taken the list is empty, so [len(margin)<4]
    holds again. *)
Theorem extend_margin_turns (margin : list Q) (turns : nat) :
  extend_margin turns [] = []
  /\ (margin <> [] -> 2 <= turns ->
      extend_margin turns margin = extend_margin 2 margin
      /\ 4 <= List.length (extend_margin 2 margin)).
Proof.
  split.
  - induction turns as [|n IH]; [reflexivity | exact IH].
  - intros Hne Hturns.
    assert (Hstop : forall n l, 4 <= List.length l -> extend_margin n l = l).
    { intros n l Hl. destruct n as [|n]; [reflexivity|]. simpl.
      destruct (Nat.ltb_ge (List.length l) 4) as [_ H]. now rewrite H. }
    destruct turns as [|[|n]]; [lia | lia |].
    destruct margin as [|a [|b [|c [|d rest]]]]; [contradiction| | | |].
    + simpl. split; [first [reflexivity | apply Hstop; simpl; lia] | lia].
    + simpl. split; [first [reflexivity | apply Hstop; simpl; lia] | lia].
    + simpl. split; [first [reflexivity | apply Hstop; simpl; lia] | lia].
    + split; [|rewrite Hstop; simpl; lia].
      rewrite !Hstop; simpl; try lia. reflexivity.
Qed.

Lemma extend_margin_turns_witness :
  extend_margin 7 [] = []
  /\ extend_margin 7 [5; 7; 9]%Q = extend_margin 2 [5; 7; 9]%Q
  /\ 4 <= List.length (extend_margin 2 [5; 7; 9]%Q).
Proof.
  destruct (extend_margin_turns [5; 7; 9]%Q 7) as [H0 H].
  split; [exact H0|]. apply H; [discriminate | lia].
Defined.

(** X14: the margins [__plot__] works with are four, and a list given
    with fewer entries is gone through again from its start: [(a, b)] is
    [(a, b, a, b)] and [(a, b, c)] is [(a, b, c, a)]; a number is taken four
    times. *)
Theorem plot_margin_cyclic (kwds : plot_kwds) (x : Q) (xs : list Q) :
  kw_margin kwds = Some (MarginList x xs) ->
  List.length (plot_margin kwds) = 4
  /\ forall i : nat, i < 4 ->
       nth i (plot_margin kwds) 0%Q
       = nth (i mod S (List.length xs)) (x :: xs) 0%Q.
Proof.
  intros Hm. unfold plot_margin. rewrite Hm.
  destruct xs as [|a [|b [|c rest]]].
  - split; [reflexivity|]. intros i Hi.
    destruct i as [|[|[|[|i]]]]; try lia; reflexivity.
  - split; [reflexivity|]. intros i Hi.
    destruct i as [|[|[|[|i]]]]; try lia; reflexivity.
  - split; [reflexivity|]. intros i Hi.
    destruct i as [|[|[|[|i]]]]; try lia; reflexivity.
  - split; [reflexivity|]. intros i Hi.
    rewrite Nat.mod_small by (simpl; lia).
    destruct i as [|[|[|[|i]]]]; try lia; reflexivity.
Qed.

Lemma plot_margin_cyclic_witness :
  List.length (plot_margin with_three_margins) = 4
  /\ forall i : nat, i < 4 ->
       nth i (plot_margin with_three_margins) 0%Q
       = nth (i mod 3) [5; 7; 9]%Q 0%Q.
Proof.
  apply (plot_margin_cyclic with_three_margins 5 [7; 9]%Q). reflexivity.
Defined.

Section PlotEdges.

Variable math : MathLib.
Variable collect_colors :
  nat -> string -> string -> plot_kwds -> gmap string (list pyval)
  -> string -> result (list (Q * Q * Q)).
Variable collect_floats :
  nat -> string -> string -> plot_kwds -> gmap string (list pyval)
  -> Q -> result (list Q).
Variable collect_values :
  nat -> string -> string -> plot_kwds -> gmap string (list pyval)
  -> pyval -> result (list pyval).
Variable graph_layout : Graph -> option string -> M (list (Q * Q)).
Variable bounding_box : list (Q * Q) -> Q * Q * Q * Q.
Variable text_extents : pyval -> result (Q * Q * Q * Q).
Variable context : string.

(** X15: a graph without vertices cannot be plotted. When
    [collect_attributes] gives a value for every vertex, and so none here,
    [max(vertex_sizes)] raises [ValueError] before the layout is looked at
    and before anything is drawn. *)
Theorem plot_no_vertices (self : Graph) (bbox_width bbox_height : Q)
    (kwds : plot_kwds) (vertex_colors : list (Q * Q * Q))
    (vertex_sizes : list Q) (w : world) :
  vcount self = 0 ->
  collect_colors (vcount self) "vertex_color" "color" kwds
                 (vertex_attributes self) "red" = Ok vertex_colors ->
  collect_floats (vcount self) "vertex_size" "size" kwds
                 (vertex_attributes self) 10%Q = Ok vertex_sizes ->
  List.length vertex_sizes = vcount self ->
  __plot__ math collect_colors collect_floats collect_values graph_layout
           bounding_box text_extents context self bbox_width bbox_height
           kwds w
  = (w, Raise (ValueError "max() arg is an empty sequence")).
Proof using Type.
  intros Hn Hc Hs Hlen. unfold __plot__.
  unfold bind at 1. rewrite Hc. unfold lift_result at 1.
  unfold bind at 1. rewrite Hs. unfold lift_result at 1.
  rewrite Hn in Hlen. destruct vertex_sizes; [|discriminate].
  reflexivity.
Qed.

End PlotEdges.

Lemma plot_no_vertices_witness :
  plot_defaults null_graph with_wedge_layout empty_world
  = (empty_world, Raise (ValueError "max() arg is an empty sequence")).
Proof.
  apply (plot_no_vertices axis_math default_colors default_floats
           default_values wedge_layout_algorithm Layout_bounding_box
           no_extents "context" null_graph 600 600 with_wedge_layout
           [] [] empty_world); reflexivity.
Defined.

(** ** Eccentricity *)

Lemma map_result_length {A B} (f : A -> result B) (xs : list A) (ys : list B) :
  map_result f xs = Ok ys -> List.length ys = List.length xs.
Proof.
  revert ys. induction xs as [|x xs IH]; intros ys H; simpl in H.
  - injection H as <-. reflexivity.
  - destruct (f x); [|discriminate].
    destruct (map_result f xs) as [ys'|]; [|discriminate].
    injection H as <-. simpl. f_equal. now apply IH.
Qed.

Lemma map_result_lookup {A B} (f : A -> result B) (xs : list A) (ys : list B)
    (i : nat) :
  map_result f xs = Ok ys ->
  match xs !! i with
  | Some x => exists y, ys !! i = Some y /\ f x = Ok y
  | None => ys !! i = None
  end.
Proof.
  revert ys i. induction xs as [|x xs IH]; intros ys i H; simpl in H.
  - injection H as <-. reflexivity.
  - destruct (f x) as [y|] eqn:Hy; [|discriminate].
    destruct (map_result f xs) as [ys'|] eqn:Hys; [|discriminate].
    injection H as <-. destruct i as [|i]; simpl.
    + exists y. split; [reflexivity | exact Hy].
    + apply (IH ys' i eq_refl).
Qed.

Lemma map_result_ext {A B} (f g : A -> result B) (xs : list A) :
  (forall x, f x = g x) -> map_result f xs = map_result g xs.
Proof.
  intros H. induction xs as [|x xs IH]; [reflexivity|].
  simpl. now rewrite H, IH.
Qed.

(** Looking up the reciprocal is the reciprocal of what is looked up. *)
Lemma py_index_map_result {A B} (f : A -> result B) (xs : list A)
    (ys : list B) (idx : Z) :
  map_result f xs = Ok ys ->
  match py_index xs idx with
  | Raise e => Raise e
  | Ok x => f x
  end = py_index ys idx.
Proof.
  intros H. unfold py_index.
  rewrite (map_result_length f xs ys H).
  destruct (_ <? 0)%Z; [reflexivity|].
  pose proof (map_result_lookup f xs ys
                (Z.to_nat (if (idx <? 0)%Z
                           then (idx + Z.of_nat (List.length xs))%Z
                           else idx)) H) as Hl.
  destruct (xs !! _) as [x|].
  - destruct Hl as (y & -> & Hy). exact Hy.
  - rewrite Hl. reflexivity.
Qed.

Section EccentricityFacts.

Variable shortest_paths : Graph -> list (list Z).

(** X16: on a graph of two vertices or more, the eccentricities of
    given [nodes] are the entries of the list for all vertices at these
    indices, negative ones counting from the end, and an index out of range
    is an [IndexError]. *)
Theorem eccentricity_of_nodes (self : Graph) (nodes : list Z) (all : list Q) :
  2 <= vcount self ->
  eccentricity shortest_paths self None = Ok all ->
  eccentricity shortest_paths self (Some nodes)
  = map_result (py_index all) nodes.
Proof using Type.
  unfold eccentricity. intros Hn.
  destruct (Nat.eqb_neq (vcount self) 0) as [_ H0]. rewrite H0 by lia.
  destruct (Nat.eqb_neq (vcount self) 1) as [_ H1]. rewrite H1 by lia.
  destruct (map_result py_max_Z (shortest_paths self)) as [maxs|];
    [|discriminate].
  intros Hall. apply map_result_ext. intros idx.
  now apply py_index_map_result.
Qed.

(** X17: on a graph of one vertex or none, [nodes] is not looked at:
    the answer is the list for all vertices, whatever is asked for, be it
    an index out of range, the same vertex several times or no vertex. *)
Theorem eccentricity_small_graph (self : Graph) (nodes : option (list Z)) :
  vcount self <= 1 ->
  eccentricity shortest_paths self nodes = Ok (repeat 1%Q (vcount self)).
Proof using Type.
  unfold eccentricity. intros Hn.
  destruct (vcount self) as [|[|n]]; [reflexivity | reflexivity | lia].
Qed.

End EccentricityFacts.

Lemma fold_max_bounds (xs : list Z) (x : Z) :
  (x <= fold_left Z.max xs x)%Z
  /\ Forall (fun d => (d <= fold_left Z.max xs x)%Z) xs
  /\ forall n : Z, (x <= n)%Z -> Forall (fun d => (d <= n)%Z) xs ->
       (fold_left Z.max xs x <= n)%Z.
Proof.
  revert x. induction xs as [|y xs IH]; intros x; simpl.
  - repeat split; [lia | constructor | auto].
  - destruct (IH (Z.max x y)) as (H1 & H2 & H3).
    repeat split; [lia | constructor; [lia | exact H2] |].
    intros n Hx Hall. inversion Hall; subst. apply H3; [lia | assumption].
Qed.

Lemma py_max_Z_bounds (row : list Z) (n : Z) :
  (exists d, In d row /\ (1 <= d)%Z) ->
  Forall (fun d => (d <= n)%Z) row ->
  exists m, py_max_Z row = Ok m /\ (1 <= m <= n)%Z.
Proof.
  intros (d & Hin & Hd) Hall. destruct row as [|x xs]; [destruct Hin|].
  simpl. eexists. split; [reflexivity|].
  destruct (fold_max_bounds xs x) as (H1 & H2 & H3).
  inversion Hall; subst. split; [|apply H3; assumption].
  destruct Hin as [-> | Hin]; [lia|].
  rewrite Forall_forall in H2. specialize (H2 d).
  assert ((d <= fold_left Z.max xs x)%Z); [|lia].
  apply H2. now apply list_elem_of_In.
Qed.

Lemma reciprocal_bounds (m n : Z) :
  (1 <= m <= n)%Z ->
  exists q, reciprocal m = Ok q
            /\ (1 / inject_Z n <= q)%Q /\ (q <= 1)%Q.
Proof.
  intros [Hm Hn]. unfold reciprocal, pydiv.
  assert (Hm1 : (1 <= inject_Z m)%Q).
  { change 1%Q with (inject_Z 1). rewrite <- Zle_Qle. exact Hm. }
  assert (Hmn : (inject_Z m <= inject_Z n)%Q) by (rewrite <- Zle_Qle; exact Hn).
  destruct (Qeq_bool (inject_Z m) 0) eqn:H0.
  { apply Qeq_bool_iff in H0. lra. }
  eexists. split; [reflexivity|]. split.
  - apply Qle_shift_div_l; [lra|].
    assert (E : (1 / inject_Z n * inject_Z m == inject_Z m / inject_Z n)%Q).
    { field. lra. }
    rewrite E. apply Qle_shift_div_r; lra.
  - apply Qle_shift_div_r; lra.
Qed.

Section EccentricityRange.

Variable shortest_paths : Graph -> list (list Z).

(** X18: on a graph of two vertices or more, when every row of the
    distance matrix has a distance of at least 1 and none above the number
    of vertices (the value given for a pair with no path), no division
    fails and every eccentricity lies between 1 over the number of vertices
    and 1. *)
Theorem eccentricity_range (self : Graph) :
  2 <= vcount self ->
  Forall (fun row => exists d, In d row /\ (1 <= d)%Z) (shortest_paths self) ->
  Forall (Forall (fun d => (d <= Z.of_nat (vcount self))%Z))
         (shortest_paths self) ->
  exists all : list Q,
    eccentricity shortest_paths self None = Ok all
    /\ List.length all = List.length (shortest_paths self)
    /\ Forall (fun q => (1 / inject_Z (Z.of_nat (vcount self)) <= q)%Q
                        /\ (q <= 1)%Q) all.
Proof using Type.
  unfold eccentricity. intros Hn.
  destruct (Nat.eqb_neq (vcount self) 0) as [_ H0]. rewrite H0 by lia.
  destruct (Nat.eqb_neq (vcount self) 1) as [_ H1]. rewrite H1 by lia.
  generalize (Z.of_nat (vcount self)). intros n.
  induction (shortest_paths self) as [|row rows IH]; intros Hlow Hhigh.
  - exists []. repeat split; constructor.
  - inversion Hlow as [|? ? Hrow Hrows]; subst.
    inversion Hhigh as [|? ? Hrow' Hrows']; subst.
    destruct (IH Hrows Hrows') as (all & Hall & Hlen & Hrange).
    destruct (py_max_Z_bounds row n Hrow Hrow') as (m & Hm & Hbounds).
    destruct (reciprocal_bounds m n Hbounds) as (q & Hq & Hq1 & Hq2).
    cbn [map_result]. rewrite Hm.
    destruct (map_result py_max_Z rows) as [maxs|]; [|discriminate].
    cbn [map_result]. rewrite Hq, Hall.
    exists (q :: all). split; [reflexivity|]. split; [simpl; lia|].
    constructor; [split; assumption | exact Hrange].
Qed.

End EccentricityRange.

Lemma eccentricity_of_nodes_witness :
  eccentricity path3_distances path3 (Some [2; -1; 1]%Z)
  = map_result (py_index [1 / inject_Z 2; 1 / inject_Z 1; 1 / inject_Z 2]%Q)
               [2; -1; 1]%Z.
Proof.
  apply (eccentricity_of_nodes path3_distances path3 [2; -1; 1]%Z
           [1 / inject_Z 2; 1 / inject_Z 1; 1 / inject_Z 2]%Q).
  - simpl. lia.
  - reflexivity.
Defined.

Lemma eccentricity_small_graph_witness :
  eccentricity path3_distances single_vertex (Some [5; 0; 0]%Z) = Ok [1%Q].
Proof.
  apply (eccentricity_small_graph path3_distances single_vertex
           (Some [5; 0; 0]%Z)).
  simpl. lia.
Defined.

Lemma eccentricity_range_witness :
  exists all : list Q,
    eccentricity wedge_distances wedge None = Ok all
    /\ List.length all = List.length (wedge_distances wedge)
    /\ Forall (fun q => (1 / inject_Z (Z.of_nat (vcount wedge)) <= q)%Q
                        /\ (q <= 1)%Q) all.
Proof.
  apply (eccentricity_range wedge_distances wedge).
  - simpl. lia.
  - repeat constructor; exists 1%Z + exists 3%Z; simpl; split; (tauto || lia).
  - repeat constructor; simpl; lia.
Defined.

(** ** The k-cores *)

Lemma core_idxs_filter (corenesses : list Z) (k : Z) (vidxs : list nat) :
  Forall (fun v => v < List.length corenesses) vidxs ->
  core_idxs corenesses k vidxs
  = Ok (List.filter (fun v => (k <=? nth v corenesses 0%Z)%Z) vidxs).
Proof.
  induction 1 as [|v vs Hv _ IH]; [reflexivity|].
  cbn [core_idxs List.filter].
  destruct (nth_lookup_or_length corenesses v 0%Z) as [Hl | Hl]; [|lia].
  rewrite Hl, IH. reflexivity.
Qed.

Lemma core_idxs_vertices (corenesses : list Z) (n : nat) (k : Z) :
  n <= List.length corenesses ->
  core_idxs corenesses k (seq 0 n) = Ok (core_vertices corenesses n k).
Proof.
  intros Hn. apply core_idxs_filter.
  apply Forall_forall. intros v Hv.
  apply list_elem_of_In, in_seq in Hv. lia.
Qed.

Lemma map_result_ok {A B} (f : A -> B) (xs : list A) :
  map_result (fun x => Ok (f x)) xs = Ok (map f xs).
Proof.
  induction xs as [|x xs IH]; [reflexivity|]. simpl. now rewrite IH.
Qed.

Section KCoreFacts.

Variable coreness : Graph -> list Z.
Variable subgraph : Graph -> list nat -> Graph.

(** The cores of the graph for the indices given. *)
Lemma k_core_graphs (self : Graph) (indices : list Z) :
  vcount self <= List.length (coreness self) ->
  map_result (fun idx =>
                match core_idxs (coreness self) idx (seq 0 (vcount self)) with
                | Raise e => Raise e
                | Ok core => Ok (subgraph self core)
                end) indices
  = Ok (map (fun k => subgraph self
                        (core_vertices (coreness self) (vcount self) k))
            indices).
Proof using Type.
  intros Hn. rewrite <- map_result_ok. apply map_result_ext. intros k.
  now rewrite core_idxs_vertices.
Qed.

(** X19: [k_core()] with no argument gives the cores for
    [k = 0, ..., n-1] on a graph of [n >= 2] vertices, and raises
    [IndexError] on a graph of one vertex or none, where line 398 looks at
    [args[0]]. *)
Theorem k_core_no_arguments (self : Graph) :
  vcount self <= List.length (coreness self) ->
  k_core coreness subgraph self []
  = if Nat.ltb 1 (vcount self) then
      Ok (CoreGraphs
            (map (fun k => subgraph self
                              (core_vertices (coreness self) (vcount self) k))
                 (map Z.of_nat (seq 0 (vcount self)))))
    else Raise IndexError.
Proof using Type.
  intros Hn. unfold k_core. rewrite length_map, length_seq.
  destruct (Nat.ltb 1 (vcount self)); [|reflexivity].
  now rewrite k_core_graphs.
Qed.

(** X20: one integer gives one graph, the vertices of that coreness or
    more; the same integer in a list gives the list of that one graph. *)
Theorem k_core_single (self : Graph) (k : Z) :
  vcount self <= List.length (coreness self) ->
  k_core coreness subgraph self [CoreInt k]
  = Ok (CoreGraph (subgraph self
                     (core_vertices (coreness self) (vcount self) k)))
  /\ k_core coreness subgraph self [CoreList [k]]
     = Ok (CoreGraphs [subgraph self
                         (core_vertices (coreness self) (vcount self) k)]).
Proof using Type.
  intros Hn. unfold k_core. cbn [core_indices flat_map app List.length Nat.ltb Nat.leb].
  rewrite (k_core_graphs self [k] Hn). split; reflexivity.
Qed.

(** X21: with two indices or more among the arguments, integers and
    lists alike are put into one list, and the result has the core of every
    index, in the order given. *)
Theorem k_core_many (self : Graph) (args : list core_arg) :
  vcount self <= List.length (coreness self) ->
  2 <= List.length (core_indices args) ->
  k_core coreness subgraph self args
  = Ok (CoreGraphs
          (map (fun k => subgraph self
                            (core_vertices (coreness self) (vcount self) k))
               (core_indices args))).
Proof using Type.
  intros Hn Hlen. unfold k_core.
  destruct args as [|arg args]; [simpl in Hlen; lia|].
  destruct (Nat.ltb_lt 1 (List.length (core_indices (arg :: args)))) as [_ H].
  rewrite H by lia. now rewrite k_core_graphs.
Qed.

End KCoreFacts.

(** X22: the cores are nested: the vertices line 404 finds for an index
    are among those it finds for any smaller index, in the same order. *)
Theorem core_idxs_nested (corenesses : list Z) (k k' : Z) (vidxs : list nat)
    (core core' : list nat) :
  (k <= k')%Z ->
  core_idxs corenesses k vidxs = Ok core ->
  core_idxs corenesses k' vidxs = Ok core' ->
  sublist core' core.
Proof.
  intros Hk. revert core core'.
  induction vidxs as [|v vs IH]; intros core core' H H'; simpl in H, H'.
  - injection H as <-. injection H' as <-. constructor.
  - destruct (corenesses !! v) as [c|]; [|discriminate].
    destruct (core_idxs corenesses k vs) as [r|]; [|discriminate].
    destruct (core_idxs corenesses k' vs) as [r'|]; [|discriminate].
    injection H as <-. injection H' as <-.
    specialize (IH r r' eq_refl eq_refl).
    destruct (k' <=? c)%Z eqn:E'.
    + apply Z.leb_le in E'.
      destruct (Z.leb_le k c) as [_ E]. rewrite E by lia.
      now apply sublist_skip.
    + destruct (k <=? c)%Z; [now apply sublist_cons | exact IH].
Qed.

Lemma k_core_no_arguments_witness :
  k_core unit_coreness induced_subgraph single_vertex [] = Raise IndexError
  /\ k_core kite_coreness induced_subgraph kite []
     = Ok (CoreGraphs
             (map (fun k => induced_subgraph kite
                              (core_vertices (kite_coreness kite) 4 k))
                  [0; 1; 2; 3]%Z)).
Proof.
  split.
  - rewrite (k_core_no_arguments unit_coreness induced_subgraph single_vertex);
      [reflexivity | simpl; lia].
  - rewrite (k_core_no_arguments kite_coreness induced_subgraph kite);
      [reflexivity | simpl; lia].
Defined.

Lemma k_core_single_witness :
  k_core kite_coreness induced_subgraph kite [CoreInt 2]
  = Ok (CoreGraph (induced_subgraph kite [0; 1; 2]))
  /\ k_core kite_coreness induced_subgraph kite [CoreList [2%Z]]
     = Ok (CoreGraphs [induced_subgraph kite [0; 1; 2]]).
Proof.
  apply (k_core_single kite_coreness induced_subgraph kite 2). simpl. lia.
Defined.

Lemma k_core_many_witness :
  k_core kite_coreness induced_subgraph kite [CoreInt 1; CoreList [2; 3]%Z]
  = Ok (CoreGraphs
          (map (fun k => induced_subgraph kite
                           (core_vertices (kite_coreness kite) 4 k))
               [1; 2; 3]%Z)).
Proof.
  apply (k_core_many kite_coreness induced_subgraph kite
           [CoreInt 1; CoreList [2; 3]%Z]); simpl; lia.
Defined.

Lemma core_idxs_nested_witness : sublist [0; 1; 2] [0; 1; 2; 3].
Proof.
  apply (core_idxs_nested [2; 2; 2; 1]%Z 1 2 [0; 1; 2; 3]
           [0; 1; 2; 3] [0; 1; 2]); [lia | reflexivity | reflexivity].
Defined.

(** ** Edge betweenness clustering *)

Lemma fold_max_in (xs : list Q) (x : Q) :
  In (fold_left (fun m y => if Qltb m y then y else m) xs x) (x :: xs).
Proof.
  revert x. induction xs as [|y xs IH]; intros x; [left; reflexivity|].
  cbn [fold_left]. destruct (Qltb x y).
  - right. apply IH.
  - destruct (IH x) as [H | H]; [left; exact H | right; right; exact H].
Qed.

Lemma py_max_in (xs : list Q) (m : Q) : py_max xs = Ok m -> In m xs.
Proof.
  destruct xs as [|x xs]; [discriminate|]. simpl. intros H.
  injection H as <-. apply fold_max_in.
Qed.

Lemma index_of_in (m : Q) (xs : list Q) :
  In m xs -> exists i, index_of m xs = Ok i /\ i < List.length xs.
Proof.
  induction xs as [|y xs IH]; intros Hin; [destruct Hin|].
  cbn [index_of]. destruct (Qeq_bool y m) eqn:E.
  - exists 0. split; [reflexivity | simpl; lia].
  - destruct Hin as [-> | Hin].
    + rewrite (proj2 (Qeq_bool_iff m m) (Qeq_refl m)) in E. discriminate.
    + destruct (IH Hin) as (i & -> & Hi). exists (S i).
      split; [reflexivity | simpl; lia].
Qed.

Section EdgeBetweennessFacts.

Variable Clustering : Type.
Variable graph_clusters : Graph -> Clustering.
Variable clustering_max : Clustering -> result Z.
Variable VertexClustering : Graph -> Clustering -> Clustering.
Variable edge_betweenness : Graph -> bool -> list Q.
Variable delete_edges : Graph -> nat -> Graph.

(** The core gives a betweenness for every edge, and deleting an edge
    that exists leaves one edge less. *)
Hypothesis betweenness_length :
  forall (g : Graph) (directed : bool),
    List.length (edge_betweenness g directed) = ecount g.
Hypothesis delete_edges_ecount :
  forall (g : Graph) (index : nat),
    index < ecount g -> ecount (delete_edges g index) = pred (ecount g).

(** A turn that gets to line 363 on a graph with edges deletes one. *)
Lemma ebc_turn (g : Graph) (directed : bool) :
  ecount g <> 0 ->
  exists (eb_max : Q) (index : nat),
    py_max (edge_betweenness g directed) = Ok eb_max
    /\ index_of eb_max (edge_betweenness g directed) = Ok index
    /\ ecount (delete_edges g index) = pred (ecount g).
Proof using betweenness_length delete_edges_ecount.
  intros Hne. pose proof (betweenness_length g directed) as Hlen.
  destruct (py_max (edge_betweenness g directed)) as [m|] eqn:Hmax.
  - destruct (index_of_in m _ (py_max_in _ _ Hmax)) as (i & Hi & Hlt).
    exists m, i. repeat split; [exact Hi|].
    apply delete_edges_ecount. lia.
  - destruct (edge_betweenness g directed); [simpl in Hlen; lia | discriminate].
Qed.

Lemma ebc_loop_more_fuel (fuel : nat) (clusters steps : option Z)
    (directed : bool) (g : Graph) (n : Z) (r : result Graph) :
  ebc_loop Clustering graph_clusters clustering_max edge_betweenness
           delete_edges fuel clusters steps directed g n = Some r ->
  ebc_loop Clustering graph_clusters clustering_max edge_betweenness
           delete_edges (S fuel) clusters steps directed g n = Some r.
Proof using Type.
  revert g n. induction fuel as [|fuel IH]; intros g n H; [discriminate|].
  cbn [ebc_loop] in H. cbn [ebc_loop].
  destruct (match clusters with None => _ | Some _ => _ end) as [[|]|];
    try exact H.
  destruct (match steps with None => _ | Some _ => _ end); [exact H|].
  cbv zeta in *.
  destruct (Nat.eqb _ 0); [exact H|].
  destruct (py_max _); [|exact H].
  destruct (index_of _ _); [|exact H].
  apply IH. exact H.
Qed.

Lemma ebc_loop_fuel_le (fuel fuel' : nat) (clusters steps : option Z)
    (directed : bool) (g : Graph) (n : Z) (r : result Graph) :
  fuel <= fuel' ->
  ebc_loop Clustering graph_clusters clustering_max edge_betweenness
           delete_edges fuel clusters steps directed g n = Some r ->
  ebc_loop Clustering graph_clusters clustering_max edge_betweenness
           delete_edges fuel' clusters steps directed g n = Some r.
Proof using Type.
  induction 1 as [|fuel' _ IH]; [auto|].
  intros H. apply ebc_loop_more_fuel. auto.
Qed.

Lemma ebc_loop_ends (fuel : nat) (clusters steps : option Z)
    (directed : bool) (g : Graph) (n : Z) :
  ecount g < fuel ->
  exists r, ebc_loop Clustering graph_clusters clustering_max edge_betweenness
                     delete_edges fuel clusters steps directed g n = Some r.
Proof using betweenness_length delete_edges_ecount.
  revert g n. induction fuel as [|fuel IH]; intros g n Hfuel; [lia|].
  cbn [ebc_loop].
  destruct (match clusters with None => _ | Some _ => _ end) as [[|]|];
    eauto.
  destruct (match steps with None => _ | Some _ => _ end); eauto.
  cbv zeta. rewrite betweenness_length.
  destruct (Nat.eqb (ecount g) 0) eqn:E; eauto.
  apply Nat.eqb_neq in E.
  destruct (ebc_turn g directed E) as (m & i & -> & -> & Hdel).
  apply IH. lia.
Qed.

(** X23: the loop always ends: on a graph of [m] edges the body is
    entered [m + 1] times at most, whatever [clusters] and [steps] are, and
    more turns allowed change nothing. *)
Theorem edge_betweenness_clustering_ends (self : Graph)
    (clusters steps : option Z) (fuel : nat) :
  ecount self < fuel ->
  exists r : result Clustering,
    forall fuel' : nat, fuel <= fuel' ->
      snd (edge_betweenness_clustering Clustering graph_clusters clustering_max
             VertexClustering edge_betweenness delete_edges fuel' self
             clusters steps) = Some r.
Proof using betweenness_length delete_edges_ecount.
  intros Hfuel. unfold edge_betweenness_clustering. cbn [snd].
  destruct (ebc_loop_ends fuel clusters steps (is_directed self) self 0 Hfuel)
    as [r Hr].
  exists (match r with
          | Raise e => Raise e
          | Ok g => Ok (VertexClustering self (graph_clusters g))
          end).
  intros fuel' Hle.
  rewrite (ebc_loop_fuel_le fuel fuel' _ _ _ _ _ r Hle Hr).
  destruct r; reflexivity.
Qed.

(** Without [clusters], [steps] alone says how many edges go. *)
Lemma ebc_loop_steps (fuel : nat) (s : Z) (directed : bool) (g : Graph)
    (n : Z) :
  ecount g < fuel ->
  exists g' : Graph,
    ebc_loop Clustering graph_clusters clustering_max edge_betweenness
             delete_edges fuel None (Some s) directed g n = Some (Ok g')
    /\ ecount g' = ecount g - Nat.min (Z.to_nat (s - n + 1)) (ecount g).
Proof using betweenness_length delete_edges_ecount.
  revert g n. induction fuel as [|fuel IH]; intros g n Hfuel; [lia|].
  cbn [ebc_loop]. destruct (s <? n)%Z eqn:Hs.
  - apply Z.ltb_lt in Hs. exists g. split; [reflexivity|].
    replace (Z.to_nat (s - n + 1)) with 0 by lia. simpl. lia.
  - apply Z.ltb_ge in Hs. cbv zeta. rewrite betweenness_length.
    destruct (Nat.eqb (ecount g) 0) eqn:E.
    + apply Nat.eqb_eq in E. exists g. split; [reflexivity | lia].
    + apply Nat.eqb_neq in E.
      destruct (ebc_turn g directed E) as (m & i & -> & -> & Hdel).
      destruct (IH (delete_edges g i) (n + 1)%Z ltac:(lia)) as (g' & Hg' & He).
      exists g'. split; [exact Hg'|]. rewrite He, Hdel.
      replace (Z.to_nat (s - n + 1)) with (S (Z.to_nat (s - (n + 1) + 1)))
        by lia.
      lia.
Qed.

Lemma ebc_loop_no_limit (fuel : nat) (directed : bool) (g : Graph) (n : Z) :
  ecount g < fuel ->
  exists g' : Graph,
    ebc_loop Clustering graph_clusters clustering_max edge_betweenness
             delete_edges fuel None None directed g n = Some (Ok g')
    /\ ecount g' = 0.
Proof using betweenness_length delete_edges_ecount.
  revert g n. induction fuel as [|fuel IH]; intros g n Hfuel; [lia|].
  cbn [ebc_loop]. cbv zeta. rewrite betweenness_length.
  destruct (Nat.eqb (ecount g) 0) eqn:E.
  - apply Nat.eqb_eq in E. exists g. split; [reflexivity | exact E].
  - apply Nat.eqb_neq in E.
    destruct (ebc_turn g directed E) as (m & i & -> & -> & Hdel).
    apply IH. lia.
Qed.

(** X24: with [steps] given and no [clusters], the result is the
    clustering of the graph after [steps + 1] edges have been deleted (all
    of them when there are fewer, none when [steps] is negative): the test
    of line 362 lets one turn more through than [steps] says. *)
Theorem edge_betweenness_clustering_steps (self : Graph) (s : Z)
    (fuel : nat) :
  ecount self < fuel ->
  exists g' : Graph,
    snd (edge_betweenness_clustering Clustering graph_clusters clustering_max
           VertexClustering edge_betweenness delete_edges fuel self
           None (Some s))
    = Some (Ok (VertexClustering self (graph_clusters g')))
    /\ ecount g' = ecount self - Nat.min (Z.to_nat (s + 1)) (ecount self).
Proof using betweenness_length delete_edges_ecount.
  intros Hfuel. unfold edge_betweenness_clustering. cbn [snd].
  destruct (ebc_loop_steps fuel s (is_directed self) self 0 Hfuel)
    as (g' & -> & He).
  exists g'. split; [reflexivity|].
  rewrite He. now rewrite Z.sub_0_r.
Qed.

(** X25: with neither [clusters] nor [steps] given, every edge is
    deleted before the loop ends: the result is the clustering of a graph
    that has no edge left. *)
Theorem edge_betweenness_clustering_no_limit (self : Graph) (fuel : nat) :
  ecount self < fuel ->
  exists g' : Graph,
    snd (edge_betweenness_clustering Clustering graph_clusters clustering_max
           VertexClustering edge_betweenness delete_edges fuel self
           None None)
    = Some (Ok (VertexClustering self (graph_clusters g')))
    /\ ecount g' = 0.
Proof using betweenness_length delete_edges_ecount.
  intros Hfuel. unfold edge_betweenness_clustering. cbn [snd].
  destruct (ebc_loop_no_limit fuel (is_directed self) self 0 Hfuel)
    as (g' & -> & He).
  exists g'. split; [reflexivity | exact He].
Qed.

End EdgeBetweennessFacts.

Lemma last_edge_betweenness_length (g : Graph) (directed : bool) :
  List.length (last_edge_betweenness g directed) = ecount g.
Proof.
  unfold last_edge_betweenness. destruct (ecount g) as [|n]; [reflexivity|].
  rewrite length_app, repeat_length. simpl. lia.
Qed.

Lemma delete_edge_ecount (g : Graph) (index : nat) :
  index < ecount g -> ecount (delete_edge g index) = pred (ecount g).
Proof.
  unfold ecount, delete_edge. cbn [get_edgelist]. intros H.
  rewrite length_delete by (now apply lookup_lt_is_Some). lia.
Qed.

Lemma edge_betweenness_clustering_ends_witness :
  exists r : result Graph,
    forall fuel' : nat, 5 <= fuel' ->
      snd (edge_betweenness_clustering Graph (fun g => g) one_cluster
             clustering_of last_edge_betweenness delete_edge fuel' kite
             (Some 3%Z) (Some 1%Z)) = Some r.
Proof.
  apply (edge_betweenness_clustering_ends Graph (fun g => g) one_cluster
           clustering_of last_edge_betweenness delete_edge
           last_edge_betweenness_length delete_edge_ecount kite
           (Some 3%Z) (Some 1%Z) 5).
  cbv. lia.
Defined.

Lemma edge_betweenness_clustering_steps_witness :
  exists g' : Graph,
    snd (edge_betweenness_clustering Graph (fun g => g) one_cluster
           clustering_of last_edge_betweenness delete_edge 5 kite
           None (Some 1%Z))
    = Some (Ok (clustering_of kite g'))
    /\ ecount g' = ecount kite - Nat.min (Z.to_nat (1 + 1)) (ecount kite).
Proof.
  apply (edge_betweenness_clustering_steps Graph (fun g => g) one_cluster
           clustering_of last_edge_betweenness delete_edge
           last_edge_betweenness_length delete_edge_ecount kite 1 5).
  cbv. lia.
Defined.

Lemma edge_betweenness_clustering_no_limit_witness :
  exists g' : Graph,
    snd (edge_betweenness_clustering Graph (fun g => g) one_cluster
           clustering_of last_edge_betweenness delete_edge 5 kite
           None None)
    = Some (Ok (clustering_of kite g'))
    /\ ecount g' = 0.
Proof.
  apply (edge_betweenness_clustering_no_limit Graph (fun g => g) one_cluster
           clustering_of last_edge_betweenness delete_edge
           last_edge_betweenness_length delete_edge_ecount kite 5).
  cbv. lia.
Defined.

(** ** Pickling *)

Section PickleFacts.

Variable dumps : Graph -> Z -> result string.
Variable loads : string -> result pyobj.

(** X26: a graph written by [write_pickle] to a path comes back from
    [Read_Pickle] of that path, when unpickling undoes pickling and the path
    is not taken for pickled data: the file is opened for writing, written
    once and closed, then opened for reading and closed, and holds the
    pickled text. *)
Theorem pickle_file_round_trip (self : Graph) (p data : string) (version : Z)
    (w : world) :
  dumps self version = Ok data ->
  loads data = Ok (ObjGraph self) ->
  Nat.ltb 40 (String.length p) && contains pickle_marker p = false ->
  (write_pickle dumps self (PickleStr p) version ;;;
   Read_Pickle loads (PickleStr p)) w
  = (World (<[p := data]> (files w))
           (log w ++ [EvOpen p "wb"; EvWrite p data; EvClose p;
                      EvOpen p "rb"; EvClose p]),
     Ok (ObjGraph self)).
Proof using Type.
  intros Hdumps Hloads Hpath.
  unfold write_pickle, Read_Pickle. rewrite Hpath.
  unfold bind, open_for_writing, lift_result, file_write, file_close, tell,
    ret, open_for_reading, emit.
  rewrite Hdumps. cbn [files log].
  rewrite alter_insert_eq, lookup_insert_eq.
  change ("" +:+ data) with data. rewrite Hloads. cbn [files log].
  rewrite <- !app_assoc. reflexivity.
Qed.

(** X27: a string of more than 40 characters that contains the marker
    is unpickled as it is: no file is opened, and the object is returned
    without the test of its class that the other path makes, be it a graph
    or not. So is what [write_pickle] returns when no file is given. *)
Theorem pickle_string_round_trip (self : Graph) (data : string) (version : Z)
    (w : world) :
  dumps self version = Ok data ->
  40 < String.length data ->
  contains pickle_marker data = true ->
  write_pickle dumps self PickleNone version w = (w, Ok (Some data))
  /\ Read_Pickle loads (PickleStr data) w = (w, loads data).
Proof using Type.
  intros Hdumps Hlen Hmark. split.
  - unfold write_pickle, bind, lift_result, ret. rewrite Hdumps. reflexivity.
  - unfold Read_Pickle. rewrite Hmark.
    destruct (Nat.ltb_lt 40 (String.length data)) as [_ H]. rewrite H by lia.
    reflexivity.
Qed.

(** X28: what [Read_Pickle] does with a file that holds no graph: an
    object of another class is a [TypeError] once the file is closed; when
    unpickling raises, its exception comes out and the file is not
    closed. *)
Theorem read_pickle_not_a_graph (p text : string) (w : world) :
  Nat.ltb 40 (String.length p) && contains pickle_marker p = false ->
  files w !! p = Some text ->
  (forall repr : string, loads text = Ok (ObjOther repr) ->
     Read_Pickle loads (PickleStr p) w
     = (emits [EvOpen p "rb"; EvClose p] w, Raise TypeError))
  /\ (forall e : exn, loads text = Raise e ->
        Read_Pickle loads (PickleStr p) w = (emits [EvOpen p "rb"] w, Raise e)).
Proof using Type.
  intros Hpath Hfile.
  split; intros x Hloads; unfold Read_Pickle; rewrite Hpath;
    unfold bind, open_for_reading, lift_result, file_close, tell, emit, emits;
    rewrite Hfile, Hloads; cbn [files log];
    rewrite <- ?app_assoc; reflexivity.
Qed.

(** X29: file objects do not work. [Read_Pickle] of a file object, and
    of [None], the default, is a [TypeError] of [len] before anything is
    read; [write_pickle] to a file object writes the pickled graph and
    then raises, reading [file_was_opened], which is assigned only when a
    path is given. *)
Theorem pickle_file_objects (self : Graph) (name data : string) (version : Z)
    (w : world) :
  dumps self version = Ok data ->
  Read_Pickle loads PickleNone w = (w, Raise TypeError)
  /\ Read_Pickle loads (PickleFile name) w = (w, Raise TypeError)
  /\ write_pickle dumps self (PickleFile name) version w
     = (World (alter (fun text => text +:+ data) name (files w))
              (log w ++ [EvWrite name data]),
        Raise (UnboundLocalError "file_was_opened")).
Proof using Type.
  intros Hdumps. split; [reflexivity|]. split; [reflexivity|].
  unfold write_pickle, bind, lift_result, file_write. rewrite Hdumps.
  reflexivity.
Qed.

End PickleFacts.

Lemma pickle_file_round_trip_witness :
  (write_pickle toy_dumps wedge (PickleStr "g.pickle") 2 ;;;
   Read_Pickle toy_loads (PickleStr "g.pickle")) empty_world
  = (World (<["g.pickle" := wedge_pickle]> (files empty_world))
           (log empty_world
            ++ [EvOpen "g.pickle" "wb"; EvWrite "g.pickle" wedge_pickle;
                EvClose "g.pickle"; EvOpen "g.pickle" "rb";
                EvClose "g.pickle"]),
     Ok (ObjGraph wedge)).
Proof.
  apply (pickle_file_round_trip toy_dumps toy_loads wedge "g.pickle"
           wedge_pickle 2 empty_world); reflexivity.
Defined.

Lemma pickle_string_round_trip_witness :
  write_pickle toy_dumps wedge PickleNone 2 empty_world
  = (empty_world, Ok (Some wedge_pickle))
  /\ Read_Pickle toy_loads (PickleStr wedge_pickle) empty_world
     = (empty_world, toy_loads wedge_pickle).
Proof.
  apply (pickle_string_round_trip toy_dumps toy_loads wedge wedge_pickle 2
           empty_world); [reflexivity | vm_compute; lia | reflexivity].
Defined.

Lemma read_pickle_not_a_graph_witness :
  Read_Pickle toy_loads (PickleStr "n.pickle")
              (World {["n.pickle" := "I7."]} [])
  = (emits [EvOpen "n.pickle" "rb"; EvClose "n.pickle"]
           (World {["n.pickle" := "I7."]} []), Raise TypeError).
Proof.
  destruct (read_pickle_not_a_graph toy_loads "n.pickle" "I7."
              (World {["n.pickle" := "I7."]} [])) as [H _];
    [reflexivity | vm_compute; reflexivity |].
  apply (H "7"). reflexivity.
Defined.

Lemma pickle_file_objects_witness :
  Read_Pickle toy_loads PickleNone empty_world = (empty_world, Raise TypeError)
  /\ Read_Pickle toy_loads (PickleFile "g.pickle") empty_world
     = (empty_world, Raise TypeError)
  /\ write_pickle toy_dumps wedge (PickleFile "g.pickle") 2 empty_world
     = (World (alter (fun text => text +:+ wedge_pickle) "g.pickle"
                     (files empty_world))
              (log empty_world ++ [EvWrite "g.pickle" wedge_pickle]),
        Raise (UnboundLocalError "file_was_opened")).
Proof.
  apply (pickle_file_objects toy_dumps toy_loads wedge "g.pickle"
           wedge_pickle 2 empty_world).
  reflexivity.
Defined.
